(** * bettingbot: the hand evaluator, the hand strength calculator and the
    betting code

    A shallow embedding of [Card], [HandEvaluator], [PokerBot] and
    [OpponentTracker] (poker4.py) and of [HandStrengthCalculator],
    [AdvancedPokerBot], [EnhancedOpponentTracker] and [StrategyAdjustor]
    (poker5.py).

    - Python [int] is [Z]; Python [float] is the kernel's binary64
      [PrimFloat.float], so every rounding of the source happens here too.
    - A [raise] is the [Raise] constructor of [res]; the betting code, which
      also divides and indexes dicts, has [Throw] of [outcome].
    - A [dict] is an association list in insertion order, which is the order
      Python iterates it in.
    - [sorted] is a stable insertion sort; with [reverse=True] Python keeps
      equal keys in their original order, and so does [sorted].
    - A method that changes an object in place and may raise half-way
      returns the object it leaves behind beside the exception. *)

From Stdlib Require Import String ZArith List Bool Lia Permutation Sorted PrimFloat Uint63.
From Stdlib Require Import DecimalString.
Import ListNotations.

Set Warnings "-inexact-float".
Open Scope Z_scope.

(** ** Results of calls that may raise *)

Inductive exn : Type :=
| ValueError (msg : string)
| IndexError.

Inductive res (A : Type) : Type :=
| Ok (a : A)
| Raise (e : exn).
Arguments Ok {A} a.
Arguments Raise {A} e.

Definition bind {A B : Type} (m : res A) (k : A -> res B) : res B :=
  match m with
  | Ok a => k a
  | Raise e => Raise e
  end.

Notation "x <- m ;; k" := (bind m (fun x => k))
  (at level 61, m at next level, right associativity).

(** ** The Python builtins the source uses *)

Module Py.

Section Sorting.
Context {A : Type} (key : A -> Z) (reverse : bool).

(** [before x y]: [x] must come strictly before [y] in the output. *)
Definition before (x y : A) : bool :=
  if reverse then key y <? key x else key x <? key y.

(** [in_order x y]: [x] may stand before [y] in a sorted list. *)
Definition in_order (x y : A) : Prop := before y x = false.

Fixpoint insert (x : A) (l : list A) : list A :=
  match l with
  | [] => [x]
  | y :: l' => if before y x then y :: insert x l' else x :: l
  end.

(** [sorted(l, key=key, reverse=reverse)] *)
Definition sorted (l : list A) : list A := fold_right insert [] l.
End Sorting.

(** [set(l)] for a list of integers; only ever consumed by [sorted]. *)
Definition set (l : list Z) : list Z := nodup Z.eq_dec l.

(** [d.setdefault(k, []).append(x)] *)
Fixpoint setdefault_append {K V : Type} (eqb : K -> K -> bool)
    (k : K) (x : V) (d : list (K * list V)) : list (K * list V) :=
  match d with
  | [] => [(k, [x])]
  | (k', xs) :: d' =>
      if eqb k k' then (k', xs ++ [x]) :: d'
      else (k', xs) :: setdefault_append eqb k x d'
  end.

(** [d.get(k, default)] *)
Fixpoint get {K V : Type} (eqb : K -> K -> bool) (d : list (K * V)) (k : K)
    (default : V) : V :=
  match d with
  | [] => default
  | (k', v) :: d' => if eqb k k' then v else get eqb d' k default
  end.

(** [d[k] = v] *)
Fixpoint setitem {K V : Type} (eqb : K -> K -> bool) (k : K) (v : V)
    (d : list (K * V)) : list (K * V) :=
  match d with
  | [] => [(k, v)]
  | (k', v') :: d' =>
      if eqb k k' then (k', v) :: d' else (k', v') :: setitem eqb k v d'
  end.

(** [range(start, start - n, -1)] *)
Definition range_down (start : Z) (n : nat) : list Z :=
  map (fun k => start - Z.of_nat k) (seq 0 n).

(** [sum(l)] *)
Definition sum (l : list Z) : Z := fold_left Z.add l 0.

(** [float(z)]; exact for every [|z| < 2^53]. *)
Definition float_of_int (z : Z) : float :=
  if z <? 0 then PrimFloat.opp (PrimFloat.of_uint63 (Uint63.of_Z (- z)))
  else PrimFloat.of_uint63 (Uint63.of_Z z).

(** [a / b] on two integers: the correctly rounded quotient, which for
    integers below [2^53] is the binary64 quotient of their conversions. *)
Definition truediv (a b : Z) : float :=
  PrimFloat.div (float_of_int a) (float_of_int b).

(** [max(a, b)] and [min(a, b)] on floats: the first argument wins ties. *)
Definition max (a b : float) : float := if PrimFloat.ltb a b then b else a.
Definition min (a b : float) : float := if PrimFloat.ltb b a then b else a.

End Py.

(** ** Data model (poker4.py) *)

Inductive Suit : Type := HEARTS | DIAMONDS | CLUBS | SPADES.

Definition Suit_eqb (a b : Suit) : bool :=
  match a, b with
  | HEARTS, HEARTS | DIAMONDS, DIAMONDS | CLUBS, CLUBS | SPADES, SPADES => true
  | _, _ => false
  end.

Record Card : Type := mkCard { value : Z; suit : Suit }.

(** [Card.__init__] *)
Definition Card_init (v : Z) (s : Suit) : res Card :=
  if negb ((2 <=? v) && (v <=? 14))
  then Raise (ValueError "Card value must be between 2 and 14 (14 = Ace)")
  else Ok (mkCard v s).

(** What [Card.__init__] establishes of every card. *)
Definition valid_card (c : Card) : Prop := 2 <= value c <= 14.

Inductive HandRank : Type :=
| HIGH_CARD | PAIR | TWO_PAIR | THREE_OF_A_KIND | STRAIGHT
| FLUSH | FULL_HOUSE | FOUR_OF_A_KIND | STRAIGHT_FLUSH | ROYAL_FLUSH.

Definition HandRank_value (r : HandRank) : Z :=
  match r with
  | HIGH_CARD => 1 | PAIR => 2 | TWO_PAIR => 3 | THREE_OF_A_KIND => 4
  | STRAIGHT => 5 | FLUSH => 6 | FULL_HOUSE => 7 | FOUR_OF_A_KIND => 8
  | STRAIGHT_FLUSH => 9 | ROYAL_FLUSH => 10
  end.

Definition all_HandRank : list HandRank :=
  [HIGH_CARD; PAIR; TWO_PAIR; THREE_OF_A_KIND; STRAIGHT;
   FLUSH; FULL_HOUSE; FOUR_OF_A_KIND; STRAIGHT_FLUSH; ROYAL_FLUSH].

(** [l[i].value], used where the source has just checked that [i] is in
    range. *)
Definition value_at (l : list Card) (i : nat) : Z := nth i (map value l) 0.

(** ** HandEvaluator (poker4.py) *)

Module HandEvaluator.

(** The dictionary both grouping loops build: [key(card) -> cards], in
    order of first occurrence. *)
Definition group_by {K : Type} (eqb : K -> K -> bool) (key : Card -> K)
    (hand : list Card) : list (K * list Card) :=
  fold_left (fun d card => Py.setdefault_append eqb (key card) card d) hand [].

Definition _get_flush_cards (hand : list Card) : list Card :=
  let suits := group_by Suit_eqb suit hand in
  match find (fun kv => (5 <=? length (snd kv))%nat) suits with
  | Some (_, suit_cards) => firstn 5 (Py.sorted value true suit_cards)
  | None => []
  end.

(** The inner loop of [_get_straight_cards]: the first card of rank [v], if
    any, is appended. *)
Definition first_with_value (hand : list Card) (v : Z) : list Card :=
  match find (fun card => value card =? v) hand with
  | Some card => [card]
  | None => []
  end.

Definition _get_straight_cards (hand : list Card) : list Card :=
  let values := Py.sorted (fun v => v) true (Py.set (map value hand)) in
  match find (fun i => nth i values 0 - nth (i + 4) values 0 =? 4)
             (seq 0 (length values - 4)) with
  | Some i => flat_map (first_with_value hand) (Py.range_down (nth i values 0) 5)
  | None => []
  end.

(** One turn of the kicker loop of [_get_n_of_a_kind]. *)
Definition kickers_step (v : Z) (result : list Card)
    (kickers : list Card) (card : Card) : list Card :=
  if negb (value card =? v)
     && (length result + length kickers <? 5)%nat
  then kickers ++ [card] else kickers.

(** [sorted(value_groups.items(), reverse=True)] orders the [(value, cards)]
    pairs by value: the values are the distinct keys of the dictionary, so
    the comparison of two pairs is settled by their first components. *)
Definition _get_n_of_a_kind (hand : list Card) (n : nat) : list Card :=
  let value_groups := group_by Z.eqb value hand in
  match find (fun kv => (n <=? length (snd kv))%nat)
             (Py.sorted fst true value_groups) with
  | Some (v, cards) =>
      let result := firstn n cards in
      let kickers :=
        fold_left (kickers_step v result) (Py.sorted value true hand) [] in
      result ++ kickers
  | None => []
  end.

Definition _get_full_house (hand : list Card) : list Card :=
  let three_kind := _get_n_of_a_kind hand 3 in
  match three_kind with
  | [] => []
  | _ =>
      let remaining_cards :=
        filter (fun card => negb (value card =? value_at three_kind 0)) hand in
      let pair := _get_n_of_a_kind remaining_cards 2 in
      match pair with
      | [] => []
      | _ => firstn 3 three_kind ++ firstn 2 pair
      end
  end.

(** The kicker loop of [_get_two_pair]: the first card, by descending rank,
    of neither paired rank. *)
Definition first_kicker (hand pairs : list Card) : list Card :=
  match find (fun card => negb (value card =? value_at pairs 0)
                          && negb (value card =? value_at pairs 2))
             (Py.sorted value true hand) with
  | Some card => [card]
  | None => []
  end.

(** The loop of [_get_two_pair] over the sorted groups, [pairs] being what
    has been collected so far. *)
Fixpoint two_pair_loop (hand : list Card) (items : list (Z * list Card))
    (pairs : list Card) : list Card :=
  match items with
  | [] => []
  | (_, cards) :: items' =>
      if (2 <=? length cards)%nat then
        let pairs := pairs ++ firstn 2 cards in
        if (4 <=? length pairs)%nat
        then firstn 4 pairs ++ first_kicker hand pairs
        else two_pair_loop hand items' pairs
      else two_pair_loop hand items' pairs
  end.

Definition _get_two_pair (hand : list Card) : list Card :=
  let value_groups := group_by Z.eqb value hand in
  two_pair_loop hand (Py.sorted fst true value_groups) [].

(** Python's truth value of a list, as in [if flush_cards:]. *)
Definition nonempty {A : Type} (l : list A) : bool :=
  match l with [] => false | _ => true end.

(** [evaluate]: the tests in the order of the source, the first that
    succeeds returning.  [straight_flush_cards] is looked for only when
    [flush_cards] is not empty. *)
Definition evaluate (hand : list Card) : res (HandRank * list Card) :=
  if (length hand <? 5)%nat
  then Raise (ValueError "Need at least 5 cards to evaluate a poker hand")
  else
    let flush_cards := _get_flush_cards hand in
    let straight_flush_cards :=
      if nonempty flush_cards then _get_straight_cards flush_cards else [] in
    if nonempty straight_flush_cards then
      if value_at straight_flush_cards 0 =? 14
      then Ok (ROYAL_FLUSH, straight_flush_cards)
      else Ok (STRAIGHT_FLUSH, straight_flush_cards)
    else
    let four_kind := _get_n_of_a_kind hand 4 in
    if nonempty four_kind then Ok (FOUR_OF_A_KIND, four_kind) else
    let full_house := _get_full_house hand in
    if nonempty full_house then Ok (FULL_HOUSE, full_house) else
    if nonempty flush_cards then Ok (FLUSH, firstn 5 flush_cards) else
    let straight := _get_straight_cards hand in
    if nonempty straight then Ok (STRAIGHT, straight) else
    let three_kind := _get_n_of_a_kind hand 3 in
    if nonempty three_kind then Ok (THREE_OF_A_KIND, three_kind) else
    let two_pair := _get_two_pair hand in
    if nonempty two_pair then Ok (TWO_PAIR, two_pair) else
    let pair := _get_n_of_a_kind hand 2 in
    if nonempty pair then Ok (PAIR, pair) else
    let sorted_hand := Py.sorted value true hand in
    Ok (HIGH_CARD, firstn 5 sorted_hand).

End HandEvaluator.

(** ** HandStrengthCalculator (poker5.py) *)

Module HandStrengthCalculator.

Inductive Action : Type := FOLD | CHECK | CALL | RAISE | ALL_IN.

(** [GameState] after [__post_init__]: [community_cards] and
    [round_history] are lists ([None] has become [[]]) and [active_players]
    is a number.  The calculator reads [hand] and [community_cards] only. *)
Record GameState : Type := mkGameState {
  position : Z;
  stack_size : float;
  pot_size : float;
  current_bet : float;
  num_players : Z;
  hand : list Card;
  credits_remaining : float;
  all_in_strategy : bool;
  initial_strategy_used : bool;
  street : string;
  community_cards : list Card;
  active_players : Z;
  position_relative_to_button : option Z;
  last_action : option (Action * float);
  round_history : list (Z * Action * float)
}.

(** [l[i]], raising [IndexError] out of range. *)
Definition getitem (l : list Card) (i : nat) : res Card :=
  match nth_error l i with
  | Some c => Ok c
  | None => Raise IndexError
  end.

(** [l[i].suit], used where the length of [l] has just been checked. *)
Definition suit_at (l : list Card) (i : nat) : Suit := nth i (map suit l) HEARTS.

Definition _calculate_preflop_strength (hand : list Card) : res float :=
  if negb (length hand =? 2)%nat
  then Raise (ValueError "Preflop hand must contain exactly 2 cards")
  else
    let sorted_hand := Py.sorted value true hand in
    if value_at sorted_hand 0 =? value_at sorted_hand 1
    then Ok (0.5 + Py.truediv (value_at sorted_hand 0 - 2) 24)%float
    else
      let suited := Suit_eqb (suit_at sorted_hand 0) (suit_at sorted_hand 1) in
      let gap := value_at sorted_hand 0 - value_at sorted_hand 1 - 1 in
      let strength := (0.3 + Py.truediv (value_at sorted_hand 0 - 2) 24)%float in
      let strength := if suited then (strength + 0.1)%float else strength in
      let strength :=
        if gap =? 0 then (strength + 0.1)%float
        else if gap =? 1 then (strength + 0.05)%float
        else strength in
      let strength :=
        if 10 <=? value_at sorted_hand 1 then (strength + 0.1)%float
        else strength in
      Ok (Py.min 1.0%float strength).

Definition base_strength (hand_rank : HandRank) : float :=
  match hand_rank with
  | HIGH_CARD => 0.1
  | PAIR => 0.2
  | TWO_PAIR => 0.4
  | THREE_OF_A_KIND => 0.6
  | STRAIGHT => 0.7
  | FLUSH => 0.8
  | FULL_HOUSE => 0.9
  | FOUR_OF_A_KIND => 0.95
  | STRAIGHT_FLUSH => 0.98
  | ROYAL_FLUSH => 1.0
  end%float.

Definition _calculate_quality_adjustment (hand_rank : HandRank)
    (best_cards : list Card) : res float :=
  match hand_rank with
  | HIGH_CARD =>
      c0 <- getitem best_cards 0 ;;
      Ok (Py.truediv (value c0 - 2) 12)
  | PAIR =>
      c0 <- getitem best_cards 0 ;;
      Ok (Py.truediv (value c0 - 2) 12)
  | TWO_PAIR =>
      c0 <- getitem best_cards 0 ;;
      c2 <- getitem best_cards 2 ;;
      Ok (Py.truediv ((value c0 - 2) + (value c2 - 2)) 24)
  | _ => Ok 1.0%float
  end.

Definition _calculate_made_hand_strength (game_state : GameState) : res float :=
  let all_cards := hand game_state ++ community_cards game_state in
  rb <- HandEvaluator.evaluate all_cards ;;
  let hand_rank := fst rb in
  let best_cards := snd rb in
  quality_adjustment <- _calculate_quality_adjustment hand_rank best_cards ;;
  Ok (base_strength hand_rank * quality_adjustment)%float.

Definition count_suit (suits : list (Suit * Z)) (card : Card) : list (Suit * Z) :=
  Py.setitem Suit_eqb (suit card) (Py.get Suit_eqb suits (suit card) 0 + 1) suits.

Definition flush_draw_step (draws : list (string * Z)) (sc : Suit * Z)
    : list (string * Z) :=
  if snd sc =? 4 then Py.setitem String.eqb "flush_draw"%string 9 draws
  else draws.

Definition _identify_draws (cards : list Card) : list (string * Z) :=
  let suits := fold_left count_suit cards [] in
  let draws := fold_left flush_draw_step suits [] in
  let values := Py.sorted (fun v => v) false (Py.set (map value cards)) in
  let gaps :=
    map (fun i => nth (i + 1) values 0 - nth i values 0)
        (seq 0 (length values - 1)) in
  if (4 <=? length values)%nat && (Py.sum (firstn 3 gaps) =? 3)
  then Py.setitem String.eqb "straight_draw"%string 8 draws
  else if (4 <=? length values)%nat && (Py.sum (firstn 3 gaps) =? 4)
  then Py.setitem String.eqb "straight_draw"%string 4 draws
  else draws.

Definition draw_step (strength : float) (item : string * Z) : float :=
  let draw_type := fst item in
  let outs := snd item in
  if String.eqb draw_type "flush_draw" then Py.max strength 0.4%float
  else if String.eqb draw_type "straight_draw"
  then Py.max strength (if 8 <=? outs then 0.35%float else 0.25%float)
  else if String.eqb draw_type "two_pair_draw" then Py.max strength 0.2%float
  else strength.

Definition _calculate_drawing_strength (game_state : GameState) : float :=
  if (5 <=? length (community_cards game_state))%nat then 0.0%float
  else
    let draws :=
      _identify_draws (hand game_state ++ community_cards game_state) in
    match draws with
    | [] => 0.0%float
    | _ => fold_left draw_step draws 0.0%float
    end.

Definition calculate_full_strength (game_state : GameState) : res float :=
  match community_cards game_state with
  | [] => _calculate_preflop_strength (hand game_state)
  | _ =>
      current_strength <- _calculate_made_hand_strength game_state ;;
      let drawing_strength := _calculate_drawing_strength game_state in
      Ok (Py.max current_strength
                 (current_strength * 0.7 + drawing_strength * 0.3))%float
  end.

End HandStrengthCalculator.

(** ** Exceptions and division of the betting code *)

(** The betting code raises two more exceptions than the evaluator:
    [ZeroDivisionError] from [/], and [KeyError] from [d[k]]. *)
Inductive key : Type := IntKey (z : Z) | StrKey (s : string).

Inductive error : Type :=
| Evaluator (e : exn)
| ZeroDivisionError
| KeyError (k : key).

Inductive outcome (A : Type) : Type :=
| Return (a : A)
| Throw (e : error).
Arguments Return {A} a.
Arguments Throw {A} e.

Definition obind {A B : Type} (m : outcome A) (k : A -> outcome B) : outcome B :=
  match m with
  | Return a => k a
  | Throw e => Throw e
  end.

Notation "x <~ m ;; k" := (obind m (fun x => k))
  (at level 61, m at next level, right associativity).

(** [a / b] on two floats: Python raises on a zero divisor of either sign,
    and divides as binary64 does otherwise. *)
Definition float_truediv (a b : float) : outcome float :=
  if PrimFloat.eqb b 0 then Throw ZeroDivisionError else Return (a / b)%float.

(** [a / n] on a float and an integer, for [|n| < 2^53], where the
    conversion of [n] is exact. *)
Definition float_div_int (a : float) (n : Z) : outcome float :=
  if n =? 0 then Throw ZeroDivisionError
  else Return (a / Py.float_of_int n)%float.

(** [a / b] on two integers, for [|a|, |b| < 2^53]: there Python divides
    the two conversions, as here.  On larger integers Python rounds the exact
    quotient and can raise [OverflowError]; the statements about this
    division stay within the bound. *)
Definition int_truediv (a b : Z) : outcome float :=
  if b =? 0 then Throw ZeroDivisionError else Return (Py.truediv a b).

(** [k in d] and [d[k]] on a dict. *)
Definition contains {K V : Type} (eqb : K -> K -> bool) (d : list (K * V))
    (k : K) : bool :=
  existsb (fun kv => eqb k (fst kv)) d.

Definition lookup {K V : Type} (eqb : K -> K -> bool) (d : list (K * V))
    (k : K) : option V :=
  match find (fun kv => eqb k (fst kv)) d with
  | Some kv => Some (snd kv)
  | None => None
  end.

(** ** Card.__str__ (poker4.py) *)

Definition Suit_name (s : Suit) : string :=
  match s with
  | HEARTS => "HEARTS"
  | DIAMONDS => "DIAMONDS"
  | CLUBS => "CLUBS"
  | SPADES => "SPADES"
  end.

(** [str(z)] *)
Definition str_of_int (z : Z) : string := NilZero.string_of_int (Z.to_int z).

Definition Card_str (self : Card) : string :=
  let values :=
    [(11, "J"%string); (12, "Q"%string); (13, "K"%string); (14, "A"%string)] in
  let value_str := Py.get Z.eqb values (value self) (str_of_int (value self)) in
  (value_str ++ String.substring 0 1 (Suit_name (suit self)))%string.

(** ** PokerBot (poker4.py) *)

Module PokerBot.
Import HandStrengthCalculator.

(** [GameState] of poker4.py.  The amounts are floats, as annotated; the
    integers the tests pass behave alike in every operation below. *)
Record GameState : Type := mkGameState {
  position : Z;
  stack_size : float;
  pot_size : float;
  current_bet : float;
  num_players : Z;
  hand : list Card;
  credits_remaining : float;
  all_in_strategy : bool;
  initial_strategy_used : bool
}.

Definition initial_credits : Z := 10000.
Definition all_in_threshold : Z := 6000.

Definition evaluate_hand (hand : list Card) : res (HandRank * list Card) :=
  HandEvaluator.evaluate hand.

Definition _calculate_pot_odds (game_state : GameState) : outcome float :=
  if PrimFloat.eqb (current_bet game_state) 0 then Return 1%float
  else float_truediv (pot_size game_state)
                     (pot_size game_state + current_bet game_state)%float.

(** [strength_map[hand_rank]]; every category is a key. *)
Definition _calculate_hand_strength (hand_rank : HandRank) : float :=
  match hand_rank with
  | HIGH_CARD => 0.2
  | PAIR => 0.4
  | TWO_PAIR => 0.6
  | THREE_OF_A_KIND => 0.7
  | STRAIGHT => 0.8
  | FLUSH => 0.85
  | FULL_HOUSE => 0.9
  | FOUR_OF_A_KIND => 0.95
  | STRAIGHT_FLUSH => 0.98
  | ROYAL_FLUSH => 1.0
  end%float.

(** [hand_rank in [FOUR_OF_A_KIND, STRAIGHT_FLUSH, ROYAL_FLUSH]] *)
Definition very_strong (hand_rank : HandRank) : bool :=
  match hand_rank with
  | FOUR_OF_A_KIND | STRAIGHT_FLUSH | ROYAL_FLUSH => true
  | _ => false
  end.

(** [decide_action] after the opening all-in: the part of the body from the
    call of [evaluate_hand] on. *)
Definition play_hand (game_state : GameState) : outcome (Action * float) :=
  match evaluate_hand (hand game_state) with
  | Raise e => Throw (Evaluator e)
  | Ok (hand_rank, best_cards) =>
      if very_strong hand_rank then
        if PrimFloat.leb (pot_size game_state * 3) (stack_size game_state)
        then Return (RAISE, (pot_size game_state * 3)%float)
        else Return (ALL_IN, stack_size game_state)
      else
        pot_odds <~ _calculate_pot_odds game_state ;;
        let hand_strength := _calculate_hand_strength hand_rank in
        if PrimFloat.ltb 0.8 hand_strength then
          Return (RAISE, Py.min (pot_size game_state * 2)
                                (stack_size game_state))
        else if PrimFloat.ltb 0.6 hand_strength then
          if PrimFloat.ltb hand_strength pot_odds
          then Return (CALL, current_bet game_state)
          else Return (RAISE, Py.min (pot_size game_state)
                                     (stack_size game_state))
        else if PrimFloat.ltb 0.4 hand_strength then
          if PrimFloat.ltb hand_strength pot_odds
          then Return (CALL, current_bet game_state)
          else Return (FOLD, 0%float)
        else Return (FOLD, 0%float)
  end.

(** The amount of a fold, the integer 0 of the source, is the float 0. *)
Definition decide_action (game_state : GameState) : outcome (Action * float) :=
  if PrimFloat.ltb (Py.float_of_int (initial_credits - all_in_threshold))
                   (credits_remaining game_state)
     && negb (initial_strategy_used game_state)
  then
    if PrimFloat.leb (credits_remaining game_state) (stack_size game_state)
    then Return (ALL_IN, credits_remaining game_state)
    else play_hand game_state
  else play_hand game_state.

End PokerBot.

(** ** OpponentTracker (poker4.py) *)

Module OpponentTracker.
Import HandStrengthCalculator.

(** The dict [track_action] keeps for a player. *)
Record Stats : Type := mkStats {
  total_hands : Z;
  aggression_factor : float;
  vpip : Z;
  pfr : Z;
  actions : list (Action * float * PokerBot.GameState)
}.

Definition new_stats : Stats := mkStats 0 0 0 0 [].

(** [action in [RAISE, ALL_IN]] *)
Definition is_raise (action : Action) : bool :=
  match action with RAISE | ALL_IN => true | _ => false end.

(** [track_action] changes [self.opponent_stats] in place: the dict it
    leaves behind is returned in every case, beside the exception if one was
    raised. *)
Definition track_action (opponent_stats : list (Z * Stats)) (player_id : Z)
    (action : Action) (bet_amount : float) (game_state : PokerBot.GameState)
    : list (Z * Stats) * outcome unit :=
  let stats := Py.get Z.eqb opponent_stats player_id new_stats in
  let stats :=
    mkStats (total_hands stats + 1) (aggression_factor stats)
            (vpip stats) (pfr stats)
            (actions stats ++ [(action, bet_amount, game_state)]) in
  if is_raise action then
    match float_div_int
            (aggression_factor stats * Py.float_of_int (total_hands stats - 1)
             + 1)%float
            (total_hands stats) with
    | Return af =>
        (Py.setitem Z.eqb player_id
           (mkStats (total_hands stats) af (vpip stats) (pfr stats)
                    (actions stats)) opponent_stats,
         Return tt)
    | Throw e => (Py.setitem Z.eqb player_id stats opponent_stats, Throw e)
    end
  else (Py.setitem Z.eqb player_id stats opponent_stats, Return tt).

End OpponentTracker.

(** ** AdvancedPokerBot (poker5.py) *)

Module AdvancedPokerBot.
Import HandStrengthCalculator.

Definition position_ranges : list (Z * float) :=
  [(0, 0.2%float); (1, 0.3%float); (2, 0.25%float); (3, 0.4%float);
   (4, 0.35%float); (5, 0.3%float); (6, 0.25%float); (7, 0.2%float)].

Definition _handle_preflop (game_state : GameState) (strength : float)
    : outcome (Action * float) :=
  let min_strength :=
    Py.get Z.eqb position_ranges (position game_state) 0.3%float in
  if PrimFloat.ltb strength min_strength then Return (FOLD, 0%float)
  else
    stack_to_pot_ratio <~
      float_truediv (stack_size game_state) (pot_size game_state) ;;
    if PrimFloat.ltb stack_to_pot_ratio 5 then
      if PrimFloat.ltb 0.8 strength
      then Return (ALL_IN, stack_size game_state)
      else if PrimFloat.ltb 0.6 strength
      then Return (RAISE, (pot_size game_state * 2.5)%float)
      else Return (FOLD, 0%float)
    else if PrimFloat.ltb stack_to_pot_ratio 15 then
      if PrimFloat.ltb 0.7 strength
      then Return (RAISE, (pot_size game_state * 3)%float)
      else if PrimFloat.ltb 0.5 strength
      then Return (CALL, current_bet game_state)
      else Return (FOLD, 0%float)
    else
      if PrimFloat.ltb 0.6 strength
      then Return (RAISE, (pot_size game_state * 3.5)%float)
      else if PrimFloat.ltb 0.4 strength
      then Return (CALL, current_bet game_state)
      else Return (FOLD, 0%float).

Definition _calculate_value_bet (game_state : GameState) : outcome float :=
  stack_to_pot <~
    float_truediv (stack_size game_state) (pot_size game_state) ;;
  if PrimFloat.ltb 20 stack_to_pot
  then Return (pot_size game_state * 0.75)%float
  else if PrimFloat.ltb 10 stack_to_pot
  then Return (pot_size game_state * 0.66)%float
  else Return (pot_size game_state * 0.5)%float.

Definition _lead_betting (game_state : GameState) (strength : float)
    : outcome (Action * float) :=
  if PrimFloat.ltb 0.8 strength then
    bet_size <~ _calculate_value_bet game_state ;;
    Return (RAISE, bet_size)
  else if PrimFloat.ltb 0.6 strength
  then Return (RAISE, (pot_size game_state * 0.6)%float)
  else if PrimFloat.ltb 0.4 strength
  then Return (CHECK, 0%float)
  else Return (CHECK, 0%float).

Definition _handle_aggression (game_state : GameState) (strength : float)
    (last_action : Z * Action * float) : outcome (Action * float) :=
  let required_call := (snd last_action - current_bet game_state)%float in
  pot_odds <~
    float_truediv required_call (pot_size game_state + required_call)%float ;;
  if PrimFloat.ltb 0.9 strength
  then Return (RAISE, (pot_size game_state * 3)%float)
  else if PrimFloat.ltb (pot_odds + 0.1) strength
  then Return (CALL, required_call)
  else Return (FOLD, 0%float).

Definition position_multipliers : list (Z * float) :=
  [(0, 1.2%float); (1, 0.9%float); (2, 0.8%float); (3, 0.85%float);
   (4, 0.9%float); (5, 0.95%float); (6, 1.0%float); (7, 1.1%float)].

Definition _get_position_multiplier (position : Z) : float :=
  Py.get Z.eqb position_multipliers position 1.0%float.

End AdvancedPokerBot.

(** ** EnhancedOpponentTracker (poker5.py) *)

Module EnhancedOpponentTracker.
Import HandStrengthCalculator.

(** An entry of [PlayerProfile.position_stats]. *)
Record PositionStats : Type := mkPositionStats {
  pos_vpip : float;
  pos_pfr : float;
  pos_hands : Z
}.

Record PlayerProfile : Type := mkPlayerProfile {
  vpip : float;
  pfr : float;
  af : float;
  total_hands : Z;
  three_bet_freq : float;
  fold_to_three_bet : float;
  avg_bet_size : float;
  position_stats : list (Z * PositionStats)
}.

(** [PlayerProfile()], after [__post_init__]. *)
Definition new_profile : PlayerProfile :=
  mkPlayerProfile 0 0 0 0 0 0 0
    (map (fun i => (Z.of_nat i, mkPositionStats 0 0 0)) (seq 0 9)).

Record Tracker : Type := mkTracker {
  player_profiles : list (Z * PlayerProfile);
  hand_history : list (Z * Action * float * GameState)
}.

(** [EnhancedOpponentTracker()]; [session_stats] is never read or written. *)
Definition new_tracker : Tracker := mkTracker [] [].

(** [deque(maxlen=maxlen).append(x)] *)
Definition deque_append {A : Type} (maxlen : nat) (x : A) (d : list A)
    : list A :=
  if (maxlen <=? length d)%nat then tl (d ++ [x]) else d ++ [x].

(** [action in [CALL, RAISE, ALL_IN]] and [action in [RAISE, ALL_IN]] *)
Definition puts_money (action : Action) : bool :=
  match action with CALL | RAISE | ALL_IN => true | _ => false end.

Definition is_raise (action : Action) : bool :=
  match action with RAISE | ALL_IN => true | _ => false end.

(** [((x * (n - 1)) + k) / n], the update of every running average. *)
Definition average (x : float) (n : Z) (k : float) : outcome float :=
  float_div_int (x * Py.float_of_int (n - 1) + k)%float n.

(** The steps of [track_action] on the profile, in the order of the source.
    The profile is changed in place: each step returns the profile it leaves
    behind, beside the exception if it raised. *)
Definition update_vpip (profile : PlayerProfile) (action : Action)
    (game_state : GameState) : PlayerProfile * outcome unit :=
  if puts_money action && String.eqb (street game_state) "preflop"%string then
    match average (vpip profile) (total_hands profile) 1 with
    | Return v =>
        (mkPlayerProfile v (pfr profile) (af profile) (total_hands profile)
           (three_bet_freq profile) (fold_to_three_bet profile)
           (avg_bet_size profile) (position_stats profile), Return tt)
    | Throw e => (profile, Throw e)
    end
  else (profile, Return tt).

Definition update_pfr (profile : PlayerProfile) (action : Action)
    (game_state : GameState) : PlayerProfile * outcome unit :=
  if is_raise action && String.eqb (street game_state) "preflop"%string then
    match average (pfr profile) (total_hands profile) 1 with
    | Return v =>
        (mkPlayerProfile (vpip profile) v (af profile) (total_hands profile)
           (three_bet_freq profile) (fold_to_three_bet profile)
           (avg_bet_size profile) (position_stats profile), Return tt)
    | Throw e => (profile, Throw e)
    end
  else (profile, Return tt).

Definition update_af (profile : PlayerProfile) (action : Action)
    : PlayerProfile * outcome unit :=
  let set_af v :=
    mkPlayerProfile (vpip profile) (pfr profile) v (total_hands profile)
      (three_bet_freq profile) (fold_to_three_bet profile)
      (avg_bet_size profile) (position_stats profile) in
  if is_raise action then
    match average (af profile) (total_hands profile) 2 with
    | Return v => (set_af v, Return tt)
    | Throw e => (profile, Throw e)
    end
  else
    match action with
    | CALL =>
        match average (af profile) (total_hands profile) 1 with
        | Return v => (set_af v, Return tt)
        | Throw e => (profile, Throw e)
        end
    | _ => (profile, Return tt)
    end.

(** The update of [pos_stats], the entry of the position. *)
Definition update_pos_stats (pos_stats : PositionStats) (action : Action)
    : PositionStats * outcome unit :=
  let pos_stats :=
    mkPositionStats (pos_vpip pos_stats) (pos_pfr pos_stats)
                    (pos_hands pos_stats + 1) in
  let after_vpip :=
    if puts_money action then
      match average (pos_vpip pos_stats) (pos_hands pos_stats) 1 with
      | Return v =>
          (mkPositionStats v (pos_pfr pos_stats) (pos_hands pos_stats),
           Return tt)
      | Throw e => (pos_stats, Throw e)
      end
    else (pos_stats, Return tt) in
  match snd after_vpip with
  | Throw e => after_vpip
  | Return _ =>
      let pos_stats := fst after_vpip in
      if is_raise action then
        match average (pos_pfr pos_stats) (pos_hands pos_stats) 1 with
        | Return v =>
            (mkPositionStats (pos_vpip pos_stats) v (pos_hands pos_stats),
             Return tt)
        | Throw e => (pos_stats, Throw e)
        end
      else (pos_stats, Return tt)
  end.

Definition update_position (profile : PlayerProfile) (action : Action)
    (game_state : GameState) : PlayerProfile * outcome unit :=
  match lookup Z.eqb (position_stats profile) (position game_state) with
  | None => (profile, Throw (KeyError (IntKey (position game_state))))
  | Some pos_stats =>
      let r := update_pos_stats pos_stats action in
      (mkPlayerProfile (vpip profile) (pfr profile) (af profile)
         (total_hands profile) (three_bet_freq profile)
         (fold_to_three_bet profile) (avg_bet_size profile)
         (Py.setitem Z.eqb (position game_state) (fst r)
                     (position_stats profile)),
       snd r)
  end.

Definition update_bet_size (profile : PlayerProfile) (action : Action)
    (bet_amount : float) (game_state : GameState)
    : PlayerProfile * outcome unit :=
  if is_raise action then
    match
      (relative <~ float_truediv bet_amount (pot_size game_state) ;;
       average (avg_bet_size profile) (total_hands profile) relative)
    with
    | Return v =>
        (mkPlayerProfile (vpip profile) (pfr profile) (af profile)
           (total_hands profile) (three_bet_freq profile)
           (fold_to_three_bet profile) v (position_stats profile), Return tt)
    | Throw e => (profile, Throw e)
    end
  else (profile, Return tt).

(** Run the next step unless the last one raised. *)
Definition and_then (r : PlayerProfile * outcome unit)
    (step : PlayerProfile -> PlayerProfile * outcome unit)
    : PlayerProfile * outcome unit :=
  match snd r with
  | Return _ => step (fst r)
  | Throw _ => r
  end.

(** What [track_action] does to the profile of the player. *)
Definition track_profile (profile : PlayerProfile) (action : Action)
    (bet_amount : float) (game_state : GameState)
    : PlayerProfile * outcome unit :=
  let profile :=
    mkPlayerProfile (vpip profile) (pfr profile) (af profile)
      (total_hands profile + 1) (three_bet_freq profile)
      (fold_to_three_bet profile) (avg_bet_size profile)
      (position_stats profile) in
  and_then (and_then (and_then (and_then
    (update_vpip profile action game_state)
    (fun p => update_pfr p action game_state))
    (fun p => update_af p action))
    (fun p => update_position p action game_state))
    (fun p => update_bet_size p action bet_amount game_state).

(** The profile is the object stored in [player_profiles]: what the steps
    did to it stays when a later step raises; [hand_history] is appended to
    only when none did. *)
Definition track_action (self : Tracker) (player_id : Z) (action : Action)
    (bet_amount : float) (game_state : GameState) : Tracker * outcome unit :=
  let profile := Py.get Z.eqb (player_profiles self) player_id new_profile in
  let r := track_profile profile action bet_amount game_state in
  let profiles := Py.setitem Z.eqb player_id (fst r) (player_profiles self) in
  match snd r with
  | Return _ =>
      (mkTracker profiles
         (deque_append 1000 (player_id, action, bet_amount, game_state)
                       (hand_history self)),
       Return tt)
  | Throw e => (mkTracker profiles (hand_history self), Throw e)
  end.

Definition get_stats (self : Tracker) (player_id : Z) : PlayerProfile :=
  Py.get Z.eqb (player_profiles self) player_id new_profile.

Definition get_tendencies (self : Tracker) (player_id : Z)
    : outcome (list (string * string)) :=
  let profile := get_stats self player_id in
  let aggression :=
    if PrimFloat.ltb 2.0 (af profile) then "high"%string
    else if PrimFloat.ltb (af profile) 0.5 then "low"%string else "medium"%string in
  let looseness :=
    if PrimFloat.ltb 0.4 (vpip profile) then "loose"%string
    else if PrimFloat.ltb (vpip profile) 0.15 then "tight"%string else "medium"%string in
  ratio <~ float_truediv (pfr profile) (vpip profile) ;;
  let raising :=
    if PrimFloat.ltb 0.7 ratio then "aggressive"%string else "passive"%string in
  let bet_sizing :=
    if PrimFloat.ltb 0.75 (avg_bet_size profile) then "large"%string
    else if PrimFloat.ltb (avg_bet_size profile) 0.4 then "small"%string
    else "medium"%string in
  Return [("aggression"%string, aggression); ("looseness"%string, looseness);
          ("raising"%string, raising); ("bet_sizing"%string, bet_sizing)].

End EnhancedOpponentTracker.

(** ** StrategyAdjustor (poker5.py) *)

Module StrategyAdjustor.
Import HandStrengthCalculator.

Definition strategy_weights : list (string * list (string * float)) :=
  [("early_tournament"%string,
    [("aggression"%string, 0.7%float); ("bluff_frequency"%string, 0.2%float);
     ("call_threshold"%string, 0.6%float)]);
   ("middle_tournament"%string,
    [("aggression"%string, 0.9%float); ("bluff_frequency"%string, 0.3%float);
     ("call_threshold"%string, 0.5%float)]);
   ("bubble"%string,
    [("aggression"%string, 1.2%float); ("bluff_frequency"%string, 0.4%float);
     ("call_threshold"%string, 0.4%float)]);
   ("final_table"%string,
    [("aggression"%string, 1.1%float); ("bluff_frequency"%string, 0.35%float);
     ("call_threshold"%string, 0.45%float)])].

(** [d[k]] on a dict with string keys. *)
Definition getitem {V : Type} (d : list (string * V)) (k : string) : outcome V :=
  match lookup String.eqb d k with
  | Some v => Return v
  | None => Throw (KeyError (StrKey k))
  end.

(** [d[k] *= f] *)
Definition scale (k : string) (f : float) (d : list (string * float))
    : outcome (list (string * float)) :=
  v <~ getitem d k ;;
  Return (Py.setitem String.eqb k (v * f)%float d).

Definition _determine_tournament_stage (players_remaining total_players : Z)
    : outcome string :=
  ratio <~ int_truediv players_remaining total_players ;;
  if PrimFloat.ltb 0.7 ratio then Return "early_tournament"%string
  else if PrimFloat.ltb 0.3 ratio then Return "middle_tournament"%string
  else if PrimFloat.ltb 0.15 ratio then Return "bubble"%string
  else Return "final_table"%string.

Definition get_tournament_stage_adjustments (stack_size avg_stack : float)
    (players_remaining total_players : Z) : outcome (list (string * float)) :=
  stage <~ _determine_tournament_stage players_remaining total_players ;;
  stack_ratio <~ float_truediv stack_size avg_stack ;;
  adjustments <~ getitem strategy_weights stage ;;
  if PrimFloat.ltb stack_ratio 0.5 then
    adjustments <~ scale "aggression"%string 1.3 adjustments ;;
    scale "bluff_frequency"%string 0.7 adjustments
  else if PrimFloat.ltb 2.0 stack_ratio then
    adjustments <~ scale "aggression"%string 0.9 adjustments ;;
    scale "bluff_frequency"%string 1.2 adjustments
  else Return adjustments.

(** The keys [adjust_for_icm] reads of [tournament_info]; [None] is a
    missing key. *)
Record TournamentInfo : Type := mkTournamentInfo {
  is_tournament : option bool;
  avg_stack : option float;
  position_in_money : option float
}.

Definition adjust_for_icm (game_state : GameState)
    (tournament_info : TournamentInfo) : outcome float :=
  if negb (match is_tournament tournament_info with
           | Some b => b
           | None => false
           end)
  then Return 1.0%float
  else
    stack_ratio <~
      float_truediv (stack_size game_state)
        (match avg_stack tournament_info with
         | Some a => a
         | None => stack_size game_state
         end) ;;
    let position_in_money :=
      match position_in_money tournament_info with
      | Some p => p
      | None => 1.0%float
      end in
    if PrimFloat.ltb position_in_money 1.0 then
      if PrimFloat.ltb stack_ratio 0.5 then Return 0.7%float
      else if PrimFloat.ltb 2.0 stack_ratio then Return 1.3%float
      else Return 1.0%float
    else
      if PrimFloat.ltb stack_ratio 0.5 then Return 0.8%float
      else if PrimFloat.ltb 2.0 stack_ratio then Return 1.2%float
      else Return 1.0%float.

End StrategyAdjustor.

(** * Vocabulary of the statements *)

(** The cards of [l] filed under [k] by [key]. *)
Definition keyed {K : Type} (eqb : K -> K -> bool) (key : Card -> K) (k : K)
    (l : list Card) : list Card :=
  filter (fun c => eqb (key c) k) l.

(** The cards of [l] of rank [v], those of another rank, those of suit [s],
    and how many cards of [l] have rank [v]. *)
Definition with_value (v : Z) (l : list Card) : list Card :=
  keyed Z.eqb value v l.

Definition without_value (v : Z) (l : list Card) : list Card :=
  filter (fun c => negb (value c =? v)) l.

Definition of_suit (s : Suit) (l : list Card) : list Card :=
  keyed Suit_eqb suit s l.

Definition vcount (v : Z) (l : list Card) : nat := length (with_value v l).

(** [l] by descending rank, as [sorted(l, key=value, reverse=True)] gives
    it. *)
Definition by_rank (l : list Card) : list Card := Py.sorted value true l.

(** The kicker [_get_two_pair] appends to the pairs of ranks [a] and [b]. *)
Definition two_pair_kicker (hand : list Card) (a b : Z) : list Card :=
  firstn 1 (filter (fun c => negb (value c =? a) && negb (value c =? b))
                   (by_rank hand)).

(** The rank [_get_n_of_a_kind hand n] settles on: the highest with [n]
    cards. *)
Definition top_rank (n : nat) (hand : list Card) (v : Z) : Prop :=
  (n <= vcount v hand)%nat /\
  forall w, v < w -> (vcount w hand < n)%nat.

(** The two ranks [_get_two_pair] settles on: the two highest with a pair. *)
Definition two_pair_ranks (hand : list Card) (a b : Z) : Prop :=
  b < a /\ (2 <= vcount a hand)%nat /\ (2 <= vcount b hand)%nat /\
  forall w, b < w -> w <> a -> (vcount w hand < 2)%nat.

(** The distinct ranks of a hand, highest first: the list
    [_get_straight_cards] slides its window over. *)
Definition rank_values (hand : list Card) : list Z :=
  Py.sorted (fun v => v) true (Py.set (map value hand)).

(** The branch of [evaluate] a hand of five or more cards leaves by: each
    constructor records the tests that failed before it and the one that
    succeeded. *)
Inductive eval_path (hand : list Card) : HandRank -> list Card -> Prop :=
| path_royal_flush :
    let sf := HandEvaluator._get_straight_cards
                (HandEvaluator._get_flush_cards hand) in
    sf <> [] -> value_at sf 0 = 14 ->
    eval_path hand ROYAL_FLUSH sf
| path_straight_flush :
    let sf := HandEvaluator._get_straight_cards
                (HandEvaluator._get_flush_cards hand) in
    sf <> [] -> value_at sf 0 <> 14 ->
    eval_path hand STRAIGHT_FLUSH sf
| path_four_of_a_kind :
    HandEvaluator._get_straight_cards (HandEvaluator._get_flush_cards hand) = [] ->
    HandEvaluator._get_n_of_a_kind hand 4 <> [] ->
    eval_path hand FOUR_OF_A_KIND (HandEvaluator._get_n_of_a_kind hand 4)
| path_full_house :
    HandEvaluator._get_straight_cards (HandEvaluator._get_flush_cards hand) = [] ->
    HandEvaluator._get_n_of_a_kind hand 4 = [] ->
    HandEvaluator._get_full_house hand <> [] ->
    eval_path hand FULL_HOUSE (HandEvaluator._get_full_house hand)
| path_flush :
    HandEvaluator._get_straight_cards (HandEvaluator._get_flush_cards hand) = [] ->
    HandEvaluator._get_n_of_a_kind hand 4 = [] ->
    HandEvaluator._get_full_house hand = [] ->
    HandEvaluator._get_flush_cards hand <> [] ->
    eval_path hand FLUSH (firstn 5 (HandEvaluator._get_flush_cards hand))
| path_straight :
    HandEvaluator._get_flush_cards hand = [] ->
    HandEvaluator._get_n_of_a_kind hand 4 = [] ->
    HandEvaluator._get_full_house hand = [] ->
    HandEvaluator._get_straight_cards hand <> [] ->
    eval_path hand STRAIGHT (HandEvaluator._get_straight_cards hand)
| path_three_of_a_kind :
    HandEvaluator._get_flush_cards hand = [] ->
    HandEvaluator._get_n_of_a_kind hand 4 = [] ->
    HandEvaluator._get_full_house hand = [] ->
    HandEvaluator._get_straight_cards hand = [] ->
    HandEvaluator._get_n_of_a_kind hand 3 <> [] ->
    eval_path hand THREE_OF_A_KIND (HandEvaluator._get_n_of_a_kind hand 3)
| path_two_pair :
    HandEvaluator._get_flush_cards hand = [] ->
    HandEvaluator._get_n_of_a_kind hand 4 = [] ->
    HandEvaluator._get_straight_cards hand = [] ->
    HandEvaluator._get_n_of_a_kind hand 3 = [] ->
    HandEvaluator._get_two_pair hand <> [] ->
    eval_path hand TWO_PAIR (HandEvaluator._get_two_pair hand)
| path_pair :
    HandEvaluator._get_flush_cards hand = [] ->
    HandEvaluator._get_n_of_a_kind hand 4 = [] ->
    HandEvaluator._get_straight_cards hand = [] ->
    HandEvaluator._get_n_of_a_kind hand 3 = [] ->
    HandEvaluator._get_two_pair hand = [] ->
    HandEvaluator._get_n_of_a_kind hand 2 <> [] ->
    eval_path hand PAIR (HandEvaluator._get_n_of_a_kind hand 2)
| path_high_card :
    HandEvaluator._get_flush_cards hand = [] ->
    HandEvaluator._get_n_of_a_kind hand 4 = [] ->
    HandEvaluator._get_straight_cards hand = [] ->
    HandEvaluator._get_n_of_a_kind hand 3 = [] ->
    HandEvaluator._get_two_pair hand = [] ->
    HandEvaluator._get_n_of_a_kind hand 2 = [] ->
    eval_path hand HIGH_CARD (firstn 5 (by_rank hand)).

(** [b] is made of cards of [hand], none used twice. *)
Definition drawn_from (hand b : list Card) : Prop := NoDup b /\ incl b hand.

(** ** Hands the statements are tried on *)

Definition Ah := mkCard 14 HEARTS.
Definition Ad := mkCard 14 DIAMONDS.
Definition As := mkCard 14 SPADES.
Definition Kh := mkCard 13 HEARTS.
Definition Kd := mkCard 13 DIAMONDS.
Definition Qh := mkCard 12 HEARTS.
Definition Qc := mkCard 12 CLUBS.
Definition Jh := mkCard 11 HEARTS.
Definition Th := mkCard 10 HEARTS.
Definition Tc := mkCard 10 CLUBS.
Definition Td := mkCard 10 DIAMONDS.
Definition c9h := mkCard 9 HEARTS.
Definition c9s := mkCard 9 SPADES.
Definition c8c := mkCard 8 CLUBS.
Definition c7c := mkCard 7 CLUBS.
Definition c5h := mkCard 5 HEARTS.
Definition c5d := mkCard 5 DIAMONDS.
Definition c4c := mkCard 4 CLUBS.
Definition c3s := mkCard 3 SPADES.
Definition c2h := mkCard 2 HEARTS.
Definition c2d := mkCard 2 DIAMONDS.
Definition c2c := mkCard 2 CLUBS.
Definition c2s := mkCard 2 SPADES.

(** Examples 1 to 3 of the specification, a seven-card hand, a four-card
    hand and a wheel. *)
Definition royal_flush_hand : list Card := [Ah; Kh; Qh; Jh; Th].
Definition two_pair_hand : list Card := [Ah; Ad; Th; Tc; c2s].
Definition trips_hand : list Card := [c2h; c2d; c2c; c9s; c5h].
Definition seven_card_hand : list Card := [c5h; Td; Tc; c2s; Ah; Qc; Qh].
Definition four_card_hand : list Card := [Ah; Kh; Qh; Jh].
Definition wheel_hand : list Card := [Ah; c5d; c4c; c3s; c2h].

Definition Card_eq_dec (a b : Card) : {a = b} + {a <> b}.
Proof. repeat decide equality. Defined.

(** ** Vocabulary of the strength statements *)

Definition rank_list : list Z := [2; 3; 4; 5; 6; 7; 8; 9; 10; 11; 12; 13; 14].

Definition suit_list : list Suit := [HEARTS; DIAMONDS; CLUBS; SPADES].

(** The 52 cards [Card.__init__] can build. *)
Definition deck : list Card :=
  flat_map (fun v => map (mkCard v) suit_list) rank_list.

(** [0 <= x <= 1], decided by the binary64 comparison. *)
Definition in_unit_interval (x : float) : bool :=
  PrimFloat.leb 0 x && PrimFloat.leb x 1.

(** The quality adjustment as a function of the category and of the ranks
    at positions 0 and 2 of the best five cards. *)
Definition quality_of (r : HandRank) (v0 v2 : Z) : float :=
  match r with
  | HIGH_CARD | PAIR => Py.truediv (v0 - 2) 12
  | TWO_PAIR => Py.truediv ((v0 - 2) + (v2 - 2)) 24
  | _ => 1%float
  end.

(** The values [_calculate_drawing_strength] can take. *)
Definition draw_values : list float := [0; 0.4; 0.35; 0.25]%float.

(** The final blend of [calculate_full_strength]. *)
Definition blend (current_strength drawing_strength : float) : float :=
  Py.max current_strength
         (current_strength * 0.7 + drawing_strength * 0.3)%float.

(** The distinct ranks in ascending order and the gaps between neighbours,
    as [_identify_draws] computes them. *)
Definition ascending_ranks (cards : list Card) : list Z :=
  Py.sorted (fun v => v) false (Py.set (map value cards)).

Definition rank_gaps (cards : list Card) : list Z :=
  let values := ascending_ranks cards in
  map (fun i => nth (i + 1) values 0 - nth i values 0)
      (seq 0 (length values - 1)).

(** Three consecutive gaps, starting at gap [i], sum to [t]. *)
Definition window_sums_to (gaps : list Z) (i : nat) (t : Z) : Prop :=
  (i + 3 <= length gaps)%nat /\ Py.sum (firstn 3 (skipn i gaps)) = t.

(** Sequence comparison of two lists of ranks: [l1 > l2] as Python orders
    lists. *)
Fixpoint lex_gt (l1 l2 : list Z) : Prop :=
  match l1, l2 with
  | x :: l1', y :: l2' => y < x \/ (x = y /\ lex_gt l1' l2')
  | _ :: _, [] => True
  | [], _ => False
  end.

(** The game state of the source's test scenarios, with the given hole and
    shared cards and the defaults of the dataclass. *)
Definition state_of (hole shared : list Card) : HandStrengthCalculator.GameState :=
  HandStrengthCalculator.mkGameState
    0 1000 100 20 6 hole 10000 true false
    (match shared with [] => "preflop" | _ => "flop" end)
    shared 6 None None [].

(** The categories whose quality adjustment reads the best five cards. *)
Definition reads_cards (r : HandRank) : bool :=
  match r with HIGH_CARD | PAIR | TWO_PAIR => true | _ => false end.

(** The checks the strength theorems rest on, each a finite table over the
    thirteen ranks, decided by computation in binary64. *)
Definition preflop_in_unit_interval (c1 c2 : Card) : bool :=
  match HandStrengthCalculator._calculate_preflop_strength [c1; c2] with
  | Ok v => in_unit_interval v
  | Raise _ => false
  end.

Definition preflop_table : bool :=
  forallb (fun c1 => forallb (preflop_in_unit_interval c1) deck) deck.

Definition strength_table : bool :=
  forallb (fun r =>
    forallb (fun v0 =>
      forallb (fun v2 =>
        forallb (fun ds =>
          in_unit_interval
            (blend (HandStrengthCalculator.base_strength r * quality_of r v0 v2)
                   ds))
          draw_values) rank_list) rank_list) all_HandRank.

Definition quality_table_one : bool :=
  forallb (fun a =>
    forallb (fun b =>
      implb (b <=? a)
            (PrimFloat.leb (quality_of PAIR b 2) (quality_of PAIR a 2)))
      rank_list) rank_list.

(** In the two-pair category the adjustments of two hands compare as the
    sums of their two pair ranks do. *)
Definition quality_table_sum : bool :=
  forallb (fun a0 => forallb (fun a2 =>
    forallb (fun b0 => forallb (fun b2 =>
      Bool.eqb (PrimFloat.leb (quality_of TWO_PAIR b0 b2)
                              (quality_of TWO_PAIR a0 a2))
               (b0 + b2 <=? a0 + a2))
      rank_list) rank_list) rank_list) rank_list.

(** The states and hands the strength statements are tried on. *)
Definition open_ended_state := state_of [Jh; Td] [c9h; c8c; c2d].
Definition one_shared_card_state := state_of [Ah; Kh] [c2d].
Definition flop_state := state_of [Jh; Th] [c9h; c2d; c7c].
Definition aces_and_deuces : list Card := [Ah; Ad; c2h; c2c; c3s].
Definition kings_and_queens : list Card := [Kh; Kd; Qh; Qc; c2s].
Definition aces_deuces_four : list Card := [Ah; Ad; c2h; c2c; mkCard 4 CLUBS].
Definition kings_and_threes : list Card :=
  [Kh; Kd; c3s; mkCard 3 HEARTS; c2d].

(** ** Vocabulary of the further statements *)

(** Five consecutive ranks, from [v] down to [v - 4], are all held. *)
Definition holds_run (hand : list Card) (v : Z) : Prop :=
  forall k, 0 <= k <= 4 -> In (v - k) (map value hand).

(** [l] by rank from the highest down, equal ranks allowed. *)
Definition descending (l : list Card) : Prop :=
  StronglySorted (Py.in_order value true) l.

(** The size of the group a category is named after. *)
Definition group_size (r : HandRank) : nat :=
  match r with
  | FOUR_OF_A_KIND => 4
  | THREE_OF_A_KIND => 3
  | PAIR => 2
  | _ => 0
  end.

(** Some suit has exactly four cards in [cards]. *)
Definition has_four_of_a_suit (cards : list Card) : bool :=
  existsb (fun s => (length (of_suit s cards) =? 4)%nat) suit_list.

(** The three lowest gaps exist and sum to [t]: the decision of
    [window_sums_to (rank_gaps cards) 0 t]. *)
Definition lowest_window_sum (cards : list Card) (t : Z) : bool :=
  (3 <=? length (rank_gaps cards))%nat
  && (Py.sum (firstn 3 (rank_gaps cards)) =? t).

(** ** Vocabulary of the betting statements *)

(** Any two cards of the deck that print alike are the same card. *)
Definition card_str_table : bool :=
  forallb (fun c1 =>
    forallb (fun c2 =>
      implb (String.eqb (Card_str c1) (Card_str c2))
            (if Card_eq_dec c1 c2 then true else false)) deck) deck.

(** The opening of [PokerBot.decide_action]: more than 4000 credits left,
    the opening not yet used, and a stack that covers the credits. *)
Definition opens_all_in (gs : PokerBot.GameState) : bool :=
  PrimFloat.ltb 4000 (PokerBot.credits_remaining gs)
  && negb (PokerBot.initial_strategy_used gs)
  && PrimFloat.leb (PokerBot.credits_remaining gs) (PokerBot.stack_size gs).

(** The game state of poker4's test scenario with the given cards and
    credits. *)
Definition table_of (cards : list Card) (credits : float) : PokerBot.GameState :=
  PokerBot.mkGameState 1 500 50 10 6 cards credits true false.

(** The calls of [OpponentTracker.track_action] made one after another on
    [stats], whether or not one of them raises, and the calls among them
    that name [player]. *)
Definition track_all
    (calls : list (Z * HandStrengthCalculator.Action * float * PokerBot.GameState))
    (stats : list (Z * OpponentTracker.Stats)) : list (Z * OpponentTracker.Stats) :=
  fold_left
    (fun s c =>
       fst (OpponentTracker.track_action s (fst (fst (fst c))) (snd (fst (fst c)))
              (snd (fst c)) (snd c)))
    calls stats.

Definition calls_of {G : Type} (player : Z)
    (calls : list (Z * HandStrengthCalculator.Action * float * G))
    : list (Z * HandStrengthCalculator.Action * float * G) :=
  filter (fun c => fst (fst (fst c)) =? player) calls.

(** The calls of [EnhancedOpponentTracker.track_action] made one after
    another on [tracker], whether or not one of them raises. *)
Definition observe_all
    (calls : list (Z * HandStrengthCalculator.Action * float
                   * HandStrengthCalculator.GameState))
    (tracker : EnhancedOpponentTracker.Tracker) : EnhancedOpponentTracker.Tracker :=
  fold_left
    (fun t c =>
       fst (EnhancedOpponentTracker.track_action t (fst (fst (fst c)))
              (snd (fst (fst c))) (snd (fst c)) (snd c)))
    calls tracker.

(** The call puts money in the pot before the flop. *)
Definition preflop_money
    (c : Z * HandStrengthCalculator.Action * float
         * HandStrengthCalculator.GameState) : bool :=
  EnhancedOpponentTracker.puts_money (snd (fst (fst c)))
  && String.eqb (HandStrengthCalculator.street (snd c)) "preflop".

(** A game state of the given position, pot and street. *)
Definition seat (position : Z) (pot : float) (street : string)
    : HandStrengthCalculator.GameState :=
  HandStrengthCalculator.mkGameState
    position 1000 pot 20 6 [] 10000 true false street [] 6 None None [].

(** The keys of a fresh [position_stats]. *)
Definition positions : list Z := map Z.of_nat (seq 0 9).

(** What every profile of a tracker that started empty satisfies: the
    counters are not negative and the positions are those of a fresh
    profile. *)
Definition sound (profile : EnhancedOpponentTracker.PlayerProfile) : Prop :=
  0 <= EnhancedOpponentTracker.total_hands profile /\
  map fst (EnhancedOpponentTracker.position_stats profile) = positions /\
  forall kv, In kv (EnhancedOpponentTracker.position_stats profile) ->
             0 <= EnhancedOpponentTracker.pos_hands (snd kv).

(** Every profile of the tracker is sound, and its history is within the
    bound of the deque. *)
Definition well_formed (t : EnhancedOpponentTracker.Tracker) : Prop :=
  (length (EnhancedOpponentTracker.hand_history t) <= 1000)%nat /\
  forall p, sound (EnhancedOpponentTracker.get_stats t p).

(** More cards for the further statements. *)
Definition c8h := mkCard 8 HEARTS.
Definition c7h := mkCard 7 HEARTS.
Definition c6h := mkCard 6 HEARTS.

(** The made-hand strength of category [r] on ranks [v0] and [v2]. *)
Definition made_of (r : HandRank) (v0 v2 : Z) : float :=
  (HandStrengthCalculator.base_strength r * quality_of r v0 v2)%float.

(** A table over the categories and ranks: the made-hand strength is between
    0 and the base value of its category, no draw lowers it in the blend, and
    a drawing strength of 0 leaves it as it is. *)
Definition blend_table : bool :=
  forallb (fun r =>
    forallb (fun v0 =>
      forallb (fun v2 =>
        let cs := made_of r v0 v2 in
        PrimFloat.leb 0 cs
        && PrimFloat.leb cs (HandStrengthCalculator.base_strength r)
        && negb (PrimFloat.ltb cs (cs * 0.7 + 0 * 0.3)%float)
        && forallb (fun ds => PrimFloat.leb cs (blend cs ds)) draw_values)
      rank_list) rank_list) all_HandRank.

(** * Facts about the builtins *)

Lemma firstn_In_incl {A : Type} (n : nat) (l : list A) (x : A) :
  In x (firstn n l) -> In x l.
Proof.
  revert n. induction l as [|y l IH]; intros [|n]; simpl; try tauto.
  intros [H|H]; [now left | right; eauto].
Qed.

Section SortedFacts.
Context {A : Type} (key : A -> Z) (reverse : bool).

Local Abbreviation before := (Py.before key reverse).
Local Abbreviation insert := (Py.insert key reverse).
Local Abbreviation sorted := (Py.sorted key reverse).
Local Abbreviation in_order := (Py.in_order key reverse).

Lemma in_order_trans x y z : in_order x y -> in_order y z -> in_order x z.
Proof. unfold Py.in_order, Py.before. destruct reverse; lia. Qed.

Lemma before_in_order x y : before x y = true -> in_order x y.
Proof. unfold Py.in_order, Py.before. destruct reverse; lia. Qed.

Lemma insert_perm x l : Permutation (insert x l) (x :: l).
Proof.
  induction l as [|y l IH]; simpl; [reflexivity|].
  destruct (before y x); [|reflexivity].
  rewrite IH. apply perm_swap.
Qed.

Lemma sorted_perm l : Permutation (sorted l) l.
Proof.
  induction l as [|x l IH]; simpl; [constructor|].
  rewrite insert_perm. now constructor.
Qed.

Lemma sorted_In l x : In x (sorted l) <-> In x l.
Proof.
  split; apply Permutation_in;
    [apply sorted_perm | symmetry; apply sorted_perm].
Qed.

Lemma sorted_length l : length (sorted l) = length l.
Proof. apply Permutation_length, sorted_perm. Qed.

Lemma sorted_NoDup l : NoDup l -> NoDup (sorted l).
Proof. apply Permutation_NoDup. symmetry. apply sorted_perm. Qed.

Lemma insert_sorted x l :
  StronglySorted in_order l -> StronglySorted in_order (insert x l).
Proof.
  induction 1 as [|y l Hs IH Hy]; simpl.
  - repeat constructor.
  - destruct (before y x) eqn:E.
    + constructor; [exact IH|].
      rewrite Forall_forall in *. intros z Hz.
      apply (Permutation_in _ (insert_perm x l)) in Hz.
      destruct Hz as [<-|Hz]; [now apply before_in_order | now apply Hy].
    + constructor; [now constructor|].
      constructor; [exact E|].
      rewrite Forall_forall in *. intros z Hz.
      apply in_order_trans with y; [exact E | now apply Hy].
Qed.

Lemma sorted_sorted l : StronglySorted in_order (sorted l).
Proof.
  induction l as [|x l IH]; simpl; [constructor | now apply insert_sorted].
Qed.

Lemma insert_head x l : Forall (in_order x) l -> insert x l = x :: l.
Proof.
  destruct l as [|y l]; simpl; [reflexivity|].
  intros H. inversion H as [|? ? Hy _]; subst.
  unfold Py.in_order in Hy. now rewrite Hy.
Qed.

Lemma sorted_fixed l : StronglySorted in_order l -> sorted l = l.
Proof.
  induction 1 as [|x l Hs IH Hx]; simpl; [reflexivity|].
  rewrite IH. now apply insert_head.
Qed.

Lemma insert_filter (p : A -> bool) x l :
  StronglySorted in_order l ->
  filter p (insert x l) =
  if p x then insert x (filter p l) else filter p l.
Proof.
  induction 1 as [|y l Hs IH Hy]; simpl.
  - now destruct (p x).
  - destruct (before y x) eqn:E; simpl.
    + rewrite IH. destruct (p y), (p x); simpl; try reflexivity.
      now rewrite E.
    + destruct (p x) eqn:Px; [|reflexivity].
      destruct (p y) eqn:Py; simpl; [now rewrite E|].
      symmetry. apply insert_head.
      rewrite Forall_forall in *. intros z Hz.
      apply filter_In in Hz. destruct Hz as [Hz _].
      apply in_order_trans with y; [exact E | now apply Hy].
Qed.

Lemma sorted_filter (p : A -> bool) l :
  filter p (sorted l) = sorted (filter p l).
Proof.
  induction l as [|x l IH]; simpl; [reflexivity|].
  rewrite insert_filter by apply sorted_sorted.
  rewrite IH. now destruct (p x).
Qed.

Lemma StronglySorted_filter (R : A -> A -> Prop) (p : A -> bool) l :
  StronglySorted R l -> StronglySorted R (filter p l).
Proof.
  induction 1 as [|x l Hs IH Hx]; simpl; [constructor|].
  destruct (p x); [|exact IH].
  constructor; [exact IH|].
  rewrite Forall_forall in *. intros z Hz.
  apply filter_In in Hz. now apply Hx.
Qed.

Lemma StronglySorted_firstn (R : A -> A -> Prop) n l :
  StronglySorted R l -> StronglySorted R (firstn n l).
Proof.
  intros H. revert n.
  induction H as [|x l Hs IH Hx]; intros [|n]; simpl; try constructor.
  - apply IH.
  - rewrite Forall_forall in *. intros z Hz.
    apply Hx. eapply firstn_In_incl; eauto.
Qed.
End SortedFacts.

Lemma insert_map {A : Type} (key : A -> Z) (reverse : bool) (x : A) (l : list A) :
  Py.insert (fun v => v) reverse (key x) (map key l) =
  map key (Py.insert key reverse x l).
Proof.
  induction l as [|y l IH]; simpl; [reflexivity|].
  change (Py.before (fun v => v) reverse (key y) (key x))
    with (Py.before key reverse y x).
  destruct (Py.before key reverse y x); simpl; [now rewrite IH | reflexivity].
Qed.

Lemma sorted_map {A : Type} (key : A -> Z) (reverse : bool) (l : list A) :
  Py.sorted (fun v => v) reverse (map key l) = map key (Py.sorted key reverse l).
Proof.
  induction l as [|x l IH]; simpl; [reflexivity|].
  rewrite IH. apply insert_map.
Qed.

(** ** The grouping dictionaries *)

Section Grouping.
Context {K : Type} (eqb : K -> K -> bool).
Hypothesis eqb_spec : forall a b, eqb a b = true <-> a = b.

Lemma eqb_refl_true a : eqb a a = true.
Proof. now apply eqb_spec. Qed.

Lemma eqb_neq_false a b : a <> b -> eqb a b = false.
Proof.
  intros H. destruct (eqb a b) eqn:E; [|reflexivity].
  now apply eqb_spec in E.
Qed.

Lemma setdefault_append_keys {V : Type} (k : K) (x : V) d :
  (In k (map fst d) /\
   map fst (Py.setdefault_append eqb k x d) = map fst d) \/
  (~ In k (map fst d) /\
   map fst (Py.setdefault_append eqb k x d) = map fst d ++ [k]).
Proof.
  induction d as [|[k' xs] d IH]; simpl.
  - right. split; [tauto | reflexivity].
  - destruct (eqb k k') eqn:E; simpl.
    + apply eqb_spec in E. subst. left. split; [now left | reflexivity].
    + assert (k' <> k) by (intros ->; now rewrite eqb_refl_true in E).
      destruct IH as [[Hin ->]|[Hin ->]]; [left | right];
        (split; [tauto | reflexivity]).
Qed.

Lemma setdefault_append_In {V : Type} (k : K) (x : V) d k' xs' :
  NoDup (map fst d) ->
  In (k', xs') (Py.setdefault_append eqb k x d) ->
  (k' <> k /\ In (k', xs') d) \/
  (k' = k /\ ((exists xs, In (k, xs) d /\ xs' = xs ++ [x]) \/
              (~ In k (map fst d) /\ xs' = [x]))).
Proof.
  induction d as [|[k0 xs] d IH]; simpl; intros Hnd Hin.
  - destruct Hin as [Hin|[]]. inversion Hin; subst.
    right. split; [reflexivity|]. right. tauto.
  - inversion Hnd as [|? ? Hk0 Hnd']; subst.
    destruct (eqb k k0) eqn:E.
    + apply eqb_spec in E. subst k0.
      destruct Hin as [Hin|Hin].
      * inversion Hin; subst. right. split; [reflexivity|].
        left. exists xs. split; [now left | reflexivity].
      * left. split; [|now right].
        intros ->. apply Hk0. now apply (in_map fst) in Hin.
    + assert (k0 <> k) by (intros ->; now rewrite eqb_refl_true in E).
      destruct Hin as [Hin|Hin].
      * inversion Hin; subst. left. split; [assumption | now left].
      * destruct (IH Hnd' Hin) as [[Hne Hd]|[-> [[ys [Hd ->]]|[Hd ->]]]].
        -- left. split; [assumption | now right].
        -- right. split; [reflexivity|]. left. exists ys.
           split; [now right | reflexivity].
        -- right. split; [reflexivity|]. right.
           split; [|reflexivity]. intros [?|?]; [congruence | tauto].
Qed.

Context (key : Card -> K).

Local Abbreviation group_by := (HandEvaluator.group_by eqb key).
Local Abbreviation filed := (keyed eqb key).

Lemma group_by_snoc l c :
  group_by (l ++ [c]) = Py.setdefault_append eqb (key c) c (group_by l).
Proof. unfold HandEvaluator.group_by. now rewrite fold_left_app. Qed.

Lemma keyed_snoc k l c :
  filed k (l ++ [c]) = filed k l ++ (if eqb (key c) k then [c] else []).
Proof. unfold keyed. rewrite filter_app. simpl. now destruct (eqb (key c) k). Qed.

Lemma keyed_nil_iff k l : filed k l = [] <-> ~ In k (map key l).
Proof.
  unfold keyed. induction l as [|c l IH]; simpl; [tauto|].
  destruct (eqb (key c) k) eqn:E.
  - apply eqb_spec in E. split; [discriminate | tauto].
  - rewrite IH. split; [|tauto].
    intros H [H1|H1]; [|tauto]. subst. now rewrite eqb_refl_true in E.
Qed.

Lemma group_by_inv l :
  NoDup (map fst (group_by l)) /\
  (forall k cs, In (k, cs) (group_by l) -> cs = filed k l /\ cs <> []) /\
  (forall k, In k (map key l) -> In k (map fst (group_by l))).
Proof.
  induction l as [|c l IH] using rev_ind.
  - simpl. split; [constructor|]. split; [intros ? ? [] | intros ? []].
  - destruct IH as (Hnd & Hcs & Hk). rewrite group_by_snoc.
    split; [|split].
    + destruct (setdefault_append_keys (key c) c (group_by l))
        as [[_ ->]|[Hin ->]]; [assumption|].
      apply NoDup_app; [assumption | repeat constructor; tauto |].
      intros x Hx [<-|[]]. tauto.
    + intros k cs Hin. rewrite keyed_snoc.
      apply setdefault_append_In in Hin; [|assumption].
      destruct Hin as [[Hne Hin]|[-> [[xs [Hin ->]]|[Hin ->]]]].
      * destruct (Hcs _ _ Hin) as [-> Hn].
        rewrite eqb_neq_false by congruence. now rewrite app_nil_r.
      * destruct (Hcs _ _ Hin) as [-> Hn]. rewrite eqb_refl_true.
        split; [reflexivity|]. now destruct (filed (key c) l).
      * rewrite eqb_refl_true.
        assert (filed (key c) l = []) as ->.
        { apply keyed_nil_iff. intros H. apply Hin, Hk, H. }
        split; [reflexivity | discriminate].
    + intros k Hin. rewrite map_app in Hin. apply in_app_or in Hin.
      destruct (setdefault_append_keys (key c) c (group_by l))
        as [[Hc ->]|[Hc ->]].
      * destruct Hin as [Hin|[<-|[]]]; [now apply Hk | assumption].
      * apply in_or_app. destruct Hin as [Hin|[<-|[]]];
          [left; now apply Hk | right; now left].
Qed.

Lemma keyed_In k l : filed k l <> [] -> In k (map key l).
Proof.
  unfold keyed. induction l as [|c l IH]; simpl; [congruence|].
  destruct (eqb (key c) k) eqn:E; [left; now apply eqb_spec | right; auto].
Qed.

Lemma group_by_In k cs l :
  In (k, cs) (group_by l) <-> cs = filed k l /\ In k (map key l).
Proof.
  destruct (group_by_inv l) as (Hnd & Hcs & Hk). split.
  - intros Hin. destruct (Hcs _ _ Hin) as [-> Hn].
    split; [reflexivity | now apply keyed_In].
  - intros [-> Hin]. apply Hk in Hin. apply in_map_iff in Hin.
    destruct Hin as [[k' cs] [<- Hin]]. simpl.
    now destruct (Hcs _ _ Hin) as [<- _].
Qed.
End Grouping.

(** ** Searching a list *)

Lemma find_split {A : Type} (p : A -> bool) (l : list A) (x : A) :
  find p l = Some x ->
  exists l1 l2, l = l1 ++ x :: l2 /\ p x = true /\
                forall y, In y l1 -> p y = false.
Proof.
  induction l as [|a l IH]; simpl; [discriminate|].
  destruct (p a) eqn:E.
  - intros [= ->]. exists [], l. repeat split; [assumption | intros ? []].
  - intros H. destruct (IH H) as (l1 & l2 & -> & Hx & Hl1).
    exists (a :: l1), l2. repeat split; [assumption|].
    intros y [<-|Hy]; auto.
Qed.

Lemma find_firstn {A : Type} (p : A -> bool) (l : list A) :
  match find p l with Some c => [c] | None => [] end = firstn 1 (filter p l).
Proof.
  induction l as [|a l IH]; simpl; [reflexivity|].
  now destruct (p a).
Qed.

Lemma StronglySorted_app_tail {A : Type} (R : A -> A -> Prop) l1 x l2 :
  StronglySorted R (l1 ++ x :: l2) -> Forall (R x) l2.
Proof.
  induction l1 as [|a l1 IH]; simpl; intros H; inversion H; subst; auto.
Qed.

Lemma length_firstn_le {A : Type} (n : nat) (l : list A) :
  (n <= length l)%nat -> length (firstn n l) = n.
Proof. intros H. rewrite length_firstn. lia. Qed.

Lemma firstn_nil_iff {A : Type} (n : nat) (l : list A) :
  (1 <= n)%nat -> firstn n l = [] -> l = [].
Proof. destruct n, l; simpl; try lia; congruence. Qed.

(** ** The suit and rank dictionaries of a hand *)

Lemma Suit_eqb_spec a b : Suit_eqb a b = true <-> a = b.
Proof. destruct a, b; simpl; split; congruence. Qed.

Lemma with_value_In v l c : In c (with_value v l) <-> In c l /\ value c = v.
Proof.
  unfold with_value, keyed. rewrite filter_In. now rewrite Z.eqb_eq.
Qed.

Lemma without_value_In v l c :
  In c (without_value v l) <-> In c l /\ value c <> v.
Proof.
  unfold without_value. rewrite filter_In, negb_true_iff. now rewrite Z.eqb_neq.
Qed.

Lemma of_suit_In s l c : In c (of_suit s l) <-> In c l /\ suit c = s.
Proof.
  unfold of_suit, keyed. rewrite filter_In. now rewrite Suit_eqb_spec.
Qed.


(** A search of a rearranged dictionary for a group of [n] cards. *)
Section GroupSearch.
Context {K : Type} (eqb : K -> K -> bool).
Hypothesis eqb_spec : forall a b, eqb a b = true <-> a = b.
Context (key : Card -> K) (hand : list Card) (n : nat).
Context (items : list (K * list Card)).
Hypothesis items_perm :
  Permutation items (HandEvaluator.group_by eqb key hand).

Local Abbreviation big := (fun kv : K * list Card => (n <=? length (snd kv))%nat).

Lemma items_In k cs :
  In (k, cs) items <-> cs = keyed eqb key k hand /\ In k (map key hand).
Proof.
  rewrite <- (group_by_In eqb eqb_spec). split; apply Permutation_in;
    [assumption | now symmetry].
Qed.

Lemma find_group_Some k cs :
  find big items = Some (k, cs) ->
  cs = keyed eqb key k hand /\ (n <= length cs)%nat.
Proof.
  intros H. apply find_some in H. destruct H as [Hin Hn].
  apply items_In in Hin. simpl in Hn. apply Nat.leb_le in Hn. tauto.
Qed.

Lemma find_group_None k :
  (1 <= n)%nat -> find big items = None ->
  (length (keyed eqb key k hand) < n)%nat.
Proof.
  intros Hn H.
  destruct (keyed eqb key k hand) as [|c cs] eqn:E; [simpl; lia|].
  assert (Hin : In (k, keyed eqb key k hand) items).
  { apply items_In. split; [reflexivity|].
    apply (keyed_In eqb eqb_spec). rewrite E. discriminate. }
  apply (find_none _ _ H) in Hin. simpl in Hin.
  apply Nat.leb_gt in Hin. now rewrite <- E.
Qed.
End GroupSearch.

(** * What each helper of the evaluator returns *)

Import HandEvaluator.

(** ** [_get_flush_cards] *)

Lemma flush_cards_nil hand :
  _get_flush_cards hand = [] ->
  forall s, (length (of_suit s hand) < 5)%nat.
Proof.
  unfold _get_flush_cards. intros H s.
  destruct (find _ (group_by Suit_eqb suit hand)) as [[k cs]|] eqn:E.
  - apply (find_group_Some Suit_eqb Suit_eqb_spec suit hand 5) in E;
      [|reflexivity].
    destruct E as [-> Hlen]. apply firstn_nil_iff in H; [|lia].
    apply (f_equal (@length Card)) in H.
    unfold by_rank in *. rewrite sorted_length in H. simpl in H. lia.
  - apply (find_group_None Suit_eqb Suit_eqb_spec suit hand 5 _
             (Permutation_refl _)); [lia | assumption].
Qed.

Lemma flush_cards_some hand :
  _get_flush_cards hand <> [] ->
  exists s, (5 <= length (of_suit s hand))%nat /\
            _get_flush_cards hand = firstn 5 (by_rank (of_suit s hand)).
Proof.
  unfold _get_flush_cards.
  destruct (find _ (group_by Suit_eqb suit hand)) as [[k cs]|] eqn:E;
    [|congruence].
  apply (find_group_Some Suit_eqb Suit_eqb_spec suit hand 5) in E;
    [|reflexivity].
  destruct E as [-> Hlen]. intros _. exists k. split; [exact Hlen | reflexivity].
Qed.

Lemma no_flush_cards hand :
  (forall s, (length (of_suit s hand) < 5)%nat) -> _get_flush_cards hand = [].
Proof.
  intros H. destruct (_get_flush_cards hand) eqn:E; [reflexivity|].
  destruct (flush_cards_some hand) as (s & Hs & _); [congruence|].
  specialize (H s). lia.
Qed.

(** ** [_get_n_of_a_kind] *)

Lemma kickers_fold v result l acc :
  fold_left (kickers_step v result) l acc =
  acc ++ firstn (5 - length result - length acc) (without_value v l).
Proof.
  unfold without_value. revert acc. induction l as [|c l IH]; intros acc.
  - simpl. now rewrite firstn_nil, app_nil_r.
  - cbn [fold_left filter]. rewrite IH. unfold kickers_step.
    destruct (negb (value c =? v)) eqn:Ev; cbn [andb]; [|reflexivity].
    destruct (length result + length acc <? 5)%nat eqn:El.
    + apply Nat.ltb_lt in El. rewrite length_app. cbn [length].
      replace (5 - length result - length acc)%nat
        with (S (5 - length result - (length acc + 1)))%nat by lia.
      rewrite firstn_cons, <- app_assoc. reflexivity.
    + apply Nat.ltb_ge in El.
      replace (5 - length result - length acc)%nat with 0%nat by lia.
      reflexivity.
Qed.

Lemma groups_sorted_perm hand :
  Permutation (Py.sorted fst true (group_by Z.eqb value hand))
              (group_by Z.eqb value hand).
Proof. apply sorted_perm. Qed.

Lemma n_of_a_kind_cases hand n :
  (1 <= n)%nat ->
  (_get_n_of_a_kind hand n = [] /\ forall v, (vcount v hand < n)%nat) \/
  (exists v, top_rank n hand v /\
     _get_n_of_a_kind hand n =
     firstn n (with_value v hand) ++
     firstn (5 - n) (without_value v (by_rank hand))).
Proof.
  intros Hn. unfold _get_n_of_a_kind.
  destruct (find _ (Py.sorted fst true (group_by Z.eqb value hand)))
    as [[v cs]|] eqn:E.
  - right. exists v.
    destruct (find_split _ _ _ E) as (l1 & l2 & Hl & _ & Hl1).
    apply (find_group_Some Z.eqb Z.eqb_eq value hand n) in E;
      [|apply groups_sorted_perm].
    destruct E as [-> Hlen]. split; [split|].
    + exact Hlen.
    + intros w Hw.
      destruct (Nat.lt_ge_cases (vcount w hand) n) as [|Hge]; [assumption|].
      exfalso.
      assert (Hin : In (w, with_value w hand)
                       (Py.sorted fst true (group_by Z.eqb value hand))).
      { apply (items_In Z.eqb Z.eqb_eq value hand _ (groups_sorted_perm hand)).
        split; [reflexivity|].
        apply (keyed_In Z.eqb Z.eqb_eq). fold (with_value w hand).
        unfold vcount in Hge. destruct (with_value w hand); simpl in *;
          [lia | discriminate]. }
      pose proof (sorted_sorted (@fst Z (list Card)) true
                    (group_by Z.eqb value hand)) as Hs.
      rewrite Hl in Hin, Hs. apply in_app_or in Hin.
      destruct Hin as [Hin|[Hin|Hin]].
      * apply Hl1 in Hin. simpl in Hin. apply Nat.leb_gt in Hin.
        unfold vcount in Hge. lia.
      * inversion Hin. lia.
      * apply StronglySorted_app_tail in Hs. rewrite Forall_forall in Hs.
        apply Hs in Hin. unfold Py.in_order, Py.before in Hin. simpl in Hin. lia.
    + rewrite kickers_fold. simpl. rewrite length_firstn_le by exact Hlen.
      now rewrite Nat.sub_0_r.
  - left. split; [reflexivity|]. intros v.
    apply (find_group_None Z.eqb Z.eqb_eq value hand n _
             (groups_sorted_perm hand)); assumption.
Qed.

Lemma top_rank_unique n hand v w :
  top_rank n hand v -> top_rank n hand w -> v = w.
Proof.
  intros [Hv Hv'] [Hw Hw'].
  destruct (Z.lt_trichotomy v w) as [H|[H|H]]; [|assumption|].
  - apply Hv' in H. lia.
  - apply Hw' in H. lia.
Qed.

Lemma n_of_a_kind_top hand n v :
  (1 <= n)%nat -> top_rank n hand v ->
  _get_n_of_a_kind hand n =
  firstn n (with_value v hand) ++ firstn (5 - n) (without_value v (by_rank hand)).
Proof.
  intros Hn Hv. destruct (n_of_a_kind_cases hand n Hn) as [[_ H]|(w & Hw & ->)].
  - destruct Hv as [Hv _]. specialize (H v). lia.
  - now rewrite (top_rank_unique _ _ _ _ Hv Hw).
Qed.

Lemma n_of_a_kind_none hand n :
  (1 <= n)%nat -> (forall v, (vcount v hand < n)%nat) ->
  _get_n_of_a_kind hand n = [].
Proof.
  intros Hn H. destruct (n_of_a_kind_cases hand n Hn) as [[-> _]|(w & [Hw _] & _)];
    [reflexivity|].
  specialize (H w). lia.
Qed.

Lemma top_rank_nonempty n hand v :
  (1 <= n)%nat -> top_rank n hand v ->
  exists c cs, with_value v hand = c :: cs /\ value c = v.
Proof.
  intros Hn [Hv _]. unfold vcount in Hv.
  destruct (with_value v hand) as [|c cs] eqn:E; [simpl in Hv; lia|].
  exists c, cs. split; [reflexivity|].
  assert (H : In c (with_value v hand)) by (rewrite E; now left).
  now apply with_value_In in H.
Qed.

Lemma n_of_a_kind_top_nonempty hand n v :
  (1 <= n)%nat -> top_rank n hand v ->
  _get_n_of_a_kind hand n <> [] /\ value_at (_get_n_of_a_kind hand n) 0 = v.
Proof.
  intros Hn Hv. rewrite (n_of_a_kind_top _ _ _ Hn Hv).
  destruct (top_rank_nonempty _ _ _ Hn Hv) as (c & cs & -> & Hc).
  destruct n as [|n]; [lia|]. simpl. split; [discriminate | exact Hc].
Qed.

(** ** [_get_full_house] *)

Lemma firstn_app_exact {A : Type} (n : nat) (l1 l2 : list A) :
  length l1 = n -> firstn n (l1 ++ l2) = l1.
Proof.
  intros <-. rewrite firstn_app, Nat.sub_diag, firstn_all. simpl.
  apply app_nil_r.
Qed.

Lemma full_house_no_trips hand :
  (forall v, (vcount v hand < 3)%nat) -> _get_full_house hand = [].
Proof.
  intros H. unfold _get_full_house.
  now rewrite n_of_a_kind_none by (lia || assumption).
Qed.

Lemma full_house_remaining hand v :
  top_rank 3 hand v ->
  _get_full_house hand =
  if nonempty (_get_n_of_a_kind (without_value v hand) 2)
  then firstn 3 (with_value v hand) ++
       firstn 2 (_get_n_of_a_kind (without_value v hand) 2)
  else [].
Proof.
  intros Hv. unfold _get_full_house.
  destruct (n_of_a_kind_top_nonempty hand 3 v) as [Hne Hat]; [lia|assumption|].
  rewrite Hat. fold (without_value v hand).
  destruct (_get_n_of_a_kind hand 3) as [|t ts] eqn:E; [congruence|].
  rewrite <- E. rewrite (n_of_a_kind_top hand 3 v) by (lia || assumption).
  rewrite firstn_app_exact by (apply length_firstn_le; apply Hv).
  now destruct (_get_n_of_a_kind (without_value v hand) 2).
Qed.

Lemma full_house_no_pair hand v :
  top_rank 3 hand v ->
  (forall w, (vcount w (without_value v hand) < 2)%nat) ->
  _get_full_house hand = [].
Proof.
  intros Hv H. rewrite (full_house_remaining _ _ Hv).
  now rewrite n_of_a_kind_none by (lia || assumption).
Qed.

Lemma full_house_top hand v w :
  top_rank 3 hand v -> top_rank 2 (without_value v hand) w ->
  _get_full_house hand =
  firstn 3 (with_value v hand) ++ firstn 2 (with_value w (without_value v hand)).
Proof.
  intros Hv Hw. rewrite (full_house_remaining _ _ Hv).
  destruct (n_of_a_kind_top_nonempty (without_value v hand) 2 w) as [Hne _];
    [lia|assumption|].
  destruct (_get_n_of_a_kind (without_value v hand) 2) as [|p ps] eqn:E;
    [congruence|].
  rewrite <- E. rewrite (n_of_a_kind_top _ 2 w) by (lia || assumption).
  rewrite firstn_app_exact by (apply length_firstn_le; apply Hw).
  destruct (top_rank_nonempty 2 _ _ ltac:(lia) Hw) as (c & cs & -> & _).
  reflexivity.
Qed.

Lemma full_house_cases hand :
  (_get_full_house hand = [] /\
   ((forall v, (vcount v hand < 3)%nat) \/
    exists v, top_rank 3 hand v /\
              forall w, (vcount w (without_value v hand) < 2)%nat)) \/
  (exists v w, top_rank 3 hand v /\ top_rank 2 (without_value v hand) w /\
     _get_full_house hand =
     firstn 3 (with_value v hand) ++
     firstn 2 (with_value w (without_value v hand))).
Proof.
  destruct (n_of_a_kind_cases hand 3) as [[_ H]|(v & Hv & _)]; [lia| |].
  - left. split; [now apply full_house_no_trips | now left].
  - destruct (n_of_a_kind_cases (without_value v hand) 2)
      as [[_ H]|(w & Hw & _)]; [lia| |].
    + left. split; [now apply full_house_no_pair with v|].
      right. now exists v.
    + right. exists v, w. split; [assumption|]. split; [assumption|].
      now apply full_house_top.
Qed.

(** ** [_get_two_pair] *)

Local Abbreviation has_pair := (fun kv : Z * list Card => (2 <=? length (snd kv))%nat).

Lemma first_kicker_eq hand pairs :
  first_kicker hand pairs =
  two_pair_kicker hand (value_at pairs 0) (value_at pairs 2).
Proof. unfold first_kicker, two_pair_kicker, by_rank. apply find_firstn. Qed.

Lemma firstn_2_ge {A : Type} (l : list A) :
  (2 <= length l)%nat -> exists x y, firstn 2 l = [x; y] /\ hd_error l = Some x.
Proof.
  destruct l as [|x [|y l]]; simpl; try lia. intros _. now exists x, y.
Qed.

Lemma two_pair_loop_one hand items a1 a2 :
  (forall k cs, In (k, cs) items -> forall c, In c cs -> value c = k) ->
  two_pair_loop hand items [a1; a2] =
  match filter has_pair items with
  | (b, cb) :: _ => [a1; a2] ++ firstn 2 cb ++ two_pair_kicker hand (value a1) b
  | [] => []
  end.
Proof.
  induction items as [|[k cs] items IH]; intros Hk; [reflexivity|].
  cbn [two_pair_loop filter snd].
  destruct (2 <=? length cs)%nat eqn:E.
  - apply Nat.leb_le in E. destruct (firstn_2_ge cs E) as (x & y & -> & Hx).
    cbn [app]. change (4 <=? length [a1; a2; x; y])%nat with true.
    cbn [firstn app]. rewrite first_kicker_eq.
    unfold value_at. cbn [map nth].
    rewrite (Hk k cs (or_introl eq_refl) x); [reflexivity|].
    destruct cs; simpl in Hx; [discriminate|]. injection Hx as ->. now left.
  - apply IH. intros k' cs' H. apply Hk. now right.
Qed.

Lemma two_pair_loop_nil hand items :
  (forall k cs, In (k, cs) items -> forall c, In c cs -> value c = k) ->
  two_pair_loop hand items [] =
  match filter has_pair items with
  | (a, ca) :: (b, cb) :: _ =>
      firstn 2 ca ++ firstn 2 cb ++ two_pair_kicker hand a b
  | _ => []
  end.
Proof.
  induction items as [|[k cs] items IH]; intros Hk; [reflexivity|].
  cbn [two_pair_loop filter snd].
  destruct (2 <=? length cs)%nat eqn:E.
  - apply Nat.leb_le in E. destruct (firstn_2_ge cs E) as (x & y & -> & Hx).
    cbn [app]. change (4 <=? length [x; y])%nat with false. cbn iota.
    rewrite two_pair_loop_one by (intros k' cs' H; apply Hk; now right).
    destruct (filter has_pair items) as [|[b cb] rest]; [reflexivity|].
    rewrite (Hk k cs (or_introl eq_refl) x); [reflexivity|].
    destruct cs; simpl in Hx; [discriminate|]. injection Hx as ->. now left.
  - apply IH. intros k' cs' H. apply Hk. now right.
Qed.

Lemma two_pair_ranks_unique hand a b a' b' :
  two_pair_ranks hand a b -> two_pair_ranks hand a' b' -> a = a' /\ b = b'.
Proof.
  intros (Hlt & Ha & Hb & Hmax) (Hlt' & Ha' & Hb' & Hmax').
  assert (a = a').
  { destruct (Z.lt_trichotomy a a') as [H|[H|H]]; [|assumption|].
    - specialize (Hmax a'). lia.
    - specialize (Hmax' a). lia. }
  subst a'. split; [reflexivity|].
  destruct (Z.lt_trichotomy b b') as [H|[H|H]]; [|assumption|].
  - specialize (Hmax b'). lia.
  - specialize (Hmax' b). lia.
Qed.

Lemma vcount_ge_In n v hand :
  (1 <= n)%nat -> (n <= vcount v hand)%nat -> In v (map value hand).
Proof.
  intros Hn H. apply (keyed_In Z.eqb Z.eqb_eq). fold (with_value v hand).
  unfold vcount in H. destruct (with_value v hand); simpl in *;
    [lia | discriminate].
Qed.

Lemma two_pair_cases hand :
  (_get_two_pair hand = [] /\
   forall a b, a <> b -> (2 <= vcount a hand)%nat ->
               (vcount b hand < 2)%nat) \/
  (exists a b, two_pair_ranks hand a b /\
     _get_two_pair hand =
     firstn 2 (with_value a hand) ++ firstn 2 (with_value b hand) ++
     two_pair_kicker hand a b).
Proof.
  unfold _get_two_pair.
  set (items := Py.sorted fst true (group_by Z.eqb value hand)).
  assert (Hperm : Permutation items (group_by Z.eqb value hand))
    by apply groups_sorted_perm.
  pose proof (items_In Z.eqb Z.eqb_eq value hand items Hperm) as Hin.
  fold with_value in Hin.
  assert (HP : forall k cs, In (k, cs) (filter has_pair items) <->
                 cs = with_value k hand /\ (2 <= vcount k hand)%nat).
  { intros k cs. rewrite filter_In, Hin. cbn [snd]. rewrite Nat.leb_le.
    unfold vcount. split.
    - intros [[-> _] H]. now split.
    - intros [-> H]. split; [split; [reflexivity|] | exact H].
      apply (vcount_ge_In 2); [lia | exact H]. }
  assert (Hs : StronglySorted (Py.in_order fst true) (filter has_pair items))
    by apply StronglySorted_filter, sorted_sorted.
  assert (Hnd : NoDup (filter has_pair items)).
  { apply NoDup_filter. unfold items. apply sorted_NoDup.
    apply NoDup_map_inv with (f := fst).
    apply (group_by_inv Z.eqb Z.eqb_eq value hand). }
  rewrite two_pair_loop_nil.
  2:{ intros k cs H c Hc. apply Hin in H. destruct H as [-> _].
      now apply with_value_In in Hc. }
  destruct (filter has_pair items) as [|[a ca] [|[b cb] rest]].
  - left. split; [reflexivity|]. intros a b _ Ha.
    assert (H : In (a, with_value a hand) []) by now apply HP.
    destruct H.
  - left. split; [reflexivity|]. intros a' b' Hne Ha'.
    destruct (Nat.lt_ge_cases (vcount b' hand) 2) as [|Hb']; [assumption|].
    assert (H1 : In (a', with_value a' hand) [(a, ca)]) by now apply HP.
    assert (H2 : In (b', with_value b' hand) [(a, ca)]) by now apply HP.
    destruct H1 as [[= -> _]|[]]. destruct H2 as [[= -> _]|[]]. congruence.
  - right. exists a, b.
    assert (Ha : In (a, ca) ((a, ca) :: (b, cb) :: rest)) by now left.
    assert (Hb : In (b, cb) ((a, ca) :: (b, cb) :: rest)) by (right; now left).
    apply HP in Ha, Hb. destruct Ha as [-> Ha], Hb as [-> Hb].
    split; [|reflexivity].
    inversion Hs as [|? ? Hs' Hab]; subst.
    inversion Hs' as [|? ? _ Hrest]; subst.
    inversion Hab as [|? ? Hab' _]; subst.
    unfold Py.in_order, Py.before in Hab'. cbn [fst] in Hab'.
    assert (a <> b).
    { intros ->. inversion Hnd as [|? ? Hn _]; subst. apply Hn. now left. }
    repeat split; try assumption; [lia|].
    intros w Hw Hwa.
    destruct (Nat.lt_ge_cases (vcount w hand) 2) as [|Hge]; [assumption|].
    exfalso.
    assert (H1 : In (w, with_value w hand)
                    ((a, with_value a hand) :: (b, with_value b hand) :: rest))
      by now apply HP.
    destruct H1 as [[= ->]|[[= ->]|H1]]; [congruence | lia |].
    rewrite Forall_forall in Hrest. apply Hrest in H1.
    unfold Py.in_order, Py.before in H1. cbn [fst] in H1. lia.
Qed.

Lemma two_pair_top hand a b :
  two_pair_ranks hand a b ->
  _get_two_pair hand =
  firstn 2 (with_value a hand) ++ firstn 2 (with_value b hand) ++
  two_pair_kicker hand a b.
Proof.
  intros H. destruct (two_pair_cases hand) as [[_ Hn]|(a' & b' & H' & ->)].
  - destruct H as (Hlt & Ha & Hb & _). specialize (Hn a b). lia.
  - now destruct (two_pair_ranks_unique _ _ _ _ _ H H') as [-> ->].
Qed.

Lemma two_pair_none hand :
  (forall a b, a <> b -> (2 <= vcount a hand)%nat -> (vcount b hand < 2)%nat) ->
  _get_two_pair hand = [].
Proof.
  intros H. destruct (two_pair_cases hand) as [[-> _]|(a & b & Hab & _)];
    [reflexivity|].
  destruct Hab as (Hlt & Ha & Hb & _). specialize (H a b). lia.
Qed.

(** ** [_get_straight_cards] *)

Lemma rank_values_In hand v : In v (rank_values hand) <-> In v (map value hand).
Proof. unfold rank_values, Py.set. now rewrite sorted_In, nodup_In. Qed.

Lemma rank_values_NoDup hand : NoDup (rank_values hand).
Proof. apply sorted_NoDup, NoDup_nodup. Qed.

Lemma sorted_NoDup_strict (l : list Z) :
  StronglySorted (Py.in_order (fun v => v) true) l -> NoDup l ->
  StronglySorted (fun a b => b < a) l.
Proof.
  induction 1 as [|x l Hs IH Hx]; intros Hnd; constructor;
    inversion Hnd as [|? ? Hn Hnd']; subst; [now apply IH|].
  rewrite Forall_forall in *. intros y Hy.
  specialize (Hx y Hy). unfold Py.in_order, Py.before in Hx.
  assert (x <> y) by (intros ->; contradiction). lia.
Qed.

Lemma rank_values_strict hand :
  StronglySorted (fun a b => b < a) (rank_values hand).
Proof.
  apply sorted_NoDup_strict; [apply sorted_sorted | apply rank_values_NoDup].
Qed.

Lemma strict_nth (l : list Z) :
  StronglySorted (fun a b => b < a) l ->
  forall i k, (i + k < length l)%nat ->
  nth (i + k) l 0 + Z.of_nat k <= nth i l 0.
Proof.
  induction 1 as [|x l Hs IH Hx]; intros i k Hlen; simpl in Hlen; [lia|].
  destruct i as [|i].
  - destruct k as [|k]; [simpl; lia|].
    cbn [Nat.add nth]. specialize (IH 0%nat k ltac:(simpl; lia)).
    cbn [Nat.add] in IH.
    rewrite Forall_forall in Hx.
    assert (Hin : In (nth 0 l 0) l) by (apply nth_In; lia).
    apply Hx in Hin. lia.
  - cbn [Nat.add nth]. apply IH. lia.
Qed.

Lemma strict_sorted_fixed (l : list Z) :
  StronglySorted (fun a b => b < a) l -> Py.sorted (fun v => v) true (Py.set l) = l.
Proof.
  intros H. unfold Py.set.
  assert (Hnd : NoDup l).
  { induction H as [|x l Hs IH Hx]; constructor; [|assumption].
    intros Hin. rewrite Forall_forall in Hx. apply Hx in Hin. lia. }
  rewrite nodup_fixed_point by assumption.
  apply sorted_fixed.
  induction H as [|x l Hs IH Hx]; constructor.
  - apply IH. now inversion Hnd.
  - rewrite Forall_forall in *. intros y Hy. specialize (Hx y Hy).
    unfold Py.in_order, Py.before. lia.
Qed.

Lemma first_with_value_In hand v :
  In v (map value hand) ->
  exists c, first_with_value hand v = [c] /\ In c hand /\ value c = v.
Proof.
  intros H. unfold first_with_value.
  destruct (find (fun card => value card =? v) hand) as [c|] eqn:E.
  - apply find_some in E. destruct E as [Hin Hc].
    exists c. rewrite Z.eqb_eq in Hc. tauto.
  - apply in_map_iff in H. destruct H as (c & Hc & Hin).
    apply (find_none _ _ E) in Hin. lia.
Qed.

(** A found window is five consecutive ranks, all present in the hand. *)
Lemma straight_cases hand :
  (_get_straight_cards hand = [] /\
   ((length (rank_values hand) < 5)%nat \/
    nth 0 (rank_values hand) 0 - nth 4 (rank_values hand) 0 <> 4)) \/
  (exists c0 c1 c2 c3 c4,
     _get_straight_cards hand = [c0; c1; c2; c3; c4] /\
     Forall (fun c => In c hand) [c0; c1; c2; c3; c4] /\
     value c1 = value c0 - 1 /\ value c2 = value c0 - 2 /\
     value c3 = value c0 - 3 /\ value c4 = value c0 - 4).
Proof.
  unfold _get_straight_cards. fold (rank_values hand).
  destruct (find _ (seq 0 (length (rank_values hand) - 4))) as [i|] eqn:E.
  - right. apply find_some in E. destruct E as [Hi Hw].
    apply in_seq in Hi. apply Z.eqb_eq in Hw.
    pose proof (strict_nth _ (rank_values_strict hand)) as Hn.
    set (v := nth i (rank_values hand) 0) in *.
    assert (Hv : forall k, (k <= 4)%nat ->
                   nth (i + k) (rank_values hand) 0 = v - Z.of_nat k).
    { intros k Hk.
      pose proof (Hn i k ltac:(lia)) as H1.
      pose proof (Hn (i + k)%nat (4 - k)%nat ltac:(lia)) as H2.
      replace (i + k + (4 - k))%nat with (i + 4)%nat in H2 by lia.
      fold v in H1. lia. }
    assert (Hin : forall k, (k <= 4)%nat ->
                    In (v - Z.of_nat k) (map value hand)).
    { intros k Hk. rewrite <- Hv by assumption.
      apply rank_values_In, nth_In. lia. }
    destruct (first_with_value_In hand _ (Hin 0%nat ltac:(lia)))
      as (c0 & E0 & I0 & V0).
    destruct (first_with_value_In hand _ (Hin 1%nat ltac:(lia)))
      as (c1 & E1 & I1 & V1).
    destruct (first_with_value_In hand _ (Hin 2%nat ltac:(lia)))
      as (c2 & E2 & I2 & V2).
    destruct (first_with_value_In hand _ (Hin 3%nat ltac:(lia)))
      as (c3 & E3 & I3 & V3).
    destruct (first_with_value_In hand _ (Hin 4%nat ltac:(lia)))
      as (c4 & E4 & I4 & V4).
    exists c0, c1, c2, c3, c4.
    unfold Py.range_down. cbn [seq map flat_map].
    rewrite E0, E1, E2, E3, E4. cbn [app].
    split; [reflexivity|]. split; [now repeat constructor|].
    cbn [Z.of_nat] in *. lia.
  - left. split; [reflexivity|].
    destruct (Nat.lt_ge_cases (length (rank_values hand)) 5) as [|Hge];
      [now left | right].
    assert (Hin : In 0%nat (seq 0 (length (rank_values hand) - 4)))
      by (apply in_seq; lia).
    apply (find_none _ _ E) in Hin. cbn [Nat.add] in Hin. lia.
Qed.

Lemma straight_few_ranks hand :
  (length (rank_values hand) < 5)%nat -> _get_straight_cards hand = [].
Proof.
  intros H. unfold _get_straight_cards. fold (rank_values hand).
  now replace (length (rank_values hand) - 4)%nat with 0%nat by lia.
Qed.

Lemma nodup_length_le (l : list Z) :
  (length (nodup Z.eq_dec l) <= length l)%nat.
Proof.
  induction l as [|a l IH]; simpl; [lia|].
  destruct (in_dec Z.eq_dec a l); simpl; lia.
Qed.

Lemma nodup_length_lt (l : list Z) :
  ~ NoDup l -> (length (nodup Z.eq_dec l) < length l)%nat.
Proof.
  induction l as [|a l IH]; intros H; [exfalso; apply H; constructor|].
  simpl. pose proof (nodup_length_le l).
  destruct (in_dec Z.eq_dec a l) as [Hin|Hin]; simpl; [lia|].
  apply -> Nat.succ_lt_mono. apply IH. intros Hnd. apply H. now constructor.
Qed.


Lemma straight_repeated_rank hand :
  (length hand <= 5)%nat -> ~ NoDup (map value hand) ->
  _get_straight_cards hand = [].
Proof.
  intros Hlen H. apply straight_few_ranks.
  unfold rank_values, Py.set. rewrite sorted_length.
  apply nodup_length_lt in H. rewrite length_map in H. lia.
Qed.

(** On five cards of strictly descending rank the window is the hand. *)
Lemma straight_desc5 c0 c1 c2 c3 c4 :
  value c1 < value c0 -> value c2 < value c1 ->
  value c3 < value c2 -> value c4 < value c3 ->
  _get_straight_cards [c0; c1; c2; c3; c4] =
  if value c0 - value c4 =? 4 then [c0; c1; c2; c3; c4] else [].
Proof.
  intros H1 H2 H3 H4. unfold _get_straight_cards.
  rewrite strict_sorted_fixed.
  2:{ cbn [map]. repeat constructor; lia. }
  cbn [map length Nat.sub seq find Nat.add nth].
  destruct (value c0 - value c4 =? 4) eqn:E; [|reflexivity].
  apply Z.eqb_eq in E. unfold Py.range_down. cbn [seq map flat_map Z.of_nat].
  unfold first_with_value. cbn [find].
  repeat match goal with
         | |- context [?a =? ?b] =>
             destruct (Z.eqb_spec a b); try lia; cbn [app]
         end.
  reflexivity.
Qed.

(** * The branches of [evaluate] *)

Lemma nonempty_true {A : Type} (l : list A) : nonempty l = true <-> l <> [].
Proof. destruct l; simpl; split; congruence. Qed.

Lemma nonempty_false {A : Type} (l : list A) : nonempty l = false <-> l = [].
Proof. destruct l; simpl; split; congruence. Qed.

Lemma straight_flush_cards_eq hand :
  (if nonempty (_get_flush_cards hand)
   then _get_straight_cards (_get_flush_cards hand) else []) =
  _get_straight_cards (_get_flush_cards hand).
Proof. now destruct (_get_flush_cards hand). Qed.

Lemma full_house_needs_trips hand :
  _get_n_of_a_kind hand 3 = [] -> _get_full_house hand = [].
Proof. unfold _get_full_house. now intros ->. Qed.

Ltac path_done :=
  solve [ reflexivity | congruence | contradiction
        | match goal with
          | H : _get_flush_cards _ = [],
            E : _get_straight_cards (_get_flush_cards _) <> [] |- _ =>
              rewrite H in E; exfalso; apply E; reflexivity
          | H : _get_n_of_a_kind ?h 3 = [], E : _get_full_house ?h <> [] |- _ =>
              exfalso; apply E; apply full_house_needs_trips; exact H
          end ].

Lemma evaluate_path hand r b :
  evaluate hand = Ok (r, b) <-> (5 <= length hand)%nat /\ eval_path hand r b.
Proof.
  unfold evaluate. rewrite straight_flush_cards_eq.
  destruct (length hand <? 5)%nat eqn:Hlen.
  { apply Nat.ltb_lt in Hlen. split; [discriminate | lia]. }
  apply Nat.ltb_ge in Hlen.
  destruct (nonempty (_get_straight_cards (_get_flush_cards hand))) eqn:Esf.
  { apply nonempty_true in Esf.
    destruct (Z.eqb_spec
                (value_at (_get_straight_cards (_get_flush_cards hand)) 0) 14).
    - split.
      + intros [= <- <-]. split; [assumption | now constructor].
      + intros [_ H]. inversion H; subst; path_done.
    - split.
      + intros [= <- <-]. split; [assumption | now constructor].
      + intros [_ H]. inversion H; subst; path_done. }
  apply nonempty_false in Esf.
  destruct (nonempty (_get_n_of_a_kind hand 4)) eqn:E4.
  { apply nonempty_true in E4. split.
    - intros [= <- <-]. split; [assumption | now constructor].
    - intros [_ H]. inversion H; subst; path_done. }
  apply nonempty_false in E4.
  destruct (nonempty (_get_full_house hand)) eqn:Efh.
  { apply nonempty_true in Efh. split.
    - intros [= <- <-]. split; [assumption | now constructor].
    - intros [_ H]. inversion H; subst; path_done. }
  apply nonempty_false in Efh.
  destruct (nonempty (_get_flush_cards hand)) eqn:Efc.
  { apply nonempty_true in Efc. split.
    - intros [= <- <-]. split; [assumption | now constructor].
    - intros [_ H]. inversion H; subst; path_done. }
  apply nonempty_false in Efc.
  destruct (nonempty (_get_straight_cards hand)) eqn:Es.
  { apply nonempty_true in Es. split.
    - intros [= <- <-]. split; [assumption | now constructor].
    - intros [_ H]. inversion H; subst; path_done. }
  apply nonempty_false in Es.
  destruct (nonempty (_get_n_of_a_kind hand 3)) eqn:E3.
  { apply nonempty_true in E3. split.
    - intros [= <- <-]. split; [assumption | now constructor].
    - intros [_ H]. inversion H; subst; path_done. }
  apply nonempty_false in E3.
  destruct (nonempty (_get_two_pair hand)) eqn:Etp.
  { apply nonempty_true in Etp. split.
    - intros [= <- <-]. split; [assumption | now constructor].
    - intros [_ H]. inversion H; subst; path_done. }
  apply nonempty_false in Etp.
  destruct (nonempty (_get_n_of_a_kind hand 2)) eqn:E2.
  { apply nonempty_true in E2. split.
    - intros [= <- <-]. split; [assumption | now constructor].
    - intros [_ H]. inversion H; subst; path_done. }
  apply nonempty_false in E2. split.
  - intros [= <- <-]. split; [assumption | now constructor].
  - intros [_ H]. inversion H; subst; path_done.
Qed.

Lemma evaluate_total hand :
  (5 <= length hand)%nat -> exists r b, evaluate hand = Ok (r, b).
Proof.
  intros Hlen. unfold evaluate.
  replace (length hand <? 5)%nat with false by (symmetry; now apply Nat.ltb_ge).
  repeat match goal with
         | |- context [if ?c then _ else _] => destruct c
         end; eauto.
Qed.

(** * Counting the cards of a hand *)

Lemma by_rank_In l c : In c (by_rank l) <-> In c l.
Proof. apply sorted_In. Qed.

Lemma by_rank_length l : length (by_rank l) = length l.
Proof. apply sorted_length. Qed.

Lemma by_rank_NoDup l : NoDup l -> NoDup (by_rank l).
Proof. apply sorted_NoDup. Qed.

Lemma without_value_by_rank v l :
  without_value v (by_rank l) = by_rank (without_value v l).
Proof. apply sorted_filter. Qed.

Lemma without_value_length v l :
  (length (without_value v l) + vcount v l = length l)%nat.
Proof.
  unfold without_value, vcount, with_value, keyed.
  rewrite Nat.add_comm. apply filter_length.
Qed.

Lemma NoDup_firstn {A : Type} (n : nat) (l : list A) :
  NoDup l -> NoDup (firstn n l).
Proof.
  intros H. rewrite <- (firstn_skipn n l) in H.
  now apply NoDup_app_remove_r in H.
Qed.

Lemma all_suits s : In s [HEARTS; DIAMONDS; CLUBS; SPADES].
Proof. destruct s; simpl; tauto. Qed.

(** A deck has four suits: distinct cards of one rank are at most four. *)
Lemma vcount_le_4 v hand : NoDup hand -> (vcount v hand <= 4)%nat.
Proof.
  intros Hnd. unfold vcount. rewrite <- (length_map suit).
  change 4%nat with (length [HEARTS; DIAMONDS; CLUBS; SPADES]).
  apply NoDup_incl_length; [|intros s _; apply all_suits].
  apply Finite.Injective_map_NoDup_in.
  - intros [v1 s1] [v2 s2] H1 H2. apply with_value_In in H1, H2.
    simpl in *. intros ->. destruct H1 as [_ ->], H2 as [_ ->]. reflexivity.
  - apply NoDup_filter, Hnd.
Qed.

Lemma with_value_without v w l :
  v <> w -> with_value w (without_value v l) = with_value w l.
Proof.
  intros Hne. unfold with_value, without_value, keyed.
  induction l as [|c l IH]; simpl; [reflexivity|].
  destruct (Z.eqb_spec (value c) v) as [Hv|Hv]; simpl.
  - destruct (Z.eqb_spec (value c) w); [congruence | exact IH].
  - now rewrite IH.
Qed.


Lemma two_pair_filter a b l :
  filter (fun c => negb (value c =? a) && negb (value c =? b)) l =
  without_value b (without_value a l).
Proof.
  unfold without_value. induction l as [|c l IH]; simpl; [reflexivity|].
  destruct (negb (value c =? a)); simpl; rewrite IH; reflexivity.
Qed.

Lemma two_pair_kicker_eq hand a b :
  two_pair_kicker hand a b =
  firstn 1 (by_rank (without_value b (without_value a hand))).
Proof.
  unfold two_pair_kicker. rewrite two_pair_filter.
  now rewrite !without_value_by_rank.
Qed.

Lemma drawn_firstn n l hand : drawn_from hand l -> drawn_from hand (firstn n l).
Proof.
  intros [Hnd Hin]. split; [now apply NoDup_firstn|].
  intros c Hc. apply Hin. eapply firstn_In_incl; eauto.
Qed.

Lemma drawn_with_value v hand : NoDup hand -> drawn_from hand (with_value v hand).
Proof.
  intros H. split; [now apply NoDup_filter|].
  intros c Hc. now apply with_value_In in Hc.
Qed.

Lemma drawn_without_value v hand :
  NoDup hand -> drawn_from hand (without_value v hand).
Proof.
  intros H. split; [now apply NoDup_filter|].
  intros c Hc. now apply without_value_In in Hc.
Qed.

Lemma drawn_of_suit s hand : NoDup hand -> drawn_from hand (of_suit s hand).
Proof.
  intros H. split; [now apply NoDup_filter|].
  intros c Hc. now apply of_suit_In in Hc.
Qed.

Lemma drawn_by_rank hand l : drawn_from hand l -> drawn_from hand (by_rank l).
Proof.
  intros [Hnd Hin]. split; [now apply by_rank_NoDup|].
  intros c Hc. apply Hin. now apply by_rank_In.
Qed.

Lemma drawn_trans hand l b : drawn_from hand l -> drawn_from l b -> drawn_from hand b.
Proof. intros [_ H1] [H2 H3]. split; [assumption|]. intros c Hc. auto. Qed.

Lemma drawn_app hand l1 l2 :
  drawn_from hand l1 -> drawn_from hand l2 ->
  (forall c, In c l1 -> ~ In c l2) -> drawn_from hand (l1 ++ l2).
Proof.
  intros [N1 I1] [N2 I2] H. split; [now apply NoDup_app|].
  now apply incl_app.
Qed.

Lemma drawn_refl hand : NoDup hand -> drawn_from hand hand.
Proof. intros H. split; [assumption | apply incl_refl]. Qed.

(** Counting any kind of card in a selection never exceeds the hand. *)
Lemma drawn_filter_length (p : Card -> bool) hand b :
  drawn_from hand b -> (length (filter p b) <= length (filter p hand))%nat.
Proof.
  intros [Hnd Hin]. apply NoDup_incl_length; [now apply NoDup_filter|].
  intros c Hc. apply filter_In in Hc. apply filter_In. split; [|tauto].
  apply Hin. tauto.
Qed.

Lemma drawn_vcount v hand b : drawn_from hand b -> (vcount v b <= vcount v hand)%nat.
Proof. apply drawn_filter_length. Qed.

Lemma drawn_of_suit_length s hand b :
  drawn_from hand b -> (length (of_suit s b) <= length (of_suit s hand))%nat.
Proof. apply drawn_filter_length. Qed.

(** * The five cards [evaluate] returns *)

Lemma flush_cards_shape hand :
  NoDup hand -> _get_flush_cards hand <> [] ->
  exists s, _get_flush_cards hand = firstn 5 (by_rank (of_suit s hand)) /\
            (5 <= length (of_suit s hand))%nat /\
            length (_get_flush_cards hand) = 5%nat /\
            drawn_from hand (_get_flush_cards hand) /\
            Forall (fun c => suit c = s) (_get_flush_cards hand).
Proof.
  intros Hnd H. destruct (flush_cards_some hand H) as (s & Hs & ->).
  exists s. split; [reflexivity|]. split; [assumption|]. split; [|split].
  - apply length_firstn_le. now rewrite by_rank_length.
  - apply drawn_firstn, drawn_by_rank, drawn_of_suit, Hnd.
  - apply Forall_forall. intros c Hc. apply firstn_In_incl in Hc.
    apply (proj1 (by_rank_In _ _)) in Hc. now apply of_suit_In in Hc.
Qed.

Lemma straight_shape hand :
  _get_straight_cards hand <> [] ->
  length (_get_straight_cards hand) = 5%nat /\
  drawn_from hand (_get_straight_cards hand).
Proof.
  intros H. destruct (straight_cases hand)
    as [[E _]|(c0 & c1 & c2 & c3 & c4 & -> & Hin & V1 & V2 & V3 & V4)];
    [congruence|].
  split; [reflexivity|]. split.
  - repeat constructor; simpl; intuition (subst; lia).
  - intros c Hc. rewrite Forall_forall in Hin. now apply Hin.
Qed.

Lemma n_of_a_kind_shape hand n v :
  NoDup hand -> (1 <= n <= 5)%nat -> top_rank n hand v ->
  (n <= vcount v hand)%nat ->
  (5 - n <= length hand - vcount v hand)%nat ->
  length (_get_n_of_a_kind hand n) = 5%nat /\
  drawn_from hand (_get_n_of_a_kind hand n).
Proof.
  intros Hnd Hn Hv Hc Hrest.
  rewrite (n_of_a_kind_top hand n v) by (lia || assumption). split.
  - rewrite length_app, !length_firstn_le; [lia| |exact Hc].
    rewrite without_value_by_rank, by_rank_length.
    pose proof (without_value_length v hand). lia.
  - apply drawn_app.
    + apply drawn_firstn, drawn_with_value, Hnd.
    + apply drawn_firstn. rewrite without_value_by_rank.
      apply drawn_by_rank, drawn_without_value, Hnd.
    + intros c H1 H2. apply firstn_In_incl in H1, H2.
      apply with_value_In in H1. apply without_value_In in H2. tauto.
Qed.

Lemma n_of_a_kind_nil_count hand n :
  (1 <= n)%nat -> _get_n_of_a_kind hand n = [] ->
  forall v, (vcount v hand < n)%nat.
Proof.
  intros Hn H. destruct (n_of_a_kind_cases hand n Hn) as [[_ H']|(v & Hv & E)];
    [assumption|].
  exfalso. rewrite E in H. apply app_eq_nil in H. destruct H as [H _].
  apply firstn_nil_iff in H; [|assumption]. destruct Hv as [Hv _].
  unfold vcount in Hv. rewrite H in Hv. simpl in Hv. lia.
Qed.

Lemma n_of_a_kind_not_nil hand n :
  (1 <= n)%nat -> _get_n_of_a_kind hand n <> [] ->
  exists v, top_rank n hand v.
Proof.
  intros Hn H. destruct (n_of_a_kind_cases hand n Hn) as [[E _]|(v & Hv & _)];
    [congruence | eauto].
Qed.

Lemma full_house_shape hand :
  NoDup hand -> _get_full_house hand <> [] ->
  length (_get_full_house hand) = 5%nat /\
  drawn_from hand (_get_full_house hand).
Proof.
  intros Hnd H. destruct (full_house_cases hand)
    as [[E _]|(v & w & Hv & Hw & ->)]; [congruence|].
  split.
  - rewrite length_app, !length_firstn_le; [reflexivity|apply Hw|apply Hv].
  - apply drawn_app.
    + apply drawn_firstn, drawn_with_value, Hnd.
    + apply drawn_firstn.
      apply drawn_trans with (without_value v hand);
        [now apply drawn_without_value|].
      apply drawn_with_value, NoDup_filter, Hnd.
    + intros c H1 H2. apply firstn_In_incl in H1, H2.
      apply with_value_In in H1. apply with_value_In in H2.
      destruct H2 as [H2 _]. apply without_value_In in H2. tauto.
Qed.

Lemma two_pair_shape hand :
  NoDup hand -> (5 <= length hand)%nat ->
  (forall v, (vcount v hand < 3)%nat) ->
  _get_two_pair hand <> [] ->
  length (_get_two_pair hand) = 5%nat /\
  drawn_from hand (_get_two_pair hand).
Proof.
  intros Hnd Hlen H3 H. destruct (two_pair_cases hand)
    as [[E _]|(a & b & (Hlt & Ha & Hb & Hmax) & ->)]; [congruence|].
  rewrite two_pair_kicker_eq.
  pose proof (without_value_length a hand) as La.
  pose proof (without_value_length b (without_value a hand)) as Lb.
  unfold vcount at 1 in Lb. rewrite with_value_without in Lb by lia.
  fold (vcount b hand) in Lb.
  pose proof (H3 a) as H3a. pose proof (H3 b) as H3b.
  split.
  - rewrite !length_app, !length_firstn_le; [lia| | exact Hb | exact Ha].
    rewrite by_rank_length. lia.
  - apply drawn_app; [|apply drawn_app|].
    + apply drawn_firstn, drawn_with_value, Hnd.
    + apply drawn_firstn, drawn_with_value, Hnd.
    + apply drawn_firstn, drawn_by_rank.
      apply drawn_trans with (without_value a hand);
        [now apply drawn_without_value|].
      apply drawn_without_value, NoDup_filter, Hnd.
    + intros c H1 H2. apply firstn_In_incl in H1, H2.
      apply with_value_In in H1. apply (proj1 (by_rank_In _ _)) in H2.
      apply without_value_In in H2. tauto.
    + intros c H1 H2. apply firstn_In_incl in H1.
      apply with_value_In in H1. apply in_app_or in H2.
      destruct H2 as [H2|H2]; apply firstn_In_incl in H2.
      * apply with_value_In in H2. lia.
      * apply (proj1 (by_rank_In _ _)) in H2. apply without_value_In in H2.
        destruct H2 as [H2 _]. apply without_value_In in H2. tauto.
Qed.

Lemma eval_path_drawn hand r b :
  NoDup hand -> (5 <= length hand)%nat -> eval_path hand r b ->
  length b = 5%nat /\ drawn_from hand b.
Proof.
  intros Hnd Hlen H.
  assert (Hfc : forall l, l = _get_flush_cards hand ->
            _get_straight_cards l <> [] ->
            length (_get_straight_cards l) = 5%nat /\
            drawn_from hand (_get_straight_cards l)).
  { intros l -> Hs. destruct (straight_shape _ Hs) as [L D].
    split; [assumption|].
    destruct (flush_cards_shape hand Hnd) as (s & _ & _ & _ & D' & _).
    - intros E. rewrite E in Hs. now apply Hs.
    - now apply drawn_trans with (_get_flush_cards hand). }
  assert (Hk : forall n, (2 <= n <= 4)%nat ->
            (forall v, (vcount v hand <= n)%nat) ->
            _get_n_of_a_kind hand n <> [] ->
            length (_get_n_of_a_kind hand n) = 5%nat /\
            drawn_from hand (_get_n_of_a_kind hand n)).
  { intros n Hn Hle Hne.
    destruct (n_of_a_kind_not_nil hand n ltac:(lia) Hne) as [v Hv].
    pose proof (Hle v). pose proof (proj1 Hv).
    apply n_of_a_kind_shape with v; try assumption; lia. }
  inversion H; subst.
  - now apply Hfc.
  - now apply Hfc.
  - apply Hk; [lia | intros v; now apply vcount_le_4 | assumption].
  - now apply full_house_shape.
  - destruct (flush_cards_shape hand Hnd) as (s & _ & _ & L & D & _);
      [assumption|].
    rewrite firstn_all2 by lia. now split.
  - now apply straight_shape.
  - apply Hk; [lia | | assumption].
    intros v. pose proof (n_of_a_kind_nil_count hand 4 ltac:(lia) H1 v). lia.
  - apply two_pair_shape; try assumption.
    apply n_of_a_kind_nil_count; [lia | assumption].
  - apply Hk; [lia | | assumption].
    intros v. pose proof (n_of_a_kind_nil_count hand 3 ltac:(lia) H3 v). lia.
  - split.
    + apply length_firstn_le. now rewrite by_rank_length.
    + apply drawn_firstn, drawn_by_rank, drawn_refl, Hnd.
Qed.

(** * Evaluating five cards again *)

Lemma filter_all {A : Type} (p : A -> bool) (l : list A) :
  (forall x, In x l -> p x = true) -> filter p l = l.
Proof.
  induction l as [|a l IH]; simpl; intros H; [reflexivity|].
  rewrite (H a) by now left. rewrite IH; [reflexivity|]. intros x Hx. auto.
Qed.

Lemma filter_none {A : Type} (p : A -> bool) (l : list A) :
  (forall x, In x l -> p x = false) -> filter p l = [].
Proof.
  induction l as [|a l IH]; simpl; intros H; [reflexivity|].
  rewrite (H a) by now left. apply IH. intros x Hx. auto.
Qed.

Lemma filter_length_all {A : Type} (p : A -> bool) (l : list A) :
  length (filter p l) = length l -> forall x, In x l -> p x = true.
Proof.
  induction l as [|a l IH]; simpl; intros H x Hx; [destruct Hx|].
  pose proof (filter_length p l) as Hl.
  destruct (p a) eqn:E; simpl in H.
  - destruct Hx as [<-|Hx]; [assumption | apply IH; [lia | assumption]].
  - lia.
Qed.

Lemma with_value_all v l :
  (forall c, In c l -> value c = v) -> with_value v l = l.
Proof.
  intros H. apply filter_all. intros c Hc. apply Z.eqb_eq. auto.
Qed.

Lemma with_value_none v l :
  (forall c, In c l -> value c <> v) -> with_value v l = [].
Proof.
  intros H. apply filter_none. intros c Hc. apply Z.eqb_neq. auto.
Qed.

Lemma without_value_all v l :
  (forall c, In c l -> value c <> v) -> without_value v l = l.
Proof.
  intros H. apply filter_all. intros c Hc.
  apply negb_true_iff, Z.eqb_neq. auto.
Qed.

Lemma without_value_none v l :
  (forall c, In c l -> value c = v) -> without_value v l = [].
Proof.
  intros H. apply filter_none. intros c Hc.
  apply negb_false_iff, Z.eqb_eq. auto.
Qed.

Lemma with_value_app v l1 l2 :
  with_value v (l1 ++ l2) = with_value v l1 ++ with_value v l2.
Proof. apply filter_app. Qed.

Lemma without_value_app v l1 l2 :
  without_value v (l1 ++ l2) = without_value v l1 ++ without_value v l2.
Proof. apply filter_app. Qed.

Lemma vcount_app v l1 l2 : vcount v (l1 ++ l2) = (vcount v l1 + vcount v l2)%nat.
Proof. unfold vcount. now rewrite with_value_app, length_app. Qed.

Lemma vcount_le_length v l : (vcount v l <= length l)%nat.
Proof.
  pose proof (without_value_length v l). lia.
Qed.


Lemma vcount_none v l : (forall c, In c l -> value c <> v) -> vcount v l = 0%nat.
Proof. intros H. unfold vcount. now rewrite with_value_none. Qed.

Lemma distinct_ranks_vcount v l : NoDup (map value l) -> (vcount v l <= 1)%nat.
Proof.
  unfold vcount, with_value, keyed.
  induction l as [|c l IH]; simpl; intros H; [lia|].
  inversion H as [|? ? Hn Hnd]; subst. specialize (IH Hnd).
  destruct (Z.eqb_spec (value c) v) as [<-|]; simpl; [|assumption].
  rewrite filter_none; [simpl; lia|].
  intros x Hx. apply Z.eqb_neq. intros E. apply Hn. rewrite <- E.
  now apply in_map.
Qed.

Lemma vcount_distinct_ranks l :
  (forall v, (vcount v l <= 1)%nat) -> NoDup (map value l).
Proof.
  induction l as [|c l IH]; simpl; intros H; constructor.
  - intros Hin. apply in_map_iff in Hin. destruct Hin as (c' & E & Hc').
    specialize (H (value c)). unfold vcount, with_value, keyed in H.
    simpl in H. rewrite Z.eqb_refl in H. simpl in H.
    assert (Hf : In c' (filter (fun c0 => value c0 =? value c) l))
      by (apply filter_In; split; [assumption | now apply Z.eqb_eq]).
    destruct (filter (fun c0 => value c0 =? value c) l);
      [destruct Hf | simpl in H; lia].
  - apply IH. intros v. specialize (H v).
    unfold vcount, with_value, keyed in *. simpl in H.
    destruct (value c =? v); simpl in H; lia.
Qed.

(** Two distinct cards of one rank differ in suit, so five cards holding a
    pair are no flush. *)
Lemma same_card_vcount v s l :
  NoDup l -> (forall c, In c l -> suit c = s) -> (vcount v l <= 1)%nat.
Proof.
  intros Hnd Hs. unfold vcount.
  assert (H : NoDup (with_value v l)) by now apply NoDup_filter.
  assert (Hc : forall c, In c (with_value v l) -> c = mkCard v s).
  { intros [v' s'] Hc. apply with_value_In in Hc. destruct Hc as [Hc Hv].
    apply Hs in Hc. simpl in *. congruence. }
  destruct (with_value v l) as [|x [|y l']]; simpl; try lia.
  exfalso. inversion H as [|? ? Hn _]; subst. apply Hn.
  rewrite (Hc x), (Hc y); simpl; auto.
Qed.

Lemma no_flush_of_pair v l :
  NoDup l -> (length l <= 5)%nat -> (2 <= vcount v l)%nat ->
  _get_flush_cards l = [].
Proof.
  intros Hnd Hlen Hv. apply no_flush_cards. intros s.
  destruct (Nat.lt_ge_cases (length (of_suit s l)) 5) as [|Hge]; [assumption|].
  exfalso.
  assert (Hall : forall c, In c l -> suit c = s).
  { intros c Hc. apply Suit_eqb_spec.
    apply (filter_length_all (fun c => Suit_eqb (suit c) s) l); [|assumption].
    pose proof (filter_length (fun c => Suit_eqb (suit c) s) l).
    unfold of_suit, keyed in Hge. cbv beta in *. lia. }
  pose proof (same_card_vcount v s l Hnd Hall). lia.
Qed.

Lemma no_straight_of_pair v l :
  (length l <= 5)%nat -> (2 <= vcount v l)%nat -> _get_straight_cards l = [].
Proof.
  intros Hlen Hv. apply straight_repeated_rank; [assumption|].
  intros H. pose proof (distinct_ranks_vcount v l H). lia.
Qed.

Lemma no_flush_drawn hand b :
  drawn_from hand b -> _get_flush_cards hand = [] -> _get_flush_cards b = [].
Proof.
  intros D H. apply no_flush_cards. intros s.
  pose proof (flush_cards_nil hand H s).
  pose proof (drawn_of_suit_length s hand b D). lia.
Qed.

(** Five cards of one suit, already by descending rank, are their own
    flush. *)
Lemma flush_cards_fixed s l :
  length l = 5%nat -> (forall c, In c l -> suit c = s) ->
  StronglySorted (Py.in_order value true) l ->
  _get_flush_cards l = l.
Proof.
  intros Hlen Hs Hsorted.
  assert (Hl : of_suit s l = l).
  { apply filter_all. intros c Hc. apply Suit_eqb_spec. auto. }
  destruct (_get_flush_cards l) as [|x xs] eqn:E.
  - pose proof (flush_cards_nil l E s). rewrite Hl in *. lia.
  - destruct (flush_cards_some l) as (s' & Hs' & E'); [congruence|].
    rewrite <- E, E'.
    assert (s' = s) as ->.
    { destruct (of_suit s' l) as [|c cs] eqn:Ec; [simpl in Hs'; lia|].
      assert (Hc : In c (of_suit s' l)) by (rewrite Ec; now left).
      apply of_suit_In in Hc. destruct Hc as [Hc <-]. auto. }
    rewrite Hl. unfold by_rank. rewrite sorted_fixed by assumption.
    apply firstn_all2. lia.
Qed.

Lemma by_rank_fixed l :
  StronglySorted (Py.in_order value true) l -> by_rank l = l.
Proof. apply sorted_fixed. Qed.

Lemma by_rank_sorted l : StronglySorted (Py.in_order value true) (by_rank l).
Proof. apply sorted_sorted. Qed.

Lemma kickers_fixed n v l :
  by_rank (firstn n (without_value v (by_rank l))) =
  firstn n (without_value v (by_rank l)).
Proof.
  apply by_rank_fixed, StronglySorted_firstn, StronglySorted_filter,
    by_rank_sorted.
Qed.

(** ** A group of [n] cards and its kickers *)

Section GroupAndKickers.
Context (hand : list Card) (n : nat) (v : Z).
Hypothesis n_bounds : (1 <= n <= 5)%nat.
Hypothesis v_top : top_rank n hand v.

Local Abbreviation group := (firstn n (with_value v hand)).
Local Abbreviation kickers := (firstn (5 - n) (without_value v (by_rank hand))).

Lemma group_value c : In c group -> value c = v.
Proof. intros H. apply firstn_In_incl in H. now apply with_value_In in H. Qed.

Lemma kickers_value c : In c kickers -> value c <> v.
Proof. intros H. apply firstn_In_incl in H. now apply without_value_In in H. Qed.

Lemma group_length : length group = n.
Proof. apply length_firstn_le, v_top. Qed.

Lemma kickers_length : (length kickers <= 5 - n)%nat.
Proof. apply firstn_le_length. Qed.

Lemma with_value_group_kickers : with_value v (group ++ kickers) = group.
Proof.
  rewrite with_value_app, (with_value_all v group), (with_value_none v kickers);
    [apply app_nil_r | exact kickers_value | exact group_value].
Qed.

Lemma without_value_group_kickers : without_value v (group ++ kickers) = kickers.
Proof.
  rewrite without_value_app, (without_value_none v group),
    (without_value_all v kickers);
    [reflexivity | exact kickers_value | exact group_value].
Qed.

Lemma vcount_group_kickers : vcount v (group ++ kickers) = n.
Proof. unfold vcount. rewrite with_value_group_kickers. apply group_length. Qed.

Lemma vcount_group_kickers_other w :
  w <> v -> vcount w (group ++ kickers) = vcount w kickers.
Proof.
  intros Hw. rewrite vcount_app, vcount_none; [reflexivity|].
  intros c Hc. apply group_value in Hc. congruence.
Qed.

Lemma top_rank_group_kickers :
  (forall w, w <> v -> (vcount w kickers < n)%nat) ->
  top_rank n (group ++ kickers) v.
Proof.
  intros Hk. split; [rewrite vcount_group_kickers; lia|].
  intros w Hw. rewrite vcount_group_kickers_other by lia. apply Hk. lia.
Qed.

Lemma kickers_drawn : NoDup hand -> drawn_from (without_value v hand) kickers.
Proof.
  intros Hnd. rewrite without_value_by_rank.
  apply drawn_firstn, drawn_by_rank, drawn_refl, NoDup_filter, Hnd.
Qed.

Lemma n_of_a_kind_again :
  (forall w, w <> v -> (vcount w kickers < n)%nat) ->
  _get_n_of_a_kind (group ++ kickers) n = group ++ kickers.
Proof.
  intros Hk. pose proof (top_rank_group_kickers Hk) as Htop.
  rewrite (n_of_a_kind_top _ n v) by (lia || assumption).
  rewrite with_value_group_kickers, without_value_by_rank,
    without_value_group_kickers, kickers_fixed.
  f_equal.
  - apply firstn_all2. rewrite group_length. lia.
  - apply firstn_all2. apply kickers_length.
Qed.
End GroupAndKickers.

Lemma straight_flush_none_of_pair v b :
  NoDup b -> (length b <= 5)%nat -> (2 <= vcount v b)%nat ->
  _get_straight_cards (_get_flush_cards b) = [].
Proof. intros Hnd Hlen Hv. now rewrite (no_flush_of_pair v b). Qed.

Lemma n_of_a_kind_none_drawn hand b n :
  (1 <= n)%nat -> drawn_from hand b ->
  _get_n_of_a_kind hand n = [] -> _get_n_of_a_kind b n = [].
Proof.
  intros Hn D H. apply n_of_a_kind_none; [assumption|]. intros v.
  pose proof (n_of_a_kind_nil_count hand n Hn H v).
  pose proof (drawn_vcount v hand b D). lia.
Qed.

(** ** Four of a kind *)

Lemma four_of_a_kind_again hand :
  NoDup hand -> (5 <= length hand)%nat ->
  _get_n_of_a_kind hand 4 <> [] ->
  eval_path (_get_n_of_a_kind hand 4) FOUR_OF_A_KIND (_get_n_of_a_kind hand 4).
Proof.
  intros Hnd Hlen Hne.
  destruct (n_of_a_kind_not_nil hand 4 ltac:(lia) Hne) as [v Hv].
  pose proof (vcount_le_4 v hand Hnd) as H4.
  destruct (n_of_a_kind_shape hand 4 v Hnd ltac:(lia) Hv) as [L [Dn _]];
    [apply Hv | pose proof (proj1 Hv); lia |].
  set (b := _get_n_of_a_kind hand 4) in *.
  assert (Eb : b = firstn 4 (with_value v hand) ++
                   firstn (5 - 4) (without_value v (by_rank hand)))
    by (apply n_of_a_kind_top; [lia | assumption]).
  assert (Hagain : _get_n_of_a_kind b 4 = b).
  { rewrite Eb. apply n_of_a_kind_again; [lia | assumption|].
    intros w _. pose proof (vcount_le_length w
      (firstn (5 - 4) (without_value v (by_rank hand)))) as Hl.
    pose proof (kickers_length hand 4 v). lia. }
  pose proof (path_four_of_a_kind b) as P. rewrite Hagain in P. apply P.
  - apply straight_flush_none_of_pair with v; [assumption | lia |].
    rewrite Eb, vcount_group_kickers; (lia || assumption).
  - assumption.
Qed.

(** ** Three of a kind *)

Lemma full_house_nil_rest hand v :
  top_rank 3 hand v -> _get_full_house hand = [] ->
  forall w, (vcount w (without_value v hand) < 2)%nat.
Proof.
  intros Hv H. rewrite (full_house_remaining hand v Hv) in H.
  apply n_of_a_kind_nil_count; [lia|].
  destruct (_get_n_of_a_kind (without_value v hand) 2) as [|p ps];
    [reflexivity|].
  exfalso. cbn [nonempty] in H. apply app_eq_nil in H. destruct H as [H _].
  apply firstn_nil_iff in H; [|lia].
  pose proof (proj1 Hv) as Hc. unfold vcount in Hc. rewrite H in Hc.
  simpl in Hc. lia.
Qed.

Lemma three_of_a_kind_again hand :
  NoDup hand -> (5 <= length hand)%nat ->
  _get_n_of_a_kind hand 4 = [] -> _get_full_house hand = [] ->
  _get_n_of_a_kind hand 3 <> [] ->
  eval_path (_get_n_of_a_kind hand 3) THREE_OF_A_KIND (_get_n_of_a_kind hand 3).
Proof.
  intros Hnd Hlen H4 Hfh Hne.
  destruct (n_of_a_kind_not_nil hand 3 ltac:(lia) Hne) as [v Hv].
  pose proof (n_of_a_kind_nil_count hand 4 ltac:(lia) H4 v) as Hv4.
  destruct (n_of_a_kind_shape hand 3 v Hnd ltac:(lia) Hv) as [L D];
    [apply Hv | pose proof (proj1 Hv); lia |].
  pose proof (full_house_nil_rest hand v Hv Hfh) as Hrest.
  set (b := _get_n_of_a_kind hand 3) in *.
  assert (Eb : b = firstn 3 (with_value v hand) ++
                   firstn (5 - 3) (without_value v (by_rank hand)))
    by (apply n_of_a_kind_top; [lia | assumption]).
  assert (Hk : forall w, (vcount w (firstn (5 - 3)
                 (without_value v (by_rank hand))) < 2)%nat).
  { intros w. pose proof (drawn_vcount w _ _ (kickers_drawn hand 3 v Hnd)).
    specialize (Hrest w). lia. }
  assert (Htop : top_rank 3 b v).
  { rewrite Eb. apply top_rank_group_kickers; [lia | assumption|].
    intros w _. specialize (Hk w). lia. }
  assert (Hagain : _get_n_of_a_kind b 3 = b).
  { rewrite Eb. apply n_of_a_kind_again; [lia | assumption|].
    intros w _. specialize (Hk w). lia. }
  pose proof (path_three_of_a_kind b) as P. rewrite Hagain in P. apply P.
  - apply no_flush_of_pair with v;
      [apply D | lia | pose proof (proj1 Htop); lia].
  - now apply n_of_a_kind_none_drawn with hand; [lia | |].
  - apply full_house_no_pair with v; [assumption|].
    intros w. rewrite Eb, without_value_group_kickers by (lia || assumption).
    apply Hk.
  - apply no_straight_of_pair with v; [lia | pose proof (proj1 Htop); lia].
  - assumption.
Qed.

(** ** One pair *)

Lemma two_pair_nil_count hand :
  _get_two_pair hand = [] ->
  forall a b, a <> b -> (2 <= vcount a hand)%nat -> (vcount b hand < 2)%nat.
Proof.
  intros H. destruct (two_pair_cases hand)
    as [[_ Hn]|(a & b & (Hlt & Ha & Hb & _) & E)]; [assumption|].
  exfalso. rewrite E in H. apply app_eq_nil in H. destruct H as [H _].
  apply firstn_nil_iff in H; [|lia]. unfold vcount in Ha. rewrite H in Ha.
  simpl in Ha. lia.
Qed.

Lemma two_pair_none_drawn hand b :
  drawn_from hand b -> _get_two_pair hand = [] -> _get_two_pair b = [].
Proof.
  intros D H. apply two_pair_none. intros x y Hne Hx.
  pose proof (two_pair_nil_count hand H x y Hne).
  pose proof (drawn_vcount x hand b D). pose proof (drawn_vcount y hand b D).
  lia.
Qed.

Lemma pair_again hand :
  NoDup hand -> (5 <= length hand)%nat ->
  _get_n_of_a_kind hand 4 = [] -> _get_n_of_a_kind hand 3 = [] ->
  _get_two_pair hand = [] ->
  _get_n_of_a_kind hand 2 <> [] ->
  eval_path (_get_n_of_a_kind hand 2) PAIR (_get_n_of_a_kind hand 2).
Proof.
  intros Hnd Hlen H4 H3 Htp Hne.
  destruct (n_of_a_kind_not_nil hand 2 ltac:(lia) Hne) as [v Hv].
  pose proof (n_of_a_kind_nil_count hand 3 ltac:(lia) H3 v) as Hv3.
  destruct (n_of_a_kind_shape hand 2 v Hnd ltac:(lia) Hv) as [L D];
    [apply Hv | pose proof (proj1 Hv); lia |].
  set (b := _get_n_of_a_kind hand 2) in *.
  assert (Eb : b = firstn 2 (with_value v hand) ++
                   firstn (5 - 2) (without_value v (by_rank hand)))
    by (apply n_of_a_kind_top; [lia | assumption]).
  assert (Hk : forall w, w <> v -> (vcount w (firstn (5 - 2)
                 (without_value v (by_rank hand))) < 2)%nat).
  { intros w Hw.
    pose proof (drawn_vcount w _ _ (kickers_drawn hand 2 v Hnd)).
    pose proof (drawn_vcount w _ _ (drawn_without_value v hand Hnd)).
    pose proof (two_pair_nil_count hand Htp v w ltac:(congruence) (proj1 Hv)).
    lia. }
  assert (Htop : top_rank 2 b v)
    by (rewrite Eb; apply top_rank_group_kickers; [lia | assumption..]).
  assert (Hagain : _get_n_of_a_kind b 2 = b)
    by (rewrite Eb; apply n_of_a_kind_again; [lia | assumption..]).
  pose proof (path_pair b) as P. rewrite Hagain in P. apply P.
  - apply no_flush_of_pair with v;
      [apply D | lia | pose proof (proj1 Htop); lia].
  - now apply n_of_a_kind_none_drawn with hand; [lia | |].
  - apply no_straight_of_pair with v; [lia | pose proof (proj1 Htop); lia].
  - now apply n_of_a_kind_none_drawn with hand; [lia | |].
  - now apply two_pair_none_drawn with hand.
  - assumption.
Qed.

(** ** Full house *)

Lemma full_house_again hand :
  NoDup hand -> _get_n_of_a_kind hand 4 = [] ->
  _get_full_house hand <> [] ->
  eval_path (_get_full_house hand) FULL_HOUSE (_get_full_house hand).
Proof.
  intros Hnd H4 Hne.
  destruct (full_house_shape hand Hnd Hne) as [L D].
  destruct (full_house_cases hand) as [[E _]|(v & w & Hv & Hw & Eb)];
    [congruence|].
  set (b := _get_full_house hand) in *.
  set (T := firstn 3 (with_value v hand)) in *.
  set (P := firstn 2 (with_value w (without_value v hand))) in *.
  assert (HT : forall c, In c T -> value c = v).
  { intros c Hc. apply firstn_In_incl in Hc. now apply with_value_In in Hc. }
  assert (HP : forall c, In c P -> value c = w /\ value c <> v).
  { intros c Hc. apply firstn_In_incl in Hc. apply with_value_In in Hc.
    destruct Hc as [Hc ?]. apply without_value_In in Hc. tauto. }
  assert (LT : length T = 3%nat) by (apply length_firstn_le, Hv).
  assert (LP : length P = 2%nat) by (apply length_firstn_le, Hw).
  assert (Hwv : w <> v).
  { destruct P as [|c P'] eqn:EP; [discriminate|].
    destruct (HP c (or_introl eq_refl)). congruence. }
  assert (Wv : with_value v b = T).
  { rewrite Eb, with_value_app, (with_value_all v T), (with_value_none v P);
      [apply app_nil_r | intros c Hc; now apply HP | assumption]. }
  assert (Wo : without_value v b = P).
  { rewrite Eb, without_value_app, (without_value_none v T),
      (without_value_all v P);
      [reflexivity | intros c Hc; now apply HP | assumption]. }
  assert (Ww : with_value w P = P).
  { apply with_value_all. intros c Hc. now apply HP. }
  assert (Htop : top_rank 3 b v).
  { split; [unfold vcount; rewrite Wv; lia|]. intros x Hx.
    rewrite Eb, vcount_app, (vcount_none x T)
      by (intros c Hc; apply HT in Hc; lia).
    pose proof (vcount_le_length x P). lia. }
  assert (Htop2 : top_rank 2 (without_value v b) w).
  { rewrite Wo. split; [unfold vcount; rewrite Ww; lia|]. intros x Hx.
    rewrite vcount_none; [lia|]. intros c Hc. apply HP in Hc. lia. }
  assert (Hagain : _get_full_house b = b).
  { rewrite (full_house_top b v w Htop Htop2), Wv, Wo, Ww.
    transitivity (T ++ P); [|symmetry; exact Eb].
    f_equal; apply firstn_all2; lia. }
  pose proof (path_full_house b) as Pth. rewrite Hagain in Pth. apply Pth.
  - apply straight_flush_none_of_pair with v;
      [apply D | lia | pose proof (proj1 Htop); lia].
  - now apply n_of_a_kind_none_drawn with hand; [lia | |].
  - assumption.
Qed.

(** ** Flush *)

Lemma flush_cards_sorted hand :
  StronglySorted (Py.in_order value true) (_get_flush_cards hand).
Proof.
  unfold _get_flush_cards. destruct (find _ _) as [[k cs]|]; [|constructor].
  apply StronglySorted_firstn, sorted_sorted.
Qed.

Lemma one_suit_no_trips s l n :
  (2 <= n)%nat -> NoDup l -> (forall c, In c l -> suit c = s) ->
  _get_n_of_a_kind l n = [].
Proof.
  intros Hn Hnd Hs. apply n_of_a_kind_none; [lia|]. intros v.
  pose proof (same_card_vcount v s l Hnd Hs). lia.
Qed.

Lemma flush_again hand :
  NoDup hand -> _get_flush_cards hand <> [] ->
  _get_straight_cards (_get_flush_cards hand) = [] ->
  eval_path (firstn 5 (_get_flush_cards hand)) FLUSH
            (firstn 5 (_get_flush_cards hand)).
Proof.
  intros Hnd Hne Hsf.
  destruct (flush_cards_shape hand Hnd Hne) as (s & _ & _ & L & D & Hs).
  rewrite Forall_forall in Hs.
  rewrite firstn_all2 by lia.
  set (b := _get_flush_cards hand) in *.
  assert (Hfix : _get_flush_cards b = b).
  { apply flush_cards_fixed with s; [assumption | assumption|].
    apply flush_cards_sorted. }
  pose proof (path_flush b) as P. rewrite Hfix in P.
  rewrite (firstn_all2 (n := 5) b) in P by lia. apply P.
  - assumption.
  - apply one_suit_no_trips with s; [lia | apply D | assumption].
  - apply full_house_needs_trips.
    apply one_suit_no_trips with s; [lia | apply D | assumption].
  - assumption.
Qed.

(** ** Straight, straight flush and royal flush *)

Lemma straight_cards_again l c0 c1 c2 c3 c4 :
  l = [c0; c1; c2; c3; c4] ->
  value c1 = value c0 - 1 -> value c2 = value c0 - 2 ->
  value c3 = value c0 - 3 -> value c4 = value c0 - 4 ->
  _get_straight_cards l = l /\
  StronglySorted (Py.in_order value true) l /\
  NoDup (map value l).
Proof.
  intros -> V1 V2 V3 V4. split; [|split].
  - rewrite straight_desc5 by lia.
    now replace (value c0 - value c4 =? 4) with true by (symmetry; lia).
  - repeat constructor; unfold Py.in_order, Py.before; lia.
  - cbn [map]. repeat constructor; simpl; lia.
Qed.

Lemma distinct_ranks_no_group l n :
  (2 <= n)%nat -> NoDup (map value l) -> _get_n_of_a_kind l n = [].
Proof.
  intros Hn H. apply n_of_a_kind_none; [lia|]. intros v.
  pose proof (distinct_ranks_vcount v l H). lia.
Qed.

Lemma straight_again hand :
  NoDup hand -> _get_flush_cards hand = [] ->
  _get_straight_cards hand <> [] ->
  eval_path (_get_straight_cards hand) STRAIGHT (_get_straight_cards hand).
Proof.
  intros Hnd Hfc Hne.
  destruct (straight_shape hand Hne) as [L D].
  destruct (straight_cases hand)
    as [[E _]|(c0 & c1 & c2 & c3 & c4 & Eb & _ & V1 & V2 & V3 & V4)];
    [congruence|].
  set (b := _get_straight_cards hand) in *.
  destruct (straight_cards_again b _ _ _ _ _ Eb V1 V2 V3 V4) as (Hfix & _ & Hd).
  pose proof (path_straight b) as P. rewrite Hfix in P. apply P.
  - now apply no_flush_drawn with hand.
  - apply distinct_ranks_no_group; [lia | assumption].
  - apply full_house_needs_trips, distinct_ranks_no_group; [lia | assumption].
  - assumption.
Qed.

Lemma straight_flush_fixed hand :
  NoDup hand ->
  _get_straight_cards (_get_flush_cards hand) <> [] ->
  _get_straight_cards
    (_get_flush_cards (_get_straight_cards (_get_flush_cards hand))) =
  _get_straight_cards (_get_flush_cards hand).
Proof.
  intros Hnd Hne.
  assert (Hfc : _get_flush_cards hand <> []).
  { intros E. rewrite E in Hne. now apply Hne. }
  destruct (flush_cards_shape hand Hnd Hfc) as (s & _ & _ & _ & _ & Hs).
  rewrite Forall_forall in Hs.
  destruct (straight_cases (_get_flush_cards hand))
    as [[E _]|(c0 & c1 & c2 & c3 & c4 & Eb & Hin & V1 & V2 & V3 & V4)];
    [congruence|].
  set (b := _get_straight_cards (_get_flush_cards hand)) in *.
  destruct (straight_cards_again b _ _ _ _ _ Eb V1 V2 V3 V4) as (Hfix & Hso & _).
  rewrite (flush_cards_fixed s b); [assumption | now rewrite Eb | | assumption].
  intros c Hc. apply Hs. rewrite Forall_forall in Hin. apply Hin.
  now rewrite <- Eb.
Qed.

(** ** Two pair *)

Lemma two_pair_again hand :
  NoDup hand -> (5 <= length hand)%nat ->
  _get_n_of_a_kind hand 4 = [] -> _get_n_of_a_kind hand 3 = [] ->
  _get_two_pair hand <> [] ->
  eval_path (_get_two_pair hand) TWO_PAIR (_get_two_pair hand).
Proof.
  intros Hnd Hlen H4 H3 Hne.
  destruct (two_pair_shape hand Hnd Hlen
              (n_of_a_kind_nil_count hand 3 ltac:(lia) H3) Hne) as [L D].
  destruct (two_pair_cases hand)
    as [[E _]|(a & b' & (Hlt & Ha & Hb & Hmax) & Eb)]; [congruence|].
  rewrite two_pair_kicker_eq in Eb.
  set (b := _get_two_pair hand) in *.
  set (A := firstn 2 (with_value a hand)) in *.
  set (B := firstn 2 (with_value b' hand)) in *.
  set (K := firstn 1 (by_rank (without_value b' (without_value a hand)))) in *.
  assert (HA : forall c, In c A -> value c = a).
  { intros c Hc. apply firstn_In_incl in Hc. now apply with_value_In in Hc. }
  assert (HB : forall c, In c B -> value c = b').
  { intros c Hc. apply firstn_In_incl in Hc. now apply with_value_In in Hc. }
  assert (HK : forall c, In c K -> value c <> a /\ value c <> b').
  { intros c Hc. apply firstn_In_incl in Hc.
    apply (proj1 (by_rank_In _ _)) in Hc.
    apply without_value_In in Hc. destruct Hc as [Hc ?].
    apply without_value_In in Hc. tauto. }
  assert (LA : length A = 2%nat) by (apply length_firstn_le, Ha).
  assert (LB : length B = 2%nat) by (apply length_firstn_le, Hb).
  assert (LK : (length K <= 1)%nat) by apply firstn_le_length.
  assert (Wa : with_value a b = A).
  { rewrite Eb, !with_value_app, (with_value_all a A), (with_value_none a B),
      (with_value_none a K); [apply app_nil_r | | | assumption].
    - intros c Hc. now apply HK.
    - intros c Hc. apply HB in Hc. lia. }
  assert (Wb : with_value b' b = B).
  { rewrite Eb, !with_value_app, (with_value_none b' A), (with_value_all b' B),
      (with_value_none b' K); [apply app_nil_r | | assumption |].
    - intros c Hc. now apply HK.
    - intros c Hc. apply HA in Hc. lia. }
  assert (Wk : without_value b' (without_value a b) = K).
  { rewrite Eb, !without_value_app, (without_value_none a A),
      (without_value_all a B), (without_value_all a K),
      (without_value_none b' B), (without_value_all b' K);
      try assumption; try reflexivity.
    - intros c Hc. now apply HK.
    - intros c Hc. now apply HK.
    - intros c Hc. apply HB in Hc. lia. }
  assert (Hranks : two_pair_ranks b a b').
  { split; [assumption|]. unfold vcount at 1 2. rewrite Wa, Wb.
    split; [lia|]. split; [lia|]. intros w Hw Hwa.
    rewrite Eb, !vcount_app, (vcount_none w A), (vcount_none w B).
    - pose proof (vcount_le_length w K). lia.
    - intros c Hc. apply HB in Hc. lia.
    - intros c Hc. apply HA in Hc. lia. }
  assert (Hagain : _get_two_pair b = b).
  { rewrite (two_pair_top b a b' Hranks), two_pair_kicker_eq, Wa, Wb, Wk.
    transitivity (A ++ B ++ K); [|symmetry; exact Eb].
    f_equal; [apply firstn_all2; lia|].
    f_equal; [apply firstn_all2; lia|].
    unfold K at 1. unfold by_rank at 1.
    rewrite sorted_fixed
      by (apply StronglySorted_firstn, by_rank_sorted).
    apply firstn_all2. exact LK. }
  assert (Hab : (2 <= vcount a b)%nat) by (unfold vcount; rewrite Wa; lia).
  pose proof (path_two_pair b) as P. rewrite Hagain in P. apply P.
  - apply no_flush_of_pair with a; [apply D | lia | assumption].
  - now apply n_of_a_kind_none_drawn with hand; [lia | |].
  - apply no_straight_of_pair with a; [lia | assumption].
  - now apply n_of_a_kind_none_drawn with hand; [lia | |].
  - assumption.
Qed.

(** ** High card *)

Lemma rank_values_distinct l :
  NoDup (map value l) -> rank_values l = map value (by_rank l).
Proof.
  intros H. unfold rank_values, Py.set, by_rank.
  rewrite nodup_fixed_point by assumption. apply sorted_map.
Qed.

Lemma no_group_distinct l :
  _get_n_of_a_kind l 2 = [] -> NoDup (map value l).
Proof.
  intros H. apply vcount_distinct_ranks. intros v.
  pose proof (n_of_a_kind_nil_count l 2 ltac:(lia) H v). lia.
Qed.

Lemma high_card_again hand :
  NoDup hand -> (5 <= length hand)%nat ->
  _get_flush_cards hand = [] -> _get_straight_cards hand = [] ->
  _get_n_of_a_kind hand 2 = [] ->
  eval_path (firstn 5 (by_rank hand)) HIGH_CARD (firstn 5 (by_rank hand)).
Proof.
  intros Hnd Hlen Hfc Hs H2.
  set (b := firstn 5 (by_rank hand)).
  assert (D : drawn_from hand b)
    by (apply drawn_firstn, drawn_by_rank, drawn_refl, Hnd).
  assert (L : length b = 5%nat)
    by (apply length_firstn_le; now rewrite by_rank_length).
  assert (H2b : _get_n_of_a_kind b 2 = [])
    by (now apply n_of_a_kind_none_drawn with hand; [lia | |]).
  assert (Hso : StronglySorted (Py.in_order value true) b)
    by apply StronglySorted_firstn, by_rank_sorted.
  assert (Hfix : firstn 5 (by_rank b) = b).
  { rewrite by_rank_fixed by assumption. apply firstn_all2. lia. }
  assert (Hvals : rank_values b = firstn 5 (rank_values hand)).
  { rewrite !rank_values_distinct by now apply no_group_distinct.
    rewrite by_rank_fixed by assumption. unfold b. now rewrite firstn_map. }
  assert (Hlv : length (rank_values hand) = length hand).
  { rewrite rank_values_distinct by now apply no_group_distinct.
    now rewrite length_map, by_rank_length. }
  assert (Hsb : _get_straight_cards b = []).
  { destruct (straight_cases hand) as [[_ [Hc|Hc]]|(? & ? & ? & ? & ? & E & _)];
      [lia | | congruence].
    destruct (straight_cases b) as [[E _]|(c0 & c1 & c2 & c3 & c4 & E & _)];
      [assumption | exfalso].
    unfold _get_straight_cards in E. fold (rank_values b) in E.
    assert (Hlb : length (rank_values b) = 5%nat)
      by (rewrite Hvals, length_firstn; lia).
    rewrite Hlb in E. cbn [Nat.sub seq find Nat.add] in E.
    rewrite Hvals, !nth_firstn in E. cbn [Nat.ltb Nat.leb] in E.
    destruct (Z.eqb_spec (nth 0 (rank_values hand) 0 -
                          nth 4 (rank_values hand) 0) 4);
      [contradiction | discriminate]. }
  pose proof (path_high_card b) as P. rewrite Hfix in P. apply P.
  - now apply no_flush_drawn with hand.
  - apply distinct_ranks_no_group; [lia | now apply no_group_distinct].
  - assumption.
  - apply distinct_ranks_no_group; [lia | now apply no_group_distinct].
  - apply two_pair_none. intros x y _ Hx.
    pose proof (n_of_a_kind_nil_count b 2 ltac:(lia) H2b x). lia.
  - assumption.
Qed.

(** ** Every branch *)

Lemma eval_path_again hand r b :
  NoDup hand -> (5 <= length hand)%nat ->
  eval_path hand r b -> eval_path b r b.
Proof.
  intros Hnd Hlen H. inversion H; subst.
  - pose proof (path_royal_flush sf) as P. cbv zeta in P.
    unfold sf in *. rewrite straight_flush_fixed in P by assumption. now apply P.
  - pose proof (path_straight_flush sf) as P. cbv zeta in P.
    unfold sf in *. rewrite straight_flush_fixed in P by assumption. now apply P.
  - now apply four_of_a_kind_again.
  - now apply full_house_again.
  - now apply flush_again.
  - now apply straight_again.
  - now apply three_of_a_kind_again.
  - now apply two_pair_again.
  - now apply pair_again.
  - now apply high_card_again.
Qed.

(** * The evaluator's contract *)

Lemma NoDup_cards (l : list Card) : nodup Card_eq_dec l = l -> NoDup l.
Proof. intros <-. apply NoDup_nodup. Qed.

(** The worked examples of the specification. *)
Example evaluate_royal_flush :
  evaluate royal_flush_hand = Ok (ROYAL_FLUSH, royal_flush_hand).
Proof. reflexivity. Qed.

Example evaluate_two_pair :
  evaluate two_pair_hand = Ok (TWO_PAIR, two_pair_hand).
Proof. reflexivity. Qed.

Example evaluate_trips :
  evaluate trips_hand = Ok (THREE_OF_A_KIND, trips_hand).
Proof. reflexivity. Qed.

(** Why the statements below ask for distinct cards: the evaluator does not
    deduplicate, and five copies of one card come back as four cards. *)
Remark evaluate_repeated_card :
  evaluate [c2h; c2h; c2h; c2h; c2h] =
  Ok (FOUR_OF_A_KIND, [c2h; c2h; c2h; c2h]).
Proof. reflexivity. Qed.

(** C9.  [Card.__init__] checks the rank: a value below 2 or above 14 raises
    [ValueError]; a value from 2 to 14 gives the card with exactly that value
    and suit. *)
Theorem Card_init_validates (v : Z) (s : Suit) :
  (v < 2 \/ 14 < v ->
   Card_init v s =
   Raise (ValueError "Card value must be between 2 and 14 (14 = Ace)")) /\
  (2 <= v <= 14 ->
   exists c, Card_init v s = Ok c /\ value c = v /\ suit c = s /\ valid_card c).
Proof.
  unfold Card_init, valid_card. split; intros H.
  - replace ((2 <=? v) && (v <=? 14)) with false; [reflexivity|].
    symmetry. apply andb_false_iff. lia.
  - replace ((2 <=? v) && (v <=? 14)) with true.
    + exists (mkCard v s). simpl. repeat split; lia.
    + symmetry. apply andb_true_iff. lia.
Qed.

Lemma Card_init_validates_witness :
  Card_init 1 HEARTS =
    Raise (ValueError "Card value must be between 2 and 14 (14 = Ace)") /\
  Card_init 15 SPADES =
    Raise (ValueError "Card value must be between 2 and 14 (14 = Ace)") /\
  exists c, Card_init 14 HEARTS = Ok c /\ value c = 14 /\ suit c = HEARTS /\
            valid_card c.
Proof.
  split; [|split].
  - apply (proj1 (Card_init_validates 1 HEARTS)). lia.
  - apply (proj1 (Card_init_validates 15 SPADES)). lia.
  - apply (proj2 (Card_init_validates 14 HEARTS)). lia.
Defined.

(** C3.  A hand of fewer than five cards makes [evaluate] raise the
    hand-size [ValueError], and a raise carries no result; a hand of five or
    more cards makes it return a category and cards. *)
Theorem evaluate_hand_size (hand : list Card) :
  ((length hand < 5)%nat ->
   evaluate hand =
   Raise (ValueError "Need at least 5 cards to evaluate a poker hand")) /\
  ((5 <= length hand)%nat -> exists r b, evaluate hand = Ok (r, b)).
Proof.
  split; intros H.
  - unfold evaluate. now replace (length hand <? 5)%nat with true
      by (symmetry; now apply Nat.ltb_lt).
  - now apply evaluate_total.
Qed.

Lemma evaluate_hand_size_witness :
  evaluate four_card_hand =
    Raise (ValueError "Need at least 5 cards to evaluate a poker hand") /\
  exists r b, evaluate two_pair_hand = Ok (r, b).
Proof.
  split.
  - apply (proj1 (evaluate_hand_size four_card_hand)). simpl. lia.
  - apply (proj2 (evaluate_hand_size two_pair_hand)). simpl. lia.
Defined.

(** C1.  On every hand of five to seven cards, no two of them the same card,
    [evaluate] returns one of the ten [HandRank] values and exactly five
    cards, each a card of the hand and none taken twice. *)
Theorem evaluate_five_of_hand (hand : list Card) :
  NoDup hand -> (5 <= length hand <= 7)%nat ->
  exists r b, evaluate hand = Ok (r, b) /\
              In r all_HandRank /\
              length b = 5%nat /\ NoDup b /\ incl b hand.
Proof.
  intros Hnd Hlen.
  destruct (evaluate_total hand) as (r & b & E); [lia|].
  exists r, b. split; [assumption|].
  apply evaluate_path in E. destruct E as [_ P].
  destruct (eval_path_drawn hand r b Hnd ltac:(lia) P) as [L [N I]].
  repeat split; try assumption.
  destruct r; simpl; tauto.
Qed.

Lemma evaluate_five_of_hand_witness :
  exists r b, evaluate seven_card_hand = Ok (r, b) /\
              In r all_HandRank /\
              length b = 5%nat /\ NoDup b /\ incl b seven_card_hand.
Proof.
  apply (evaluate_five_of_hand seven_card_hand).
  - apply NoDup_cards. reflexivity.
  - simpl. lia.
Defined.

(** C4.  Evaluation is idempotent: when a hand of five to seven distinct
    cards evaluates to a category and five cards, those five cards evaluate
    to the same category and to themselves, in the same order. *)
Theorem evaluate_idempotent (hand : list Card) (r : HandRank) (b : list Card) :
  NoDup hand -> (5 <= length hand <= 7)%nat ->
  evaluate hand = Ok (r, b) -> evaluate b = Ok (r, b).
Proof.
  intros Hnd Hlen E. apply evaluate_path in E. destruct E as [_ P].
  destruct (eval_path_drawn hand r b Hnd ltac:(lia) P) as [L _].
  apply evaluate_path. split; [lia|].
  apply eval_path_again with hand; [assumption | lia | assumption].
Qed.

Lemma evaluate_idempotent_witness :
  evaluate seven_card_hand = Ok (TWO_PAIR, [Qc; Qh; Td; Tc; Ah]) /\
  evaluate [Qc; Qh; Td; Tc; Ah] = Ok (TWO_PAIR, [Qc; Qh; Td; Tc; Ah]).
Proof.
  split; [reflexivity|].
  apply (evaluate_idempotent seven_card_hand).
  - apply NoDup_cards. reflexivity.
  - simpl. lia.
  - reflexivity.
Defined.

(** C6.  The wheel is never a straight: on a hand whose ranks are exactly
    14, 5, 4, 3 and 2 and which has no five cards of one suit, the window
    search finds nothing, and [evaluate] returns a category that is neither
    [STRAIGHT] nor [STRAIGHT_FLUSH]. *)
Theorem wheel_is_no_straight (hand : list Card) :
  (forall v, In v (map value hand) <-> In v [14; 5; 4; 3; 2]) ->
  (forall s, (length (of_suit s hand) < 5)%nat) ->
  _get_straight_cards hand = [] /\
  exists r b, evaluate hand = Ok (r, b) /\
              r <> STRAIGHT /\ r <> STRAIGHT_FLUSH.
Proof.
  intros Hv Hs.
  assert (Hst : _get_straight_cards hand = []).
  { destruct (straight_cases hand)
      as [[E _]|(c0 & c1 & c2 & c3 & c4 & _ & Hin & V1 & V2 & V3 & V4)];
      [assumption | exfalso].
    rewrite Forall_forall in Hin.
    assert (H : forall c, In c [c0; c1; c2; c3; c4] ->
                  In (value c) [14; 5; 4; 3; 2]).
    { intros c Hc. apply Hv, in_map, Hin, Hc. }
    pose proof (H c0 ltac:(simpl; tauto)) as H0.
    pose proof (H c1 ltac:(simpl; tauto)) as H1.
    pose proof (H c4 ltac:(simpl; tauto)) as H4.
    simpl in H0, H1, H4. lia. }
  split; [assumption|].
  assert (Hlen : (5 <= length hand)%nat).
  { rewrite <- (length_map value).
    change 5%nat with (length [14; 5; 4; 3; 2]).
    apply NoDup_incl_length.
    - repeat constructor; simpl; lia.
    - intros v Hin. now apply Hv. }
  destruct (evaluate_total hand Hlen) as (r & b & E).
  exists r, b. split; [assumption|].
  apply evaluate_path in E. destruct E as [_ P].
  pose proof (no_flush_cards hand Hs) as Hfc.
  split; intros ->; inversion P; subst.
  - congruence.
  - unfold sf in *. rewrite Hfc in *. contradiction.
Qed.

Lemma wheel_is_no_straight_witness :
  _get_straight_cards wheel_hand = [] /\
  exists r b, evaluate wheel_hand = Ok (r, b) /\
              r <> STRAIGHT /\ r <> STRAIGHT_FLUSH.
Proof.
  apply (wheel_is_no_straight wheel_hand).
  - intros v. simpl. intuition congruence.
  - intros s. destruct s; simpl; lia.
Defined.

(** * The strength calculator *)

Import HandStrengthCalculator.

Lemma sorted_two (c1 c2 : Card) :
  Py.sorted value true [c1; c2] =
  if value c1 <? value c2 then [c2; c1] else [c1; c2].
Proof. reflexivity. Qed.

(** C8.  Two hole cards of one rank [r] have preflop strength
    [0.5 + (r - 2) / 24], computed in binary64 as the source does, whether
    asked of [_calculate_preflop_strength] or of [calculate_full_strength]
    with no shared card; for two Aces that is exactly [1.0]. *)
Theorem pocket_pair_strength (gs : GameState) (c1 c2 : Card) (r : Z) :
  hand gs = [c1; c2] -> community_cards gs = [] ->
  value c1 = r -> value c2 = r ->
  _calculate_preflop_strength [c1; c2] =
    Ok (0.5 + Py.truediv (r - 2) 24)%float /\
  calculate_full_strength gs = Ok (0.5 + Py.truediv (r - 2) 24)%float /\
  (r = 14 -> calculate_full_strength gs = Ok 1%float).
Proof.
  intros Hh Hc V1 V2.
  assert (E : _calculate_preflop_strength [c1; c2] =
              Ok (0.5 + Py.truediv (r - 2) 24)%float).
  { unfold _calculate_preflop_strength. cbn [length Nat.eqb negb].
    rewrite sorted_two, V1, V2, Z.ltb_irrefl.
    unfold value_at. cbn [map nth]. now rewrite V1, V2, Z.eqb_refl. }
  assert (E' : calculate_full_strength gs =
               Ok (0.5 + Py.truediv (r - 2) 24)%float).
  { unfold calculate_full_strength. now rewrite Hc, Hh. }
  split; [assumption|]. split; [assumption|].
  intros ->. rewrite E'. reflexivity.
Qed.

Lemma pocket_pair_strength_witness :
  _calculate_preflop_strength [Ah; As] = Ok 1%float /\
  calculate_full_strength (state_of [Ah; As] []) = Ok 1%float.
Proof.
  destruct (pocket_pair_strength (state_of [Ah; As] []) Ah As 14
              eq_refl eq_refl eq_refl eq_refl) as (H1 & _ & H3).
  split; [exact H1 | exact (H3 eq_refl)].
Defined.

(** C10.  The clamp hides a difference: Ace and King of one suit score
    [0.3 + 12/24], then [+ 0.1] three times, which is above [1.0] and is
    clamped to exactly [1.0], the strength of a pair of Aces. *)
Theorem ace_king_suited_is_clamped (s s1 s2 : Suit) :
  let raw := (0.3 + Py.truediv (14 - 2) 24 + 0.1 + 0.1 + 0.1)%float in
  PrimFloat.ltb 1 raw = true /\
  Py.min 1 raw = 1%float /\
  _calculate_preflop_strength [mkCard 14 s; mkCard 13 s] = Ok 1%float /\
  _calculate_preflop_strength [mkCard 13 s; mkCard 14 s] = Ok 1%float /\
  _calculate_preflop_strength [mkCard 14 s1; mkCard 14 s2] = Ok 1%float /\
  _calculate_preflop_strength [mkCard 14 s; mkCard 13 s] =
  _calculate_preflop_strength [mkCard 14 s1; mkCard 14 s2].
Proof.
  destruct s, s1, s2; vm_compute; repeat split; reflexivity.
Qed.

(** ** Draws *)

Lemma flush_draws_cases (suits : list (Suit * Z)) (draws : list (string * Z)) :
  draws = [] \/ draws = [("flush_draw"%string, 9)] ->
  fold_left flush_draw_step suits draws = [] \/
  fold_left flush_draw_step suits draws = [("flush_draw"%string, 9)].
Proof.
  revert draws. induction suits as [|sc suits IH]; intros draws H;
    [exact H|].
  cbn [fold_left]. apply IH. unfold flush_draw_step.
  destruct (snd sc =? 4); [|exact H].
  right. destruct H as [->| ->]; reflexivity.
Qed.

(** What [_identify_draws] returns, by the test on the three lowest gaps. *)
Lemma identify_draws_cases (cards : list Card) :
  exists flush,
    (flush = [] \/ flush = [("flush_draw"%string, 9)]) /\
    _identify_draws cards =
    if (4 <=? length (ascending_ranks cards))%nat
       && (Py.sum (firstn 3 (rank_gaps cards)) =? 3)
    then flush ++ [("straight_draw"%string, 8)]
    else if (4 <=? length (ascending_ranks cards))%nat
            && (Py.sum (firstn 3 (rank_gaps cards)) =? 4)
    then flush ++ [("straight_draw"%string, 4)]
    else flush.
Proof.
  exists (fold_left flush_draw_step (fold_left count_suit cards []) []).
  split; [apply flush_draws_cases; now left|].
  unfold _identify_draws.
  change (Py.sorted (fun v => v) false (Py.set (map value cards)))
    with (ascending_ranks cards).
  change (map (fun i => nth (i + 1) (ascending_ranks cards) 0 -
                        nth i (ascending_ranks cards) 0)
              (seq 0 (length (ascending_ranks cards) - 1)))
    with (rank_gaps cards).
  destruct (flush_draws_cases (fold_left count_suit cards []) [])
    as [-> | ->]; [now left | |]; reflexivity.
Qed.

Lemma rank_gaps_length (cards : list Card) :
  length (rank_gaps cards) = (length (ascending_ranks cards) - 1)%nat.
Proof. unfold rank_gaps. now rewrite length_map, length_seq. Qed.

Lemma drawing_strength_values (gs : GameState) :
  In (_calculate_drawing_strength gs) draw_values.
Proof.
  unfold _calculate_drawing_strength.
  destruct (5 <=? length (community_cards gs))%nat; [now left|].
  destruct (identify_draws_cases (hand gs ++ community_cards gs))
    as (flush & Hf & ->).
  destruct (_ && _); [|destruct (_ && _)];
    destruct Hf as [-> | ->]; vm_compute; tauto.
Qed.

(** Jack and ten of hearts with the nine of hearts, a deuce and a seven:
    three hearts, and lowest gaps 5, 2, 1; no draw is recorded. *)
Example flop_state_drawing_strength :
  _identify_draws (hand flop_state ++ community_cards flop_state) = [] /\
  _calculate_drawing_strength flop_state = 0%float.
Proof. split; reflexivity. Qed.

(** The straight draws the test does find.  With one to four shared cards:
    when the three lowest gaps between the distinct ranks of hole and shared
    cards sum to 3, a straight draw of 8 outs is recorded and the drawing
    strength is at least 0.35; when they sum to 4, a straight draw of 4 outs
    is recorded and the drawing strength is at least 0.25. *)
Theorem lowest_window_straight_draw (gs : GameState) :
  (1 <= length (community_cards gs) <= 4)%nat ->
  let cards := hand gs ++ community_cards gs in
  (window_sums_to (rank_gaps cards) 0 3 ->
   In ("straight_draw"%string, 8) (_identify_draws cards) /\
   PrimFloat.leb 0.35 (_calculate_drawing_strength gs) = true) /\
  (window_sums_to (rank_gaps cards) 0 4 ->
   In ("straight_draw"%string, 4) (_identify_draws cards) /\
   PrimFloat.leb 0.25 (_calculate_drawing_strength gs) = true).
Proof.
  intros Hlen cards.
  assert (Hcond : forall t, window_sums_to (rank_gaps cards) 0 t ->
            ((4 <=? length (ascending_ranks cards))%nat
             && (Py.sum (firstn 3 (rank_gaps cards)) =? t)) = true).
  { intros t [Hl Hs]. rewrite rank_gaps_length in Hl.
    cbn [skipn] in Hs. apply andb_true_iff. split.
    - apply Nat.leb_le. lia.
    - now apply Z.eqb_eq. }
  unfold _calculate_drawing_strength.
  replace (5 <=? length (community_cards gs))%nat with false
    by (symmetry; apply Nat.leb_gt; lia).
  fold cards.
  destruct (identify_draws_cases cards) as (flush & Hf & E).
  split; intros Hw; pose proof (Hcond _ Hw) as Hc.
  - rewrite Hc in E. rewrite E. split.
    + apply in_or_app. right. now left.
    + destruct Hf as [-> | ->]; vm_compute; reflexivity.
  - assert (H3 : ((4 <=? length (ascending_ranks cards))%nat
                  && (Py.sum (firstn 3 (rank_gaps cards)) =? 3)) = false).
    { destruct Hw as [_ Hs]. cbn [skipn] in Hs. rewrite Hs.
      apply andb_false_r. }
    rewrite H3, Hc in E. rewrite E. split.
    + apply in_or_app. right. now left.
    + destruct Hf as [-> | ->]; vm_compute; reflexivity.
Qed.

Lemma lowest_window_straight_draw_witness :
  In ("straight_draw"%string, 8) (_identify_draws [c5h; c4c; c3s; c2d; Qc]) /\
  PrimFloat.leb 0.35
    (_calculate_drawing_strength (state_of [c5h; c4c] [c3s; c2d; Qc])) = true.
Proof.
  apply (lowest_window_straight_draw (state_of [c5h; c4c] [c3s; c2d; Qc])).
  - simpl. lia.
  - split; [simpl; lia | reflexivity].
Defined.

(** C7 fails on the code: [_identify_draws] computes every gap but tests
    [gaps[:3]] only, so a draw above the four lowest ranks is missed.  The
    source's own scenario "Drawing hand on flop", Jack and ten of hearts with
    nine, deuce and seven, has the gaps 5, 2, 1, 1: the window 2, 1, 1 sums
    to 4 and none sums to 3, a gutshot, yet no draw is recorded and the
    drawing strength is 0.  Jack, ten, nine, eight and a deuce have the gaps
    6, 1, 1, 1: the window 1, 1, 1 sums to 3, an open-ended draw, and again
    nothing is recorded. *)
Theorem straight_draw_above_lowest_window_missed :
  (1 <= length (community_cards flop_state) <= 4)%nat /\
  rank_gaps (hand flop_state ++ community_cards flop_state) = [5; 2; 1; 1] /\
  window_sums_to (rank_gaps (hand flop_state ++ community_cards flop_state)) 1 4 /\
  (forall i, ~ window_sums_to
                 (rank_gaps (hand flop_state ++ community_cards flop_state)) i 3) /\
  _identify_draws (hand flop_state ++ community_cards flop_state) = [] /\
  _calculate_drawing_strength flop_state = 0%float /\
  PrimFloat.leb 0.25 (_calculate_drawing_strength flop_state) = false /\
  (1 <= length (community_cards open_ended_state) <= 4)%nat /\
  rank_gaps (hand open_ended_state ++ community_cards open_ended_state) =
    [6; 1; 1; 1] /\
  window_sums_to
    (rank_gaps (hand open_ended_state ++ community_cards open_ended_state)) 1 3 /\
  _identify_draws (hand open_ended_state ++ community_cards open_ended_state) =
    [] /\
  _calculate_drawing_strength open_ended_state = 0%float /\
  PrimFloat.leb 0.35 (_calculate_drawing_strength open_ended_state) = false.
Proof.
  split; [simpl; lia|]. split; [reflexivity|].
  split; [split; [simpl; lia | reflexivity]|].
  split.
  { intros i [Hl Hs].
    change (rank_gaps (hand flop_state ++ community_cards flop_state))
      with [5; 2; 1; 1] in *.
    simpl in Hl. destruct i as [|[|i]];
      [discriminate Hs | discriminate Hs | lia]. }
  split; [reflexivity|]. split; [reflexivity|]. split; [reflexivity|].
  split; [simpl; lia|]. split; [reflexivity|].
  split; [split; [simpl; lia | reflexivity]|].
  split; [reflexivity|]. split; reflexivity.
Qed.

(** ** The cards the quality adjustment reads *)

(** For high card, pair and two pair the best cards are five cards of the
    hand, whether or not the hand repeats a card. *)
Lemma eval_path_reads_cards hand r b :
  (5 <= length hand)%nat -> eval_path hand r b -> reads_cards r = true ->
  length b = 5%nat /\ incl b hand.
Proof.
  intros Hlen P Hr.
  inversion P as [| | | | | |
                  | Tf T4 Ts T3 Tne
                  | Pf P4 Ps P3 Ptp Pne
                  | ]; subst; try discriminate Hr.
  - (* two pair *)
    pose proof (n_of_a_kind_nil_count hand 3 ltac:(lia) T3) as C3.
    destruct (two_pair_cases hand)
      as [[E _]|(a & b' & (Hlt & Ha & Hb & Hmax) & ->)]; [congruence|].
    rewrite two_pair_kicker_eq.
    pose proof (without_value_length a hand) as La.
    pose proof (without_value_length b' (without_value a hand)) as Lb.
    unfold vcount at 1 in Lb. rewrite with_value_without in Lb by lia.
    fold (vcount b' hand) in Lb.
    pose proof (C3 a) as C3a. pose proof (C3 b') as C3b.
    split.
    + rewrite !length_app, !length_firstn_le; [lia| | exact Hb | exact Ha].
      rewrite by_rank_length. lia.
    + intros c Hc. apply in_app_or in Hc. destruct Hc as [Hc|Hc];
        [|apply in_app_or in Hc; destruct Hc as [Hc|Hc]];
        apply firstn_In_incl in Hc.
      * now apply with_value_In in Hc.
      * now apply with_value_In in Hc.
      * apply (proj1 (by_rank_In _ _)) in Hc.
        apply without_value_In in Hc. destruct Hc as [Hc _].
        now apply without_value_In in Hc.
  - (* pair *)
    destruct (n_of_a_kind_not_nil hand 2 ltac:(lia) Pne) as [v Hv].
    pose proof (n_of_a_kind_nil_count hand 3 ltac:(lia) P3 v) as C3.
    pose proof (proj1 Hv) as Hv2.
    rewrite (n_of_a_kind_top hand 2 v) by (lia || assumption).
    split.
    + rewrite length_app, !length_firstn_le; [lia| |exact Hv2].
      rewrite without_value_by_rank, by_rank_length.
      pose proof (without_value_length v hand). lia.
    + intros c Hc. apply in_app_or in Hc. destruct Hc as [Hc|Hc];
        apply firstn_In_incl in Hc.
      * now apply with_value_In in Hc.
      * apply without_value_In in Hc. destruct Hc as [Hc _].
        now apply (proj1 (by_rank_In _ _)) in Hc.
  - (* high card *)
    split.
    + apply length_firstn_le. now rewrite by_rank_length.
    + intros c Hc. apply firstn_In_incl in Hc.
      now apply (proj1 (by_rank_In _ _)) in Hc.
Qed.

Lemma rank_list_In v : 2 <= v <= 14 -> In v rank_list.
Proof. intros H. unfold rank_list. simpl. lia. Qed.

Lemma deck_In c : valid_card c -> In c deck.
Proof.
  intros H. destruct c as [v s]. unfold deck. apply in_flat_map.
  exists v. split; [now apply rank_list_In|].
  apply in_map. destruct s; simpl; tauto.
Qed.

Lemma value_at_valid hand b i :
  Forall valid_card hand -> incl b hand -> (i < length b)%nat ->
  In (value_at b i) rank_list.
Proof.
  intros Hv Hin Hi. unfold value_at.
  rewrite (nth_indep _ 0 (value (mkCard 0 HEARTS)))
    by now rewrite length_map.
  rewrite map_nth. apply rank_list_In.
  rewrite Forall_forall in Hv. apply Hv, Hin, nth_In, Hi.
Qed.

Lemma quality_adjustment_eq r b :
  (reads_cards r = true -> length b = 5%nat) ->
  _calculate_quality_adjustment r b =
  Ok (quality_of r (value_at b 0) (value_at b 2)).
Proof.
  intros H. destruct (reads_cards r) eqn:Hr.
  - specialize (H eq_refl).
    destruct b as [|c0 [|c1 [|c2 [|c3 [|c4 [|]]]]]]; try discriminate H.
    destruct r; try discriminate Hr; reflexivity.
  - destruct r; try discriminate Hr; reflexivity.
Qed.

(** The quality adjustment is always computed, from ranks of the hand. *)
Lemma quality_adjustment_ranks hand r b :
  (5 <= length hand)%nat -> Forall valid_card hand -> eval_path hand r b ->
  exists v0 v2,
    In v0 rank_list /\ In v2 rank_list /\
    _calculate_quality_adjustment r b = Ok (quality_of r v0 v2) /\
    (reads_cards r = true -> v0 = value_at b 0 /\ v2 = value_at b 2).
Proof.
  intros Hlen Hv P. destruct (reads_cards r) eqn:Hr.
  - destruct (eval_path_reads_cards hand r b Hlen P Hr) as [L I].
    exists (value_at b 0), (value_at b 2).
    split; [apply value_at_valid with hand; auto; lia|].
    split; [apply value_at_valid with hand; auto; lia|].
    split; [now apply quality_adjustment_eq | tauto].
  - exists 2, 2. split; [simpl; tauto|]. split; [simpl; tauto|].
    split; [|discriminate].
    destruct r; try discriminate Hr; reflexivity.
Qed.

Lemma forallb_In {A : Type} (p : A -> bool) (l : list A) (x : A) :
  forallb p l = true -> In x l -> p x = true.
Proof. intros H. now apply forallb_forall. Qed.

Lemma preflop_table_true : preflop_table = true.
Proof. vm_compute. reflexivity. Qed.

Lemma strength_table_true : strength_table = true.
Proof. vm_compute. reflexivity. Qed.

Lemma quality_table_one_true : quality_table_one = true.
Proof. vm_compute. reflexivity. Qed.

Lemma quality_table_sum_true : quality_table_sum = true.
Proof. vm_compute. reflexivity. Qed.

(** ** Tie-break monotonicity *)

Lemma lex_gt_head (l1 l2 : list Z) :
  (1 <= length l2)%nat -> lex_gt l1 l2 -> nth 0 l2 0 <= nth 0 l1 0.
Proof.
  destruct l1 as [|x l1], l2 as [|y l2]; simpl; try tauto; try lia.
Qed.

(** C5, as the claim words it, fails in the two-pair category: aces and
    deuces order above kings and queens, yet the adjustment adds the two
    pair ranks, [(12 + 0) / 24] against [(11 + 10) / 24]. *)
Lemma two_pair_quality_not_monotone :
  evaluate aces_and_deuces = Ok (TWO_PAIR, aces_and_deuces) /\
  evaluate kings_and_queens = Ok (TWO_PAIR, kings_and_queens) /\
  lex_gt (map value aces_and_deuces) (map value kings_and_queens) /\
  _calculate_quality_adjustment TWO_PAIR aces_and_deuces = Ok 0.5%float /\
  _calculate_quality_adjustment TWO_PAIR kings_and_queens = Ok 0.875%float /\
  PrimFloat.leb 0.875 0.5 = false.
Proof.
  repeat split; try reflexivity. simpl. lia.
Qed.

(** C5, as the code has it.  Two hands of valid cards evaluate to the same
    category and the best five of the first order above those of the second
    by rank.  Then both quality adjustments are computed; in every category
    but two pair the first is at least the second, and in the two-pair
    category it is so exactly when the two pair ranks of the first add up to
    no less than those of the second. *)
Theorem quality_adjustment_monotone
    (h1 h2 : list Card) (r : HandRank) (b1 b2 : list Card) :
  Forall valid_card h1 -> Forall valid_card h2 ->
  evaluate h1 = Ok (r, b1) -> evaluate h2 = Ok (r, b2) ->
  lex_gt (map value b1) (map value b2) ->
  exists q1 q2,
    _calculate_quality_adjustment r b1 = Ok q1 /\
    _calculate_quality_adjustment r b2 = Ok q2 /\
    (r <> TWO_PAIR -> PrimFloat.leb q2 q1 = true) /\
    (r = TWO_PAIR ->
     (PrimFloat.leb q2 q1 = true <->
      value_at b2 0 + value_at b2 2 <= value_at b1 0 + value_at b1 2)).
Proof.
  intros V1 V2 E1 E2 Hlex.
  apply evaluate_path in E1, E2. destruct E1 as [L1 P1], E2 as [L2 P2].
  destruct (reads_cards r) eqn:Hr.
  - destruct (eval_path_reads_cards h1 r b1 L1 P1 Hr) as [Lb1 I1].
    destruct (eval_path_reads_cards h2 r b2 L2 P2 Hr) as [Lb2 I2].
    rewrite !quality_adjustment_eq by auto.
    do 2 eexists. split; [reflexivity|]. split; [reflexivity|].
    assert (H0 : value_at b2 0 <= value_at b1 0)
      by (apply lex_gt_head; [rewrite length_map; lia | assumption]).
    pose proof (value_at_valid h1 b1 0 V1 I1 ltac:(lia)) as A0.
    pose proof (value_at_valid h1 b1 2 V1 I1 ltac:(lia)) as A2.
    pose proof (value_at_valid h2 b2 0 V2 I2 ltac:(lia)) as B0.
    pose proof (value_at_valid h2 b2 2 V2 I2 ltac:(lia)) as B2.
    destruct r; try discriminate Hr.
    + split; [intros _|discriminate].
      pose proof (forallb_In _ _ _
        (forallb_In _ _ _ quality_table_one_true A0) B0) as T.
      cbv beta in T. rewrite (proj2 (Z.leb_le _ _) H0) in T. exact T.
    + split; [intros _|discriminate].
      pose proof (forallb_In _ _ _
        (forallb_In _ _ _ quality_table_one_true A0) B0) as T.
      cbv beta in T. rewrite (proj2 (Z.leb_le _ _) H0) in T. exact T.
    + split; [congruence|]. intros _.
      pose proof (forallb_In _ _ _ (forallb_In _ _ _ (forallb_In _ _ _
        (forallb_In _ _ _ quality_table_sum_true A0) A2) B0) B2) as T.
      cbv beta in T. apply Bool.eqb_prop in T. rewrite T.
      apply Z.leb_le.
  - exists 1%float, 1%float.
    destruct r; try discriminate Hr;
      (split; [reflexivity|]); (split; [reflexivity|]);
      (split; [reflexivity | discriminate]).
Qed.

(** Aces and deuces with a four order above kings and threes with a deuce,
    and the pair ranks add up to 16 on both sides: the adjustments are
    equal. *)
Lemma quality_adjustment_monotone_witness :
  exists q1 q2,
    _calculate_quality_adjustment TWO_PAIR aces_deuces_four = Ok q1 /\
    _calculate_quality_adjustment TWO_PAIR kings_and_threes = Ok q2 /\
    PrimFloat.leb q2 q1 = true.
Proof.
  destruct (quality_adjustment_monotone aces_deuces_four kings_and_threes
              TWO_PAIR aces_deuces_four kings_and_threes)
    as (q1 & q2 & E1 & E2 & _ & Hsum).
  - repeat constructor; unfold valid_card; simpl; lia.
  - repeat constructor; unfold valid_card; simpl; lia.
  - reflexivity.
  - reflexivity.
  - simpl. lia.
  - exists q1, q2. split; [exact E1|]. split; [exact E2|].
    apply (Hsum eq_refl). vm_compute. discriminate.
Defined.

(** ** The strength is a number between 0 and 1 *)

Lemma preflop_strength_bounds (hand : list Card) :
  length hand = 2%nat -> Forall valid_card hand ->
  exists v, _calculate_preflop_strength hand = Ok v /\
            in_unit_interval v = true.
Proof.
  intros Hlen Hv.
  destruct hand as [|c1 [|c2 [|]]]; try discriminate Hlen.
  inversion Hv as [|? ? V1 Hv']; subst. inversion Hv' as [|? ? V2 _]; subst.
  pose proof (forallb_In _ _ _
    (forallb_In _ _ _ preflop_table_true (deck_In c1 V1)) (deck_In c2 V2)) as T.
  unfold preflop_in_unit_interval in T.
  destruct (_calculate_preflop_strength [c1; c2]) as [v|e];
    [now exists v | discriminate T].
Qed.

Lemma made_hand_strength_ranks (gs : GameState) :
  (5 <= length (hand gs ++ community_cards gs))%nat ->
  Forall valid_card (hand gs ++ community_cards gs) ->
  exists r v0 v2,
    In r all_HandRank /\ In v0 rank_list /\ In v2 rank_list /\
    _calculate_made_hand_strength gs =
    Ok (base_strength r * quality_of r v0 v2)%float.
Proof.
  intros Hlen Hv. unfold _calculate_made_hand_strength.
  destruct (evaluate_total _ Hlen) as (r & b & E). rewrite E. cbn [bind fst snd].
  apply evaluate_path in E. destruct E as [_ P].
  destruct (quality_adjustment_ranks _ r b Hlen Hv P)
    as (v0 & v2 & I0 & I2 & -> & _).
  exists r, v0, v2. repeat split; try assumption.
  destruct r; simpl; tauto.
Qed.

(** C2, as the claim words it, fails: with one or two shared cards the
    evaluator is handed fewer than five cards and raises. *)
Lemma full_strength_raises_on_one_shared_card :
  length (hand one_shared_card_state) = 2%nat /\
  (0 <= length (community_cards one_shared_card_state) <= 5)%nat /\
  Forall valid_card (hand one_shared_card_state ++
                     community_cards one_shared_card_state) /\
  calculate_full_strength one_shared_card_state =
    Raise (ValueError "Need at least 5 cards to evaluate a poker hand") /\
  ~ exists v, calculate_full_strength one_shared_card_state = Ok v /\
              in_unit_interval v = true.
Proof.
  split; [reflexivity|]. split; [simpl; lia|].
  split; [repeat constructor; unfold valid_card; simpl; lia|].
  split; [reflexivity|]. intros (v & H & _). discriminate H.
Qed.

(** C2, as the code has it.  With two hole cards, all cards of valid rank:
    on no shared card, or three to five shared cards,
    [calculate_full_strength] returns a value [v] with [0 <= v <= 1]; on one
    or two shared cards it raises the evaluator's [ValueError]. *)
Theorem full_strength_in_unit_interval (gs : GameState) :
  length (hand gs) = 2%nat ->
  Forall valid_card (hand gs ++ community_cards gs) ->
  ((length (community_cards gs) = 0 \/
    3 <= length (community_cards gs) <= 5)%nat ->
   exists v, calculate_full_strength gs = Ok v /\ in_unit_interval v = true) /\
  ((1 <= length (community_cards gs) <= 2)%nat ->
   calculate_full_strength gs =
   Raise (ValueError "Need at least 5 cards to evaluate a poker hand")).
Proof.
  intros Hh Hv. unfold calculate_full_strength. split; intros Hc.
  - destruct (community_cards gs) as [|c cs] eqn:Ecc.
    + rewrite app_nil_r in Hv. now apply preflop_strength_bounds.
    + assert (Hlen : (5 <= length (hand gs ++ community_cards gs))%nat)
        by (rewrite Ecc, length_app; simpl in *; lia).
      rewrite <- Ecc in Hv.
      destruct (made_hand_strength_ranks gs Hlen Hv)
        as (r & v0 & v2 & Ir & I0 & I2 & ->).
      cbn [bind]. eexists. split; [reflexivity|].
      pose proof (forallb_In _ _ _ (forallb_In _ _ _ (forallb_In _ _ _
        (forallb_In _ _ _ strength_table_true Ir) I0) I2)
        (drawing_strength_values gs)) as T.
      exact T.
  - destruct (community_cards gs) as [|c cs] eqn:Ecc; [simpl in Hc; lia|].
    unfold _calculate_made_hand_strength.
    destruct (evaluate_hand_size (hand gs ++ community_cards gs)) as [Hr _].
    rewrite Hr; [reflexivity|].
    rewrite Ecc, length_app. simpl in *. lia.
Qed.

Lemma full_strength_in_unit_interval_witness :
  (exists v, calculate_full_strength flop_state = Ok v /\
             in_unit_interval v = true) /\
  calculate_full_strength one_shared_card_state =
    Raise (ValueError "Need at least 5 cards to evaluate a poker hand").
Proof.
  split.
  - apply (full_strength_in_unit_interval flop_state).
    + reflexivity.
    + repeat constructor; unfold valid_card; simpl; lia.
    + right. simpl. lia.
  - apply (full_strength_in_unit_interval one_shared_card_state).
    + reflexivity.
    + repeat constructor; unfold valid_card; simpl; lia.
    + simpl. lia.
Defined.

(** * Further properties of the evaluator *)

(** ** The order of the cards *)

Lemma Permutation_filter {A : Type} (p : A -> bool) (l l' : list A) :
  Permutation l l' -> Permutation (filter p l) (filter p l').
Proof.
  induction 1 as [|x l l' _ IH|x y l|l l' l'' _ IH1 _ IH2]; simpl.
  - constructor.
  - destruct (p x); [now constructor | assumption].
  - destruct (p x), (p y); try reflexivity. apply perm_swap.
  - now transitivity (filter p l').
Qed.

Lemma perm_vcount v l l' : Permutation l l' -> vcount v l' = vcount v l.
Proof.
  intros H. unfold vcount. symmetry.
  apply Permutation_length, Permutation_filter, H.
Qed.

Lemma perm_without_value v l l' :
  Permutation l l' -> Permutation (without_value v l) (without_value v l').
Proof. apply Permutation_filter. Qed.

Lemma perm_of_suit s l l' :
  Permutation l l' -> Permutation (of_suit s l) (of_suit s l').
Proof. apply Permutation_filter. Qed.

Lemma descending_perm_eq (s s' : list Z) :
  StronglySorted (Py.in_order (fun v => v) true) s ->
  StronglySorted (Py.in_order (fun v => v) true) s' ->
  Permutation s s' -> s = s'.
Proof.
  intros Hs. revert s'.
  induction Hs as [|x t Ht IH Hx]; intros s' Hs' Hp.
  - apply Permutation_nil in Hp. now subst.
  - destruct s' as [|y t']; [now apply Permutation_sym, Permutation_nil_cons in Hp|].
    inversion Hs' as [|? ? Ht' Hy]; subst.
    rewrite Forall_forall in Hx, Hy. unfold Py.in_order, Py.before in Hx, Hy.
    assert (x = y).
    { assert (Hxin : In x (y :: t'))
        by (apply (Permutation_in _ Hp); now left).
      assert (Hyin : In y (x :: t))
        by (apply (Permutation_in _ (Permutation_sym Hp)); now left).
      destruct Hxin as [->|Hxin]; [reflexivity|].
      destruct Hyin as [->|Hyin]; [reflexivity|].
      apply Hy in Hxin. apply Hx in Hyin. lia. }
    subst y. f_equal. apply IH; [assumption|].
    now apply Permutation_cons_inv in Hp.
Qed.

Lemma sorted_values_perm (l l' : list Z) :
  Permutation l l' ->
  Py.sorted (fun v => v) true l = Py.sorted (fun v => v) true l'.
Proof.
  intros H. apply descending_perm_eq; try apply sorted_sorted.
  rewrite !sorted_perm. exact H.
Qed.

Lemma ranks_by_rank l :
  map value (by_rank l) = Py.sorted (fun v => v) true (map value l).
Proof. symmetry. apply sorted_map. Qed.

Lemma perm_ranks_by_rank l l' :
  Permutation l l' -> map value (by_rank l') = map value (by_rank l).
Proof.
  intros H. rewrite !ranks_by_rank. apply sorted_values_perm.
  now apply Permutation_map, Permutation_sym.
Qed.

Lemma ranks_with_value v l : map value (with_value v l) = repeat v (vcount v l).
Proof.
  unfold vcount, with_value, keyed.
  induction l as [|c l IH]; simpl; [reflexivity|].
  destruct (Z.eqb_spec (value c) v) as [E|]; simpl; [now rewrite IH, E | exact IH].
Qed.

Lemma perm_ranks_group n v l l' :
  Permutation l l' ->
  map value (firstn n (with_value v l')) = map value (firstn n (with_value v l)).
Proof.
  intros H. rewrite <- !firstn_map, !ranks_with_value.
  now rewrite (perm_vcount v l l' H).
Qed.

Lemma perm_ranks_kickers n v l l' :
  Permutation l l' ->
  map value (firstn n (by_rank (without_value v l'))) =
  map value (firstn n (by_rank (without_value v l))).
Proof.
  intros H. rewrite <- !firstn_map. f_equal.
  apply perm_ranks_by_rank, perm_without_value, H.
Qed.

Lemma top_rank_perm n v l l' :
  Permutation l l' -> top_rank n l v -> top_rank n l' v.
Proof.
  intros H [Hv Hmax]. split.
  - now rewrite (perm_vcount v l l' H).
  - intros w Hw. rewrite (perm_vcount w l l' H). now apply Hmax.
Qed.

Lemma n_of_a_kind_perm n l l' :
  (1 <= n)%nat -> Permutation l l' ->
  map value (_get_n_of_a_kind l' n) = map value (_get_n_of_a_kind l n).
Proof.
  intros Hn H.
  destruct (n_of_a_kind_cases l n Hn) as [[-> Hc]|(v & Hv & ->)].
  - rewrite n_of_a_kind_none; [reflexivity | assumption|].
    intros v. rewrite (perm_vcount v l l' H). apply Hc.
  - rewrite (n_of_a_kind_top l' n v Hn (top_rank_perm _ _ _ _ H Hv)).
    rewrite !without_value_by_rank, !map_app.
    f_equal; [now apply perm_ranks_group | now apply perm_ranks_kickers].
Qed.

Lemma full_house_perm l l' :
  Permutation l l' ->
  map value (_get_full_house l') = map value (_get_full_house l).
Proof.
  intros H.
  assert (Hrest : forall v w, vcount w (without_value v l') =
                              vcount w (without_value v l))
    by (intros v w; apply perm_vcount, perm_without_value, H).
  destruct (full_house_cases l)
    as [[-> [Hc|(v & Hv & Hc)]]|(v & w & Hv & Hw & ->)].
  - rewrite full_house_no_trips; [reflexivity|].
    intros v. rewrite (perm_vcount v l l' H). apply Hc.
  - rewrite (full_house_no_pair l' v); [reflexivity | |].
    + now apply top_rank_perm with l.
    + intros w. rewrite Hrest. apply Hc.
  - rewrite (full_house_top l' v w).
    + rewrite !map_app. f_equal; [now apply perm_ranks_group|].
      apply perm_ranks_group, perm_without_value, H.
    + now apply top_rank_perm with l.
    + apply top_rank_perm with (without_value v l);
        [apply perm_without_value, H | assumption].
Qed.

Lemma two_pair_ranks_perm l l' a b :
  Permutation l l' -> two_pair_ranks l a b -> two_pair_ranks l' a b.
Proof.
  intros H (Hlt & Ha & Hb & Hmax). unfold two_pair_ranks.
  rewrite (perm_vcount a l l' H), (perm_vcount b l l' H).
  repeat split; try assumption.
  intros w Hw Hwa. rewrite (perm_vcount w l l' H). now apply Hmax.
Qed.

Lemma two_pair_perm l l' :
  Permutation l l' ->
  map value (_get_two_pair l') = map value (_get_two_pair l).
Proof.
  intros H.
  destruct (two_pair_cases l) as [[-> Hc]|(a & b & Hab & ->)].
  - rewrite two_pair_none; [reflexivity|].
    intros x y Hne Hx. rewrite (perm_vcount y l l' H).
    rewrite (perm_vcount x l l' H) in Hx. now apply Hc with x.
  - rewrite (two_pair_top l' a b (two_pair_ranks_perm _ _ _ _ H Hab)).
    rewrite !two_pair_kicker_eq, !map_app.
    f_equal; [now apply perm_ranks_group|].
    f_equal; [now apply perm_ranks_group|].
    rewrite <- !firstn_map. f_equal.
    apply perm_ranks_by_rank. now do 2 apply perm_without_value.
Qed.

(** ** Which runs of ranks the window search finds *)

Lemma rank_values_same_set l l' :
  (forall v, In v (map value l) <-> In v (map value l')) ->
  rank_values l = rank_values l'.
Proof.
  intros H. apply descending_perm_eq; try apply sorted_sorted.
  apply NoDup_Permutation; try apply rank_values_NoDup.
  intros v. fold (rank_values l) (rank_values l').
  now rewrite !rank_values_In.
Qed.

Lemma first_with_value_none hand v :
  ~ In v (map value hand) -> first_with_value hand v = [].
Proof.
  intros H. unfold first_with_value.
  destruct (find (fun card => value card =? v) hand) as [c|] eqn:E;
    [|reflexivity].
  apply find_some in E. destruct E as [Hc Hv]. apply Z.eqb_eq in Hv.
  exfalso. apply H. rewrite <- Hv. now apply in_map.
Qed.

Lemma first_with_value_same_set l l' v :
  (forall v, In v (map value l) <-> In v (map value l')) ->
  map value (first_with_value l v) = map value (first_with_value l' v).
Proof.
  intros H. destruct (in_dec Z.eq_dec v (map value l)) as [Hin|Hin].
  - destruct (first_with_value_In l v Hin) as (c & -> & _ & Hc).
    destruct (first_with_value_In l' v (proj1 (H v) Hin)) as (c' & -> & _ & Hc').
    simpl. congruence.
  - rewrite !first_with_value_none; [reflexivity | | assumption].
    intros Hin'. now apply Hin, H.
Qed.

Lemma straight_same_set l l' :
  (forall v, In v (map value l) <-> In v (map value l')) ->
  map value (_get_straight_cards l) = map value (_get_straight_cards l').
Proof.
  intros H. unfold _get_straight_cards.
  fold (rank_values l) (rank_values l').
  rewrite (rank_values_same_set l l' H).
  destruct (find _ _) as [i|]; [|reflexivity].
  induction (Py.range_down (nth i (rank_values l') 0) 5) as [|x xs IH];
    [reflexivity|].
  cbn [flat_map]. rewrite !map_app, IH.
  now rewrite (first_with_value_same_set l l' x H).
Qed.

Lemma strict_next (l : list Z) (i : nat) :
  StronglySorted (fun a b => b < a) l -> (i < length l)%nat ->
  In (nth i l 0 - 1) l ->
  (i + 1 < length l)%nat /\ nth (i + 1) l 0 = nth i l 0 - 1.
Proof.
  intros Hs Hi Hin.
  destruct (In_nth l _ 0 Hin) as (j & Hj & Ej).
  pose proof (strict_nth l Hs) as Hn.
  destruct (Nat.le_gt_cases j i) as [Hle|Hgt].
  - specialize (Hn j (i - j)%nat). replace (j + (i - j))%nat with i in Hn by lia.
    specialize (Hn Hi). lia.
  - specialize (Hn i (j - i)%nat). replace (i + (j - i))%nat with j in Hn by lia.
    specialize (Hn Hj).
    assert (j = (i + 1)%nat) by lia. subst j. split; [lia | assumption].
Qed.

Lemma run_window hand v :
  holds_run hand v ->
  exists i, (i + 4 < length (rank_values hand))%nat /\
            nth i (rank_values hand) 0 = v /\
            nth (i + 4) (rank_values hand) 0 = v - 4.
Proof.
  intros H.
  assert (Hin : forall k, 0 <= k <= 4 -> In (v - k) (rank_values hand))
    by (intros k Hk; apply rank_values_In, H, Hk).
  destruct (In_nth _ _ 0 (Hin 0 ltac:(lia))) as (i & Hi & Ei).
  rewrite Z.sub_0_r in Ei.
  pose proof (rank_values_strict hand) as Hs.
  destruct (strict_next _ i Hs Hi) as [H1 E1];
    [rewrite Ei; apply Hin; lia|].
  destruct (strict_next _ (i + 1) Hs H1) as [H2 E2];
    [rewrite E1, Ei; replace (v - 1 - 1) with (v - 2) by lia; apply Hin; lia|].
  destruct (strict_next _ (i + 1 + 1) Hs H2) as [H3 E3];
    [rewrite E2, E1, Ei; replace (v - 1 - 1 - 1) with (v - 3) by lia;
     apply Hin; lia|].
  destruct (strict_next _ (i + 1 + 1 + 1) Hs H3) as [H4 E4];
    [rewrite E3, E2, E1, Ei; replace (v - 1 - 1 - 1 - 1) with (v - 4) by lia;
     apply Hin; lia|].
  exists i. replace (i + 4)%nat with (i + 1 + 1 + 1 + 1)%nat by lia.
  split; [assumption|]. split; [assumption|]. lia.
Qed.

Lemma find_seq_first (p : nat -> bool) (n i j : nat) :
  find p (seq 0 n) = Some j -> (i < n)%nat -> p i = true -> (j <= i)%nat.
Proof.
  intros Hf Hi Hp.
  destruct (find_split _ _ _ Hf) as (l1 & l2 & E & _ & Hl1).
  destruct (Nat.le_gt_cases j i) as [|Hgt]; [assumption | exfalso].
  assert (Hj : (j < n)%nat).
  { apply find_some in Hf. destruct Hf as [Hf _]. apply in_seq in Hf. lia. }
  assert (Hlen : length l1 = j).
  { assert (Hn : nth (length l1) (seq 0 n) 0%nat = j)
      by (rewrite E, app_nth2, Nat.sub_diag by lia; reflexivity).
    rewrite seq_nth in Hn; [assumption|].
    apply (f_equal (@length nat)) in E.
    rewrite length_seq, length_app in E. simpl in E. lia. }
  assert (Hin : In i l1).
  { assert (Hn : nth i (seq 0 n) 0%nat = i) by (now rewrite seq_nth).
    rewrite E, app_nth1 in Hn by lia. rewrite <- Hn. apply nth_In. lia. }
  apply Hl1 in Hin. congruence.
Qed.

(** What the window search of [_get_straight_cards] finds. *)
Lemma straight_cards_spec (hand : list Card) :
  (_get_straight_cards hand = [] <-> forall v, ~ holds_run hand v) /\
  (forall c0 rest, _get_straight_cards hand = c0 :: rest ->
     holds_run hand (value c0) /\
     map value (c0 :: rest) =
       [value c0; value c0 - 1; value c0 - 2; value c0 - 3; value c0 - 4] /\
     forall v, holds_run hand v -> v <= value c0).
Proof.
  assert (Hsound : forall c0 rest, _get_straight_cards hand = c0 :: rest ->
            holds_run hand (value c0) /\
            map value (c0 :: rest) =
              [value c0; value c0 - 1; value c0 - 2; value c0 - 3;
               value c0 - 4]).
  { intros c0 rest E.
    destruct (straight_cases hand)
      as [[E' _]|(d0 & d1 & d2 & d3 & d4 & E' & Hin & V1 & V2 & V3 & V4)];
      [congruence|].
    rewrite E' in E. injection E as <- <-. split.
    - intros k Hk. rewrite Forall_forall in Hin.
      assert (Hc : k = 0 \/ k = 1 \/ k = 2 \/ k = 3 \/ k = 4) by lia.
      destruct Hc as [->|[->|[->|[->| ->]]]].
      + rewrite Z.sub_0_r. apply in_map, Hin. simpl; tauto.
      + rewrite <- V1. apply in_map, Hin. simpl; tauto.
      + rewrite <- V2. apply in_map, Hin. simpl; tauto.
      + rewrite <- V3. apply in_map, Hin. simpl; tauto.
      + rewrite <- V4. apply in_map, Hin. simpl; tauto.
    - cbn [map]. now rewrite V1, V2, V3, V4. }
  assert (Hmax : forall v, holds_run hand v ->
            exists c0 rest, _get_straight_cards hand = c0 :: rest /\
                            v <= value c0).
  { intros v Hv. destruct (run_window hand v Hv) as (i & Hi & E0 & E4).
    unfold _get_straight_cards. fold (rank_values hand).
    destruct (find _ (seq 0 (length (rank_values hand) - 4))) as [j|] eqn:Ef.
    - pose proof (find_seq_first _ _ i j Ef ltac:(lia)
                    ltac:(apply Z.eqb_eq; lia)) as Hji.
      assert (Hj : In (nth j (rank_values hand) 0) (map value hand)).
      { apply rank_values_In, nth_In. apply find_some in Ef.
        destruct Ef as [Ef _]. apply in_seq in Ef. lia. }
      destruct (first_with_value_In hand _ Hj) as (c & Ec & _ & Vc).
      unfold Py.range_down. cbn [seq map flat_map Z.of_nat].
      rewrite Z.sub_0_r, Ec. cbn [app]. eexists c, _. split; [reflexivity|].
      rewrite Vc, <- E0.
      pose proof (strict_nth _ (rank_values_strict hand) j (i - j)%nat) as Hn.
      replace (j + (i - j))%nat with i in Hn by lia.
      specialize (Hn ltac:(lia)). lia.
    - exfalso.
      assert (Hin : In i (seq 0 (length (rank_values hand) - 4)))
        by (apply in_seq; lia).
      apply (find_none _ _ Ef) in Hin. apply Z.eqb_neq in Hin. lia. }
  split.
  - split.
    + intros E v Hv. destruct (Hmax v Hv) as (c0 & rest & E' & _). congruence.
    + intros H. destruct (_get_straight_cards hand) as [|c0 rest] eqn:E;
        [reflexivity|].
      exfalso. apply (H (value c0)). now apply (Hsound c0 rest).
  - intros c0 rest E. destruct (Hsound c0 rest E) as [H1 H2].
    split; [assumption|]. split; [assumption|].
    intros v Hv. destruct (Hmax v Hv) as (d0 & rest' & E' & Hle).
    rewrite E in E'. now injection E' as <- <-.
Qed.

(** The window search finds a straight exactly when five consecutive ranks
    are held, and then returns the highest such run: one card of each rank,
    from the top rank down. *)
Theorem straight_cards_found (hand : list Card) :
  (_get_straight_cards hand = [] <-> forall v, ~ holds_run hand v) /\
  (forall c0 rest, _get_straight_cards hand = c0 :: rest ->
     holds_run hand (value c0) /\
     map value (c0 :: rest) =
       [value c0; value c0 - 1; value c0 - 2; value c0 - 3; value c0 - 4] /\
     forall v, holds_run hand v -> v <= value c0).
Proof.
  destruct (straight_cards_spec hand) as [Hnone Hrun]. split.
  - exact Hnone.
  - intros c0 rest E. exact (Hrun c0 rest E).
Qed.

Lemma two_suits_length s s' l :
  s <> s' -> (length (of_suit s l) + length (of_suit s' l) <= length l)%nat.
Proof.
  intros Hne. unfold of_suit, keyed.
  induction l as [|c l IH]; simpl; [lia|].
  destruct (Suit_eqb (suit c) s) eqn:E1, (Suit_eqb (suit c) s') eqn:E2;
    simpl; try lia.
  apply Suit_eqb_spec in E1, E2. congruence.
Qed.

Lemma flush_cards_perm l l' :
  Permutation l l' -> (length l <= 9)%nat ->
  map value (_get_flush_cards l') = map value (_get_flush_cards l).
Proof.
  intros H Hlen.
  assert (Hs : forall s, length (of_suit s l') = length (of_suit s l))
    by (intros s; symmetry; apply Permutation_length, perm_of_suit, H).
  destruct (_get_flush_cards l) as [|x xs] eqn:E.
  - rewrite no_flush_cards; [reflexivity|].
    intros s. rewrite Hs. now apply flush_cards_nil.
  - rewrite <- E.
    destruct (flush_cards_some l) as (s & Hc & ->); [congruence|].
    destruct (flush_cards_some l') as (s' & Hc' & ->).
    { intros E'. pose proof (flush_cards_nil l' E' s). rewrite Hs in *. lia. }
    assert (s' = s) as ->.
    { destruct (Suit_eqb s' s) eqn:Es; [now apply Suit_eqb_spec|].
      assert (s' <> s) by (intros ->; destruct s; discriminate).
      pose proof (two_suits_length s' s l ltac:(assumption)).
      rewrite Hs in Hc'. lia. }
    rewrite <- !firstn_map. f_equal.
    apply perm_ranks_by_rank, perm_of_suit, H.
Qed.

Lemma nonempty_same_ranks (l l' : list Card) :
  map value l' = map value l -> nonempty l' = nonempty l.
Proof. destruct l, l'; simpl; congruence. Qed.

Lemma same_ranks_same_set (l l' : list Card) :
  map value l' = map value l ->
  forall v, In v (map value l') <-> In v (map value l).
Proof. now intros ->. Qed.

(** The category and the ranks of the best five cards do not depend on the
    order in which the cards of a hand of up to nine cards are given. *)
Theorem evaluate_order_independent
    (hand hand' : list Card) (r : HandRank) (b : list Card) :
  Permutation hand hand' -> (length hand <= 9)%nat ->
  evaluate hand = Ok (r, b) ->
  exists b', evaluate hand' = Ok (r, b') /\ map value b' = map value b.
Proof.
  intros H Hlen E.
  pose proof (flush_cards_perm _ _ H Hlen) as Efc.
  assert (Esf : map value (_get_straight_cards (_get_flush_cards hand')) =
                map value (_get_straight_cards (_get_flush_cards hand)))
    by (apply straight_same_set, same_ranks_same_set, Efc).
  pose proof (n_of_a_kind_perm 4 _ _ ltac:(lia) H) as E4.
  pose proof (full_house_perm _ _ H) as Efh.
  assert (Est : map value (_get_straight_cards hand') =
                map value (_get_straight_cards hand)).
  { apply straight_same_set. intros v. split; apply Permutation_in;
      [apply Permutation_map, Permutation_sym, H | apply Permutation_map, H]. }
  pose proof (n_of_a_kind_perm 3 _ _ ltac:(lia) H) as E3.
  pose proof (two_pair_perm _ _ H) as Etp.
  pose proof (n_of_a_kind_perm 2 _ _ ltac:(lia) H) as E2.
  pose proof (perm_ranks_by_rank _ _ H) as Ehc.
  unfold evaluate in *. rewrite straight_flush_cards_eq in *.
  rewrite <- (Permutation_length H).
  destruct (length hand <? 5)%nat; [discriminate|].
  unfold value_at in *.
  rewrite (nonempty_same_ranks _ _ Esf), Esf.
  destruct (nonempty (_get_straight_cards (_get_flush_cards hand))).
  { destruct (nth 0 (map value (_get_straight_cards (_get_flush_cards hand))) 0
              =? 14); injection E as <- <-; eexists; split;
      try reflexivity; assumption. }
  rewrite (nonempty_same_ranks _ _ E4).
  destruct (nonempty (_get_n_of_a_kind hand 4));
    [injection E as <- <-; eexists; split; [reflexivity | assumption]|].
  rewrite (nonempty_same_ranks _ _ Efh).
  destruct (nonempty (_get_full_house hand));
    [injection E as <- <-; eexists; split; [reflexivity | assumption]|].
  rewrite (nonempty_same_ranks _ _ Efc).
  destruct (nonempty (_get_flush_cards hand)).
  { assert (Er : r = FLUSH) by congruence.
    assert (Eb : b = firstn 5 (_get_flush_cards hand)) by congruence.
    subst r b. eexists. split; [reflexivity|].
    now rewrite <- !firstn_map, Efc. }
  rewrite (nonempty_same_ranks _ _ Est).
  destruct (nonempty (_get_straight_cards hand));
    [injection E as <- <-; eexists; split; [reflexivity | assumption]|].
  rewrite (nonempty_same_ranks _ _ E3).
  destruct (nonempty (_get_n_of_a_kind hand 3));
    [injection E as <- <-; eexists; split; [reflexivity | assumption]|].
  rewrite (nonempty_same_ranks _ _ Etp).
  destruct (nonempty (_get_two_pair hand));
    [injection E as <- <-; eexists; split; [reflexivity | assumption]|].
  rewrite (nonempty_same_ranks _ _ E2).
  destruct (nonempty (_get_n_of_a_kind hand 2));
    [injection E as <- <-; eexists; split; [reflexivity | assumption]|].
  assert (Er : r = HIGH_CARD) by congruence.
  assert (Eb : b = firstn 5 (by_rank hand)) by (unfold by_rank; congruence).
  subst r b. eexists. split; [reflexivity|].
  fold (by_rank hand'). now rewrite <- !firstn_map, Ehc.
Qed.

Lemma evaluate_order_independent_witness :
  exists b', evaluate (rev seven_card_hand) = Ok (TWO_PAIR, b') /\
             map value b' = map value [Qc; Qh; Td; Tc; Ah].
Proof.
  apply (evaluate_order_independent seven_card_hand (rev seven_card_hand)).
  - apply Permutation_rev.
  - simpl. lia.
  - reflexivity.
Defined.

Lemma straight_cards_found_witness :
  holds_run [Th; c9s; c8c; c7c; Jh; c2d] 11 /\
  map value (_get_straight_cards [Th; c9s; c8c; c7c; Jh; c2d]) =
    [11; 10; 9; 8; 7] /\
  forall v, holds_run [Th; c9s; c8c; c7c; Jh; c2d] v -> v <= 11.
Proof.
  exact (proj2 (straight_cards_found [Th; c9s; c8c; c7c; Jh; c2d])
               Jh [Th; c9s; c8c; c7c] eq_refl).
Defined.

(** ** What each category's five cards are *)

Lemma StronglySorted_app_order {A : Type} (R : A -> A -> Prop) l1 l2 :
  StronglySorted R (l1 ++ l2) ->
  forall x y, In x l1 -> In y l2 -> R x y.
Proof.
  induction l1 as [|a l1 IH]; simpl; intros H x y Hx Hy; [destruct Hx|].
  inversion H as [|? ? Hs Ha]; subst. destruct Hx as [<-|Hx].
  - rewrite Forall_forall in Ha. apply Ha, in_or_app. now right.
  - now apply IH.
Qed.

(** The first [n] cards by descending rank leave no higher card behind. *)
Lemma firstn_highest (l : list Card) (n : nat) (c d : Card) :
  In c l -> ~ In c (firstn n (by_rank l)) -> In d (firstn n (by_rank l)) ->
  value c <= value d.
Proof.
  intros Hc Hn Hd.
  pose proof (by_rank_sorted l) as Hs.
  rewrite <- (firstn_skipn n (by_rank l)) in Hs.
  assert (Hsk : In c (skipn n (by_rank l))).
  { apply by_rank_In in Hc. rewrite <- (firstn_skipn n (by_rank l)) in Hc.
    apply in_app_or in Hc. tauto. }
  pose proof (StronglySorted_app_order _ _ _ Hs d c Hd Hsk) as Ho.
  unfold Py.in_order, Py.before in Ho. lia.
Qed.

Lemma flush_suit_run_free hand s :
  _get_flush_cards hand = firstn 5 (by_rank (of_suit s hand)) ->
  forall c, In c (_get_flush_cards hand) -> In c hand /\ suit c = s.
Proof.
  intros E c Hc. rewrite E in Hc. apply firstn_In_incl in Hc.
  apply (proj1 (by_rank_In _ _)) in Hc. now apply of_suit_In in Hc.
Qed.

(** A straight, straight flush or royal flush is five cards of the hand of
    consecutive ranks from the top down; a royal flush starts at the Ace and a
    straight flush does not; both are of one suit; a plain straight is the
    highest run of five ranks the hand holds. *)
Theorem straight_results (hand : list Card) (r : HandRank) (b : list Card) :
  evaluate hand = Ok (r, b) ->
  In r [STRAIGHT; STRAIGHT_FLUSH; ROYAL_FLUSH] ->
  exists v,
    map value b = [v; v - 1; v - 2; v - 3; v - 4] /\
    incl b hand /\
    (r = ROYAL_FLUSH -> v = 14) /\
    (r = STRAIGHT_FLUSH -> v <> 14) /\
    (r <> STRAIGHT -> exists s, forall c, In c b -> suit c = s) /\
    (r = STRAIGHT -> forall w, holds_run hand w -> w <= v).
Proof.
  intros E Hr. apply evaluate_path in E. destruct E as [_ P].
  assert (Hshape : forall l, _get_straight_cards l = b -> b <> [] ->
            exists c0 rest, b = c0 :: rest /\
              map value b =
                [value c0; value c0 - 1; value c0 - 2; value c0 - 3;
                 value c0 - 4] /\
              incl b l /\ forall w, holds_run l w -> w <= value c0).
  { intros l El Hne. destruct b as [|c0 rest]; [congruence|].
    destruct (proj2 (straight_cards_spec l) c0 rest El) as (_ & Hm & Hmax).
    exists c0, rest. repeat split; try assumption.
    destruct (straight_shape l) as [_ [_ Hin]]; [congruence|].
    now rewrite El in Hin. }
  assert (Hflush : _get_flush_cards hand <> [] ->
            exists s, forall c, In c (_get_flush_cards hand) ->
                                In c hand /\ suit c = s).
  { intros Hne. destruct (flush_cards_some hand Hne) as (s & _ & Es).
    exists s. now apply flush_suit_run_free. }
  assert (Hsf : forall sf, sf = _get_straight_cards (_get_flush_cards hand) ->
            sf = b -> b <> [] ->
            exists v, map value b = [v; v - 1; v - 2; v - 3; v - 4] /\
              incl b hand /\ value_at b 0 = v /\
              exists s, forall c, In c b -> suit c = s).
  { intros sf -> Eb Hne.
    destruct (Hshape _ Eb Hne) as (c0 & rest & Ec & Hm & Hin & _).
    assert (Hfc : _get_flush_cards hand <> [])
      by (intros E0; rewrite E0 in Eb; subst b; now apply Hne).
    destruct (Hflush Hfc) as (s & Hs).
    exists (value c0). split; [assumption|]. split; [|split].
    - intros c Hc. now apply Hs, Hin.
    - unfold value_at. now rewrite Hm.
    - exists s. intros c Hc. now apply Hs, Hin. }
  inversion P; subst; simpl in Hr;
    try (exfalso; intuition discriminate).
  - match goal with Hne : sf <> [] |- _ =>
      destruct (Hsf sf eq_refl eq_refl Hne) as (v & Hm & Hin & Hv & s & Hs)
    end.
    exists v. split; [assumption|]. split; [assumption|].
    split; [intros _; congruence|]. split; [discriminate|].
    split; [intros _; now exists s | discriminate].
  - match goal with Hne : sf <> [] |- _ =>
      destruct (Hsf sf eq_refl eq_refl Hne) as (v & Hm & Hin & Hv & s & Hs)
    end.
    exists v. split; [assumption|]. split; [assumption|].
    split; [discriminate|]. split; [intros _; congruence|].
    split; [intros _; now exists s | discriminate].
  - match goal with Hne : _get_straight_cards hand <> [] |- _ =>
      destruct (Hshape hand eq_refl Hne)
        as (c0 & rest & Ec & Hm & Hin & Hmax)
    end.
    exists (value c0). split; [assumption|]. split; [assumption|].
    split; [discriminate|]. split; [discriminate|].
    split; [intros Hn; now contradiction Hn | intros _; assumption].
Qed.

Lemma straight_results_witness :
  exists v,
    map value royal_flush_hand = [v; v - 1; v - 2; v - 3; v - 4] /\
    incl royal_flush_hand royal_flush_hand /\
    (ROYAL_FLUSH = ROYAL_FLUSH -> v = 14) /\
    (ROYAL_FLUSH = STRAIGHT_FLUSH -> v <> 14) /\
    (ROYAL_FLUSH <> STRAIGHT ->
     exists s, forall c, In c royal_flush_hand -> suit c = s) /\
    (ROYAL_FLUSH = STRAIGHT ->
     forall w, holds_run royal_flush_hand w -> w <= v).
Proof.
  apply (straight_results royal_flush_hand ROYAL_FLUSH royal_flush_hand).
  - reflexivity.
  - simpl. tauto.
Defined.

(** A flush is the five highest cards of a suit held five times or more, in
    descending rank, and those five hold no run of five ranks. *)
Theorem flush_result (hand : list Card) (b : list Card) :
  evaluate hand = Ok (FLUSH, b) ->
  exists s,
    b = firstn 5 (by_rank (of_suit s hand)) /\
    length b = 5%nat /\
    (forall c, In c b -> In c hand /\ suit c = s) /\
    descending b /\
    (forall c d, In c hand -> suit c = s -> ~ In c b -> In d b ->
                 value c <= value d) /\
    (forall v, ~ holds_run b v).
Proof.
  intros E. apply evaluate_path in E. destruct E as [_ P].
  inversion P; subst.
  match goal with Hne : _get_flush_cards hand <> [] |- _ =>
    destruct (flush_cards_some hand Hne) as (s & Hlen & Es)
  end.
  assert (L : length (_get_flush_cards hand) = 5%nat).
  { rewrite Es. apply length_firstn_le. now rewrite by_rank_length. }
  rewrite firstn_all2 by lia.
  exists s. split; [assumption|]. split; [assumption|].
  split; [now apply flush_suit_run_free|].
  split; [apply flush_cards_sorted|]. split.
  - intros c d Hc Hs Hn Hd. rewrite Es in Hn, Hd.
    apply firstn_highest with (l := of_suit s hand) (n := 5%nat);
      [now apply of_suit_In | assumption | assumption].
  - now apply straight_cards_spec.
Qed.

Lemma flush_result_witness :
  exists s,
    [Ah; Jh; c9h; c5h; c2h] =
      firstn 5 (by_rank (of_suit s [c2h; Ah; c9h; Kd; c5h; Jh])) /\
    length [Ah; Jh; c9h; c5h; c2h] = 5%nat /\
    (forall c, In c [Ah; Jh; c9h; c5h; c2h] ->
               In c [c2h; Ah; c9h; Kd; c5h; Jh] /\ suit c = s) /\
    descending [Ah; Jh; c9h; c5h; c2h] /\
    (forall c d, In c [c2h; Ah; c9h; Kd; c5h; Jh] -> suit c = s ->
                 ~ In c [Ah; Jh; c9h; c5h; c2h] ->
                 In d [Ah; Jh; c9h; c5h; c2h] -> value c <= value d) /\
    (forall v, ~ holds_run [Ah; Jh; c9h; c5h; c2h] v).
Proof.
  apply (flush_result [c2h; Ah; c9h; Kd; c5h; Jh]). reflexivity.
Defined.

(** Four of a kind, three of a kind and a pair: on distinct cards the best
    five are the [n] cards of the highest rank held [n] times, in the order
    of the hand, followed by the [5 - n] highest cards of other ranks, highest
    first.  The hand holds that rank exactly [n] times. *)
Theorem group_results (hand : list Card) (r : HandRank) (b : list Card) :
  NoDup hand -> evaluate hand = Ok (r, b) ->
  In r [FOUR_OF_A_KIND; THREE_OF_A_KIND; PAIR] ->
  exists v group kickers,
    b = group ++ kickers /\
    group = with_value v hand /\
    length group = group_size r /\
    length kickers = (5 - group_size r)%nat /\
    top_rank (group_size r) hand v /\
    descending kickers /\
    (forall c, In c kickers -> In c hand /\ value c <> v) /\
    (forall c d, In c hand -> value c <> v -> ~ In c kickers ->
                 In d kickers -> value c <= value d).
Proof.
  intros Hnd E Hr. apply evaluate_path in E. destruct E as [Hlen P].
  assert (Hk : forall n, (2 <= n <= 4)%nat ->
            (forall v, (vcount v hand <= n)%nat) ->
            _get_n_of_a_kind hand n <> [] ->
            exists v group kickers,
              _get_n_of_a_kind hand n = group ++ kickers /\
              group = with_value v hand /\
              length group = n /\ length kickers = (5 - n)%nat /\
              top_rank n hand v /\ descending kickers /\
              (forall c, In c kickers -> In c hand /\ value c <> v) /\
              (forall c d, In c hand -> value c <> v -> ~ In c kickers ->
                           In d kickers -> value c <= value d)).
  { intros n Hn Hle Hne.
    destruct (n_of_a_kind_not_nil hand n ltac:(lia) Hne) as [v Hv].
    pose proof (Hle v) as Hlev. pose proof (proj1 Hv) as Hgev.
    assert (Hc : vcount v hand = n) by lia.
    exists v, (with_value v hand),
      (firstn (5 - n) (by_rank (without_value v hand))).
    pose proof (without_value_length v hand) as Hw.
    split.
    { rewrite (n_of_a_kind_top hand n v) by (lia || assumption).
      rewrite without_value_by_rank. f_equal.
      apply firstn_all2. unfold vcount in Hc. lia. }
    split; [reflexivity|]. split; [exact Hc|]. split.
    { apply length_firstn_le. rewrite by_rank_length. lia. }
    split; [assumption|]. split.
    { apply StronglySorted_firstn, by_rank_sorted. }
    split.
    - intros c Hc'. apply firstn_In_incl in Hc'.
      apply (proj1 (by_rank_In _ _)) in Hc'. now apply without_value_In in Hc'.
    - intros c d Hc' Hcv Hn' Hd.
      apply firstn_highest with (l := without_value v hand) (n := (5 - n)%nat);
        [now apply without_value_In | assumption | assumption]. }
  inversion P; subst; simpl in Hr; try (exfalso; intuition discriminate).
  - apply (Hk 4%nat); [lia | intros v; now apply vcount_le_4 | assumption].
  - apply (Hk 3%nat); [lia | | assumption].
    intros v.
    match goal with H4 : _get_n_of_a_kind hand 4 = [] |- _ =>
      pose proof (n_of_a_kind_nil_count hand 4 ltac:(lia) H4 v)
    end. lia.
  - apply (Hk 2%nat); [lia | | assumption].
    intros v.
    match goal with H3 : _get_n_of_a_kind hand 3 = [] |- _ =>
      pose proof (n_of_a_kind_nil_count hand 3 ltac:(lia) H3 v)
    end. lia.
Qed.

Lemma group_results_witness :
  exists v group kickers,
    trips_hand = group ++ kickers /\
    group = with_value v trips_hand /\
    length group = 3%nat /\
    length kickers = 2%nat /\
    top_rank 3 trips_hand v /\
    descending kickers /\
    (forall c, In c kickers -> In c trips_hand /\ value c <> v) /\
    (forall c d, In c trips_hand -> value c <> v -> ~ In c kickers ->
                 In d kickers -> value c <= value d).
Proof.
  apply (group_results trips_hand THREE_OF_A_KIND trips_hand).
  - apply NoDup_cards. reflexivity.
  - reflexivity.
  - simpl. tauto.
Defined.

(** A full house is three cards of the highest rank held three times or more
    followed by two cards of the highest other rank held twice or more. *)
Theorem full_house_result (hand : list Card) (b : list Card) :
  evaluate hand = Ok (FULL_HOUSE, b) ->
  exists v w,
    v <> w /\
    map value b = [v; v; v; w; w] /\
    incl b hand /\
    top_rank 3 hand v /\
    top_rank 2 (without_value v hand) w.
Proof.
  intros E. apply evaluate_path in E. destruct E as [_ P].
  inversion P; subst.
  destruct (full_house_cases hand) as [[E _]|(v & w & Hv & Hw & E)];
    [congruence|].
  exists v, w.
  assert (Hvw : v <> w).
  { intros <-. destruct (top_rank_nonempty 2 _ _ ltac:(lia) Hw)
      as (c & cs & Ec & _).
    assert (Hc : In c (with_value v (without_value v hand)))
      by (rewrite Ec; now left).
    apply with_value_In in Hc. destruct Hc as [Hc Hcv].
    apply without_value_In in Hc. tauto. }
  split; [assumption|]. rewrite E. split; [|split; [|now split]].
  - rewrite map_app, <- !firstn_map, !ranks_with_value.
    pose proof (proj1 Hv). pose proof (proj1 Hw).
    destruct (vcount v hand) as [|[|[|n]]]; try lia.
    destruct (vcount w (without_value v hand)) as [|[|m]]; try lia.
    reflexivity.
  - intros c Hc. apply in_app_or in Hc.
    destruct Hc as [Hc|Hc]; apply firstn_In_incl in Hc;
      apply with_value_In in Hc; destruct Hc as [Hc _];
      [assumption | now apply without_value_In in Hc].
Qed.

Lemma full_house_result_witness :
  exists v w,
    v <> w /\
    map value [Th; Td; Tc; c9s; c9h] = [v; v; v; w; w] /\
    incl [Th; Td; Tc; c9s; c9h] [c9s; Th; c2d; Td; c9h; Tc] /\
    top_rank 3 [c9s; Th; c2d; Td; c9h; Tc] v /\
    top_rank 2 (without_value v [c9s; Th; c2d; Td; c9h; Tc]) w.
Proof.
  apply (full_house_result [c9s; Th; c2d; Td; c9h; Tc]). reflexivity.
Defined.

(** Two pair is two cards of each of the two highest ranks held twice, the
    higher pair first, followed by the highest card of any other rank. *)
Theorem two_pair_result (hand : list Card) (b : list Card) :
  evaluate hand = Ok (TWO_PAIR, b) ->
  exists hi lo k,
    lo < hi /\ k <> hi /\ k <> lo /\
    map value b = [hi; hi; lo; lo; k] /\
    incl b hand /\
    two_pair_ranks hand hi lo /\
    (forall c, In c hand -> value c <> hi -> value c <> lo -> value c <= k).
Proof.
  intros E. apply evaluate_path in E. destruct E as [Hlen P].
  destruct (eval_path_reads_cards hand TWO_PAIR b Hlen P eq_refl) as [L I].
  inversion P; subst.
  destruct (two_pair_cases hand) as [[E _]|(hi & lo & Hr & E)]; [congruence|].
  pose proof Hr as (Hlt & Ha & Hb & Hmax).
  rewrite two_pair_kicker_eq in E.
  set (K := firstn 1 (by_rank (without_value lo (without_value hi hand)))) in *.
  assert (LA : length (firstn 2 (with_value hi hand)) = 2%nat)
    by (apply length_firstn_le, Ha).
  assert (LB : length (firstn 2 (with_value lo hand)) = 2%nat)
    by (apply length_firstn_le, Hb).
  assert (LK : length K = 1%nat).
  { rewrite E, !length_app in L. lia. }
  destruct K as [|kc [|]] eqn:EK; try discriminate LK.
  assert (Hkc : In kc (without_value lo (without_value hi hand))).
  { assert (Hin : In kc K) by (rewrite EK; now left).
    unfold K in Hin. apply firstn_In_incl in Hin.
    now apply (proj1 (by_rank_In _ _)) in Hin. }
  apply without_value_In in Hkc. destruct Hkc as [Hkc Hklo].
  apply without_value_In in Hkc. destruct Hkc as [Hkc Hkhi].
  exists hi, lo, (value kc). repeat split; try assumption.
  - rewrite E, !map_app, <- !firstn_map, !ranks_with_value.
    destruct (vcount hi hand) as [|[|n]]; try lia.
    destruct (vcount lo hand) as [|[|m]]; try lia.
    reflexivity.
  - intros c Hc Hchi Hclo.
    destruct (Card_eq_dec c kc) as [->|Hne]; [lia|].
    apply firstn_highest
      with (l := without_value lo (without_value hi hand)) (n := 1%nat).
    + apply without_value_In. split; [|assumption].
      now apply without_value_In.
    + fold K. rewrite EK. intros [Hc'|[]]. congruence.
    + fold K. rewrite EK. now left.
Qed.

Lemma two_pair_result_witness :
  exists hi lo k,
    lo < hi /\ k <> hi /\ k <> lo /\
    map value [Qc; Qh; Td; Tc; Ah] = [hi; hi; lo; lo; k] /\
    incl [Qc; Qh; Td; Tc; Ah] seven_card_hand /\
    two_pair_ranks seven_card_hand hi lo /\
    (forall c, In c seven_card_hand -> value c <> hi -> value c <> lo ->
               value c <= k).
Proof.
  apply (two_pair_result seven_card_hand). reflexivity.
Defined.

(** High card is returned exactly on hands of five or more cards with all
    ranks distinct, no suit held five times and no run of five ranks; the
    best five are then the five highest cards, highest first. *)
Theorem high_card_exactly (hand : list Card) (b : list Card) :
  evaluate hand = Ok (HIGH_CARD, b) <->
  (5 <= length hand)%nat /\
  NoDup (map value hand) /\
  (forall s, (length (of_suit s hand) < 5)%nat) /\
  (forall v, ~ holds_run hand v) /\
  b = firstn 5 (by_rank hand).
Proof.
  rewrite evaluate_path. split.
  - intros [Hlen P]. inversion P; subst.
    split; [assumption|]. split; [now apply no_group_distinct|].
    split; [now apply flush_cards_nil|].
    split; [now apply straight_cards_spec | reflexivity].
  - intros (Hlen & Hd & Hs & Hr & ->). split; [assumption|].
    constructor.
    + now apply no_flush_cards.
    + apply distinct_ranks_no_group; [lia | assumption].
    + now apply straight_cards_spec.
    + apply distinct_ranks_no_group; [lia | assumption].
    + apply two_pair_none. intros x y _ Hx.
      pose proof (distinct_ranks_vcount x hand Hd). lia.
    + apply distinct_ranks_no_group; [lia | assumption].
Qed.

(** The straight-flush search looks only at the five highest cards of the
    flush suit: on distinct cards, at most nine, [evaluate] returns a
    straight flush or royal flush exactly when some suit is held five times
    or more and its five highest cards span four ranks. *)
Theorem straight_flush_exactly (hand : list Card) :
  NoDup hand -> (length hand <= 9)%nat ->
  ((exists r b, evaluate hand = Ok (r, b) /\
                (r = STRAIGHT_FLUSH \/ r = ROYAL_FLUSH)) <->
   (exists s, (5 <= length (of_suit s hand))%nat /\
              let top := firstn 5 (by_rank (of_suit s hand)) in
              value_at top 0 - value_at top 4 = 4)).
Proof.
  intros Hnd Hlen.
  assert (Htop : forall s, (5 <= length (of_suit s hand))%nat ->
            _get_flush_cards hand = firstn 5 (by_rank (of_suit s hand))).
  { intros s Hs.
    destruct (flush_cards_some hand) as (s' & Hs' & E).
    - intros E. pose proof (flush_cards_nil hand E s). lia.
    - rewrite E. destruct (Suit_eqb s' s) eqn:Es;
        [apply Suit_eqb_spec in Es; now subst|].
      assert (s' <> s) by (intros ->; destruct s; discriminate).
      pose proof (two_suits_length s' s hand ltac:(assumption)). lia. }
  assert (Hst : forall s, (5 <= length (of_suit s hand))%nat ->
            let top := firstn 5 (by_rank (of_suit s hand)) in
            _get_straight_cards top =
            if value_at top 0 - value_at top 4 =? 4 then top else []).
  { intros s Hs top.
    assert (Efc : _get_flush_cards hand = top) by now apply Htop.
    destruct (flush_cards_shape hand Hnd) as (s0 & _ & _ & L & D & Hs0);
      [rewrite Efc; intros E0; apply (f_equal (@length Card)) in E0;
       unfold top in E0; rewrite length_firstn_le in E0;
       [discriminate | now rewrite by_rank_length]|].
    rewrite Efc in *. rewrite Forall_forall in Hs0.
    pose proof (flush_cards_sorted hand) as Hso. rewrite Efc in Hso.
    destruct top as [|c0 [|c1 [|c2 [|c3 [|c4 [|]]]]]]; try discriminate L.
    assert (Hv : forall v, (vcount v [c0; c1; c2; c3; c4] <= 1)%nat)
      by (intros v; apply same_card_vcount with s0; [apply D | assumption]).
    pose proof (vcount_distinct_ranks _ Hv) as Hdist. cbn [map] in Hdist.
    unfold value_at. cbn [map nth].
    apply straight_desc5.
    all: repeat match goal with
         | H : StronglySorted _ (_ :: _) |- _ => inversion H; clear H; subst
         | H : Forall _ (_ :: _) |- _ => inversion H; clear H; subst
         | H : NoDup (_ :: _) |- _ => inversion H; clear H; subst
         end;
      unfold Py.in_order, Py.before in *; cbn [map In] in *; lia. }
  split.
  - intros (r & b & E & Hr). apply evaluate_path in E. destruct E as [_ P].
    assert (Hne : _get_straight_cards (_get_flush_cards hand) <> [])
      by (destruct Hr as [-> | ->]; inversion P; subst; assumption).
    destruct (flush_cards_some hand) as (s & Hs & E).
    { intros E0. rewrite E0 in Hne. now apply Hne. }
    exists s. split; [assumption|]. cbv zeta.
    pose proof (Hst s Hs) as Ht. cbv zeta in Ht. rewrite <- E in Ht.
    rewrite <- E.
    destruct (Z.eqb_spec (value_at (_get_flush_cards hand) 0 -
                          value_at (_get_flush_cards hand) 4) 4);
      [assumption | congruence].
  - intros (s & Hs & Ht). cbv zeta in Ht.
    pose proof (Hst s Hs) as Est. cbv zeta in Est.
    rewrite Ht, Z.eqb_refl, <- (Htop s Hs) in Est.
    assert (Hne : _get_straight_cards (_get_flush_cards hand) <> []).
    { rewrite Est, (Htop s Hs). intros E0.
      apply (f_equal (@length Card)) in E0.
      rewrite length_firstn_le in E0; [discriminate|].
      now rewrite by_rank_length. }
    assert (Hlen5 : (5 <= length hand)%nat).
    { pose proof (drawn_filter_length (fun c => Suit_eqb (suit c) s) hand hand
                    (drawn_refl hand Hnd)).
      pose proof (filter_length (fun c => Suit_eqb (suit c) s) hand).
      unfold of_suit, keyed in Hs. cbv beta in *. lia. }
    destruct (Z.eqb_spec
                (value_at (_get_straight_cards (_get_flush_cards hand)) 0) 14).
    + exists ROYAL_FLUSH, (_get_straight_cards (_get_flush_cards hand)).
      split; [|now right]. apply evaluate_path. split; [assumption|].
      now apply path_royal_flush.
    + exists STRAIGHT_FLUSH, (_get_straight_cards (_get_flush_cards hand)).
      split; [|now left]. apply evaluate_path. split; [assumption|].
      now apply path_straight_flush.
Qed.

Lemma straight_flush_exactly_witness :
  (exists r b, evaluate royal_flush_hand = Ok (r, b) /\
               (r = STRAIGHT_FLUSH \/ r = ROYAL_FLUSH)) <->
  (exists s, (5 <= length (of_suit s royal_flush_hand))%nat /\
             let top := firstn 5 (by_rank (of_suit s royal_flush_hand)) in
             value_at top 0 - value_at top 4 = 4).
Proof.
  apply (straight_flush_exactly royal_flush_hand).
  - apply NoDup_cards. reflexivity.
  - simpl. lia.
Defined.

(** Six hearts holding the run 9 to 5 under an Ace: the five highest hearts
    are no run, and the hand is a flush. *)
Example evaluate_six_suited :
  evaluate [c5h; c6h; c7h; c8h; c9h; Ah] = Ok (FLUSH, [Ah; c9h; c8h; c7h; c6h]).
Proof. reflexivity. Qed.

(** * Further properties of the strength calculator *)

(** ** The preflop strength *)

(** The preflop strength wants exactly two cards: any other number raises
    [ValueError], from [_calculate_preflop_strength] and from
    [calculate_full_strength] when no shared card is given; two cards always
    give a value. *)
Theorem preflop_needs_two_cards (gs : GameState) :
  community_cards gs = [] ->
  (length (hand gs) <> 2%nat ->
   _calculate_preflop_strength (hand gs) =
     Raise (ValueError "Preflop hand must contain exactly 2 cards") /\
   calculate_full_strength gs =
     Raise (ValueError "Preflop hand must contain exactly 2 cards")) /\
  (length (hand gs) = 2%nat ->
   exists v, calculate_full_strength gs = Ok v).
Proof.
  intros Hc. unfold calculate_full_strength. rewrite Hc.
  unfold _calculate_preflop_strength. split; intros H.
  - replace (length (hand gs) =? 2)%nat with false
      by (symmetry; now apply Nat.eqb_neq).
    now split.
  - rewrite H. cbn [Nat.eqb negb].
    destruct (_ =? _); eexists; reflexivity.
Qed.

Lemma preflop_needs_two_cards_witness :
  calculate_full_strength (state_of [Ah; Kh; Qh] []) =
    Raise (ValueError "Preflop hand must contain exactly 2 cards") /\
  exists v, calculate_full_strength (state_of [Ah; Kh] []) = Ok v.
Proof.
  split.
  - apply (proj1 (preflop_needs_two_cards (state_of [Ah; Kh; Qh] []) eq_refl)).
    simpl. lia.
  - apply (proj2 (preflop_needs_two_cards (state_of [Ah; Kh] []) eq_refl)).
    reflexivity.
Defined.

Lemma Suit_eqb_sym a b : Suit_eqb a b = Suit_eqb b a.
Proof. now destruct a, b. Qed.

(** The preflop strength does not depend on the order of the two cards. *)
Theorem preflop_strength_symmetric (c1 c2 : Card) :
  _calculate_preflop_strength [c1; c2] = _calculate_preflop_strength [c2; c1].
Proof.
  unfold _calculate_preflop_strength. cbn [length Nat.eqb negb].
  rewrite !sorted_two.
  destruct (Z.ltb_spec (value c1) (value c2)) as [H12|H12],
           (Z.ltb_spec (value c2) (value c1)) as [H21|H21]; try lia;
    try reflexivity.
  assert (E : value c1 = value c2) by lia.
  unfold value_at. cbn [map nth]. rewrite E, Z.eqb_refl. reflexivity.
Qed.

(** ** The draws *)

Lemma get_setitem (k k' : Suit) (v dflt : Z) (d : list (Suit * Z)) :
  Py.get Suit_eqb (Py.setitem Suit_eqb k v d) k' dflt =
  if Suit_eqb k' k then v else Py.get Suit_eqb d k' dflt.
Proof.
  induction d as [|[k0 v0] d IH].
  - reflexivity.
  - cbn [Py.setitem]. destruct (Suit_eqb k k0) eqn:E.
    + apply Suit_eqb_spec in E. subst k0. cbn [Py.get].
      now destruct (Suit_eqb k' k).
    + cbn [Py.get]. rewrite IH.
      destruct (Suit_eqb k' k0) eqn:E0; [|reflexivity].
      apply Suit_eqb_spec in E0. subst k0.
      rewrite Suit_eqb_sym in E. now rewrite E.
Qed.

Lemma setitem_keys (k : Suit) (v : Z) (d : list (Suit * Z)) :
  NoDup (map fst d) -> NoDup (map fst (Py.setitem Suit_eqb k v d)) /\
  forall k', In k' (map fst (Py.setitem Suit_eqb k v d)) ->
             k' = k \/ In k' (map fst d).
Proof.
  induction d as [|[k0 v0] d IH]; intros N.
  - split; [repeat constructor; simpl; tauto | simpl; intuition].
  - cbn [Py.setitem]. inversion N as [|? ? Hn N']; subst.
    destruct (IH N') as [IH1 IH2].
    destruct (Suit_eqb k k0) eqn:E.
    + split; [exact N | intros k' H; now right].
    + cbn [map fst]. split.
      * constructor; [|exact IH1]. intros H. apply IH2 in H.
        destruct H as [H|H]; [|contradiction].
        subst k0. assert (Suit_eqb k k = true) by now apply Suit_eqb_spec.
        congruence.
      * intros k' [H|H]; [right; now left|].
        apply IH2 in H. destruct H; [now left | right; now right].
Qed.

Lemma count_suit_keys (cards : list Card) (d : list (Suit * Z)) :
  NoDup (map fst d) -> NoDup (map fst (fold_left count_suit cards d)).
Proof.
  revert d. induction cards as [|c cards IH]; intros d N; [exact N|].
  cbn [fold_left]. apply IH. unfold count_suit. now apply setitem_keys.
Qed.

Lemma count_suit_get (cards : list Card) (d : list (Suit * Z)) (s : Suit) :
  Py.get Suit_eqb (fold_left count_suit cards d) s 0 =
  Py.get Suit_eqb d s 0 + Z.of_nat (length (of_suit s cards)).
Proof.
  revert d. induction cards as [|c cards IH]; intros d.
  - cbn. lia.
  - cbn [fold_left]. rewrite IH. unfold count_suit at 1.
    rewrite get_setitem. unfold of_suit, keyed. cbn [filter].
    rewrite (Suit_eqb_sym s (suit c)).
    destruct (Suit_eqb (suit c) s) eqn:E.
    + apply Suit_eqb_spec in E. subst s. cbn [length]. lia.
    + lia.
Qed.

Lemma get_of_In (d : list (Suit * Z)) (k : Suit) (v dflt : Z) :
  NoDup (map fst d) -> In (k, v) d -> Py.get Suit_eqb d k dflt = v.
Proof.
  induction d as [|[k0 v0] d IH]; intros N H; [contradiction|].
  inversion N as [|? ? Hn N']; subst. cbn [Py.get].
  destruct H as [H|H].
  - injection H as -> ->.
    now rewrite (proj2 (Suit_eqb_spec k k) eq_refl).
  - destruct (Suit_eqb k k0) eqn:E; [|now apply IH].
    apply Suit_eqb_spec in E. subst k0. exfalso. apply Hn.
    change k with (fst (k, v)). now apply in_map.
Qed.

Lemma In_of_get (d : list (Suit * Z)) (k : Suit) (v dflt : Z) :
  Py.get Suit_eqb d k dflt = v -> v <> dflt -> In (k, v) d.
Proof.
  induction d as [|[k0 v0] d IH]; intros H Hne; [simpl in H; congruence|].
  cbn [Py.get] in H. destruct (Suit_eqb k k0) eqn:E.
  - apply Suit_eqb_spec in E. subst. now left.
  - right. now apply IH.
Qed.

Lemma flush_draws_fold (suits : list (Suit * Z)) (draws : list (string * Z)) :
  draws = [] \/ draws = [("flush_draw"%string, 9)] ->
  fold_left flush_draw_step suits draws =
  if existsb (fun sc => snd sc =? 4) suits then [("flush_draw"%string, 9)]
  else draws.
Proof.
  revert draws. induction suits as [|sc suits IH]; intros draws H;
    [reflexivity|].
  cbn [fold_left existsb]. unfold flush_draw_step at 2.
  destruct (snd sc =? 4).
  - rewrite IH by (right; destruct H as [-> | ->]; reflexivity).
    cbn [orb]. destruct (existsb _ suits); [reflexivity|].
    destruct H as [-> | ->]; reflexivity.
  - rewrite IH by exact H. reflexivity.
Qed.

Lemma suit_list_In (s : Suit) : In s suit_list.
Proof. destruct s; simpl; tauto. Qed.

Lemma counted_four (cards : list Card) :
  existsb (fun sc => snd sc =? 4) (fold_left count_suit cards []) =
  has_four_of_a_suit cards.
Proof.
  pose proof (count_suit_keys cards [] (NoDup_nil _)) as N.
  apply eq_true_iff_eq. unfold has_four_of_a_suit.
  rewrite !existsb_exists. split.
  - intros ([s n] & Hin & Hn). cbn [snd] in Hn. apply Z.eqb_eq in Hn. subst n.
    exists s. split; [apply suit_list_In|].
    apply (get_of_In _ _ _ 0 N) in Hin.
    rewrite count_suit_get in Hin. cbn [Py.get] in Hin.
    apply Nat.eqb_eq. lia.
  - intros (s & _ & Hs). apply Nat.eqb_eq in Hs.
    exists (s, 4). split; [|reflexivity].
    apply In_of_get with (dflt := 0); [|lia].
    rewrite count_suit_get, Hs. reflexivity.
Qed.

Lemma lowest_window_sum_eq (cards : list Card) (t : Z) :
  (4 <=? length (ascending_ranks cards))%nat
  && (Py.sum (firstn 3 (rank_gaps cards)) =? t) = lowest_window_sum cards t.
Proof.
  unfold lowest_window_sum. rewrite rank_gaps_length. f_equal.
  destruct (length (ascending_ranks cards)) as [|[|[|[|n]]]]; reflexivity.
Qed.

(** The draws recorded, by suit counts and lowest gaps. *)
Lemma identify_draws_closed (cards : list Card) :
  _identify_draws cards =
  (if has_four_of_a_suit cards then [("flush_draw"%string, 9)] else []) ++
  (if lowest_window_sum cards 3 then [("straight_draw"%string, 8)]
   else if lowest_window_sum cards 4 then [("straight_draw"%string, 4)]
   else []).
Proof.
  unfold _identify_draws.
  change (Py.sorted (fun v => v) false (Py.set (map value cards)))
    with (ascending_ranks cards).
  change (map (fun i => nth (i + 1) (ascending_ranks cards) 0 -
                        nth i (ascending_ranks cards) 0)
              (seq 0 (length (ascending_ranks cards) - 1)))
    with (rank_gaps cards).
  rewrite !lowest_window_sum_eq.
  rewrite flush_draws_fold by now left.
  rewrite counted_four.
  destruct (has_four_of_a_suit cards), (lowest_window_sum cards 3),
    (lowest_window_sum cards 4); reflexivity.
Qed.

(** [_identify_draws] in closed form: a flush draw of 9 outs exactly when
    some suit has exactly four cards, followed by a straight draw of 8 outs
    when the three lowest gaps between the distinct ranks sum to 3, or of 4
    outs when they sum to 4.  No other key is ever recorded. *)
Theorem identify_draws_exactly (cards : list Card) :
  _identify_draws cards =
  (if has_four_of_a_suit cards then [("flush_draw"%string, 9)] else []) ++
  (if lowest_window_sum cards 3 then [("straight_draw"%string, 8)]
   else if lowest_window_sum cards 4 then [("straight_draw"%string, 4)]
   else []).
Proof.
  rewrite identify_draws_closed.
  destruct (has_four_of_a_suit cards), (lowest_window_sum cards 3),
    (lowest_window_sum cards 4); reflexivity.
Qed.

(** [lowest_window_sum] decides [window_sums_to] at the lowest window. *)
Lemma lowest_window_sum_spec (cards : list Card) (t : Z) :
  lowest_window_sum cards t = true <-> window_sums_to (rank_gaps cards) 0 t.
Proof.
  unfold lowest_window_sum, window_sums_to. cbn [skipn].
  rewrite andb_true_iff, Nat.leb_le, Z.eqb_eq. reflexivity.
Qed.

(** [_calculate_drawing_strength] in closed form: 0 with five or more shared
    cards; otherwise 0.4 when some suit has exactly four cards among hole and
    shared cards, else 0.35 when the three lowest rank gaps sum to 3, else
    0.25 when they sum to 4, else 0. *)
Theorem drawing_strength_exactly (gs : GameState) :
  let cards := hand gs ++ community_cards gs in
  _calculate_drawing_strength gs =
  (if (5 <=? length (community_cards gs))%nat then 0
   else if has_four_of_a_suit cards then 0.4
   else if lowest_window_sum cards 3 then 0.35
   else if lowest_window_sum cards 4 then 0.25
   else 0)%float.
Proof.
  intros cards. unfold _calculate_drawing_strength. fold cards.
  destruct (5 <=? length (community_cards gs))%nat; [reflexivity|].
  rewrite identify_draws_closed.
  destruct (has_four_of_a_suit cards), (lowest_window_sum cards 3),
    (lowest_window_sum cards 4); reflexivity.
Qed.

(** ** The made hand and the blend *)

Lemma blend_table_true : blend_table = true.
Proof. vm_compute. reflexivity. Qed.

Lemma blend_table_at (r : HandRank) (v0 v2 : Z) :
  In v0 rank_list -> In v2 rank_list ->
  PrimFloat.leb 0 (made_of r v0 v2) = true /\
  PrimFloat.leb (made_of r v0 v2) (base_strength r) = true /\
  PrimFloat.ltb (made_of r v0 v2)
                (made_of r v0 v2 * 0.7 + 0 * 0.3)%float = false /\
  forall ds, In ds draw_values ->
    PrimFloat.leb (made_of r v0 v2) (blend (made_of r v0 v2) ds) = true.
Proof.
  intros I0 I2.
  assert (Ir : In r all_HandRank) by (destruct r; simpl; tauto).
  pose proof (forallb_In _ _ _ (forallb_In _ _ _
    (forallb_In _ _ _ blend_table_true Ir) I0) I2) as T.
  cbv beta zeta in T.
  apply andb_true_iff in T. destruct T as [T T4].
  apply andb_true_iff in T. destruct T as [T T3].
  apply andb_true_iff in T. destruct T as [T1 T2].
  apply negb_true_iff in T3.
  repeat split; try assumption.
  intros ds Hds. exact (forallb_In _ _ _ T4 Hds).
Qed.

(** The made-hand strength of an evaluated hand, by its category. *)
Lemma made_hand_strength_of (gs : GameState) (r : HandRank) (b : list Card) :
  Forall valid_card (hand gs ++ community_cards gs) ->
  evaluate (hand gs ++ community_cards gs) = Ok (r, b) ->
  exists v0 v2,
    In v0 rank_list /\ In v2 rank_list /\
    (reads_cards r = true -> v0 = value_at b 0 /\ v2 = value_at b 2) /\
    _calculate_made_hand_strength gs = Ok (made_of r v0 v2).
Proof.
  intros Hv E. unfold _calculate_made_hand_strength. rewrite E.
  cbn [bind fst snd].
  apply evaluate_path in E. destruct E as [Hlen P].
  destruct (quality_adjustment_ranks _ r b Hlen Hv P)
    as (v0 & v2 & I0 & I2 & -> & Hread).
  exists v0, v2. repeat split; try assumption; now apply Hread.
Qed.

(** The made-hand strength lies between 0 and the base value of the hand's
    category, and it is that base value for three of a kind and every better
    category. *)
Theorem made_hand_strength_by_category
    (gs : GameState) (r : HandRank) (b : list Card) :
  Forall valid_card (hand gs ++ community_cards gs) ->
  evaluate (hand gs ++ community_cards gs) = Ok (r, b) ->
  exists c,
    _calculate_made_hand_strength gs = Ok c /\
    PrimFloat.leb 0 c = true /\
    PrimFloat.leb c (base_strength r) = true /\
    (4 <= HandRank_value r -> c = base_strength r).
Proof.
  intros Hv E.
  destruct (made_hand_strength_of gs r b Hv E) as (v0 & v2 & I0 & I2 & _ & ->).
  destruct (blend_table_at r v0 v2 I0 I2) as (T1 & T2 & _).
  eexists. split; [reflexivity|]. split; [exact T1|]. split; [exact T2|].
  intros Hr. destruct r; cbn in Hr; try lia; reflexivity.
Qed.

Lemma made_hand_strength_by_category_witness :
  exists c,
    _calculate_made_hand_strength (state_of [c2h; c2d] [c2c; c9s; c5h]) = Ok c /\
    PrimFloat.leb 0 c = true /\
    PrimFloat.leb c (base_strength THREE_OF_A_KIND) = true /\
    (4 <= HandRank_value THREE_OF_A_KIND -> c = base_strength THREE_OF_A_KIND).
Proof.
  apply (made_hand_strength_by_category
           (state_of [c2h; c2d] [c2c; c9s; c5h]) THREE_OF_A_KIND
           [c2h; c2d; c2c; c9s; c5h]).
  - repeat constructor; unfold valid_card; simpl; lia.
  - reflexivity.
Defined.

(** With at least one shared card and five valid cards in all, the full
    strength is the blend of the made-hand strength with the drawing
    strength: it is never below the made-hand strength, and with five or
    more shared cards it is the made-hand strength itself. *)
Theorem full_strength_vs_made (gs : GameState) :
  community_cards gs <> [] ->
  (5 <= length (hand gs ++ community_cards gs))%nat ->
  Forall valid_card (hand gs ++ community_cards gs) ->
  exists c v,
    _calculate_made_hand_strength gs = Ok c /\
    calculate_full_strength gs = Ok v /\
    v = blend c (_calculate_drawing_strength gs) /\
    PrimFloat.leb c v = true /\
    ((5 <= length (community_cards gs))%nat -> v = c).
Proof.
  intros Hne Hlen Hv.
  destruct (evaluate_total _ Hlen) as (r & b & E).
  destruct (made_hand_strength_of gs r b Hv E) as (v0 & v2 & I0 & I2 & _ & Em).
  destruct (blend_table_at r v0 v2 I0 I2) as (_ & _ & T3 & T4).
  exists (made_of r v0 v2), (blend (made_of r v0 v2) (_calculate_drawing_strength gs)).
  split; [exact Em|]. split.
  - unfold calculate_full_strength.
    destruct (community_cards gs) as [|c0 cs]; [congruence|].
    rewrite Em. reflexivity.
  - split; [reflexivity|]. split.
    + apply T4, drawing_strength_values.
    + intros H5. unfold _calculate_drawing_strength.
      replace (5 <=? length (community_cards gs))%nat with true
        by (symmetry; now apply Nat.leb_le).
      unfold blend, Py.max. now rewrite T3.
Qed.

Lemma full_strength_vs_made_witness :
  exists c v,
    _calculate_made_hand_strength (state_of [Ah; Kh] [Qh; Jh; c2d; c7c; c3s])
      = Ok c /\
    calculate_full_strength (state_of [Ah; Kh] [Qh; Jh; c2d; c7c; c3s]) = Ok v /\
    v = blend c (_calculate_drawing_strength
                   (state_of [Ah; Kh] [Qh; Jh; c2d; c7c; c3s])) /\
    PrimFloat.leb c v = true /\
    ((5 <= length (community_cards
                     (state_of [Ah; Kh] [Qh; Jh; c2d; c7c; c3s])))%nat -> v = c).
Proof.
  apply (full_strength_vs_made (state_of [Ah; Kh] [Qh; Jh; c2d; c7c; c3s])).
  - discriminate.
  - simpl. lia.
  - repeat constructor; unfold valid_card; simpl; lia.
Defined.

(** The base strength grows strictly with the category: a better category
    has a strictly higher base value, and the values run from 0.1 for a high
    card to 1.0 for a royal flush. *)
Theorem base_strength_monotone (r1 r2 : HandRank) :
  (HandRank_value r1 < HandRank_value r2 <->
   PrimFloat.ltb (base_strength r1) (base_strength r2) = true) /\
  PrimFloat.leb 0.1 (base_strength r1) = true /\
  PrimFloat.leb (base_strength r1) 1 = true.
Proof.
  destruct r1, r2; vm_compute; (split; [split; intros H|split; reflexivity]);
    try reflexivity; try discriminate; try congruence.
Qed.

(** * The betting code *)

(** ** Printing a card *)

Lemma card_str_table_true : card_str_table = true.
Proof. vm_compute. reflexivity. Qed.

(** [Card.__str__] tells the cards apart: two cards of valid rank that print
    alike are the same card. *)
Theorem Card_str_injective (c1 c2 : Card) :
  valid_card c1 -> valid_card c2 -> Card_str c1 = Card_str c2 -> c1 = c2.
Proof.
  intros V1 V2 E.
  pose proof (forallb_In _ _ _
    (forallb_In _ _ _ card_str_table_true (deck_In c1 V1)) (deck_In c2 V2)) as T.
  cbv beta in T. rewrite E, String.eqb_refl in T. cbn [implb] in T.
  now destruct (Card_eq_dec c1 c2).
Qed.

Lemma Card_str_injective_witness : mkCard 10 CLUBS = Tc.
Proof.
  apply (Card_str_injective (mkCard 10 CLUBS) Tc).
  - unfold valid_card. simpl. lia.
  - unfold valid_card. simpl. lia.
  - reflexivity.
Defined.

(** ** PokerBot.decide_action *)

Lemma opens_all_in_eq (gs : PokerBot.GameState) :
  PokerBot.decide_action gs =
  if opens_all_in gs then Return (ALL_IN, PokerBot.credits_remaining gs)
  else PokerBot.play_hand gs.
Proof.
  unfold PokerBot.decide_action, opens_all_in.
  change (Py.float_of_int (PokerBot.initial_credits - PokerBot.all_in_threshold))
    with 4000%float.
  destruct (PrimFloat.ltb 4000 _), (negb _), (PrimFloat.leb _ _); reflexivity.
Qed.

Lemma evaluate_short (hand : list Card) :
  (length hand < 5)%nat ->
  evaluate hand =
  Raise (ValueError "Need at least 5 cards to evaluate a poker hand").
Proof.
  intros H. unfold evaluate.
  now replace (length hand <? 5)%nat with true
    by (symmetry; now apply Nat.ltb_lt).
Qed.

Lemma evaluate_raises (hand : list Card) (e : exn) :
  evaluate hand = Raise e ->
  (length hand < 5)%nat /\
  e = ValueError "Need at least 5 cards to evaluate a poker hand".
Proof.
  intros H. destruct (Nat.lt_ge_cases (length hand) 5) as [Hl|Hl].
  - rewrite (evaluate_short _ Hl) in H. split; [exact Hl | congruence].
  - destruct (evaluate_total _ Hl) as (r & b & E). congruence.
Qed.

Lemma pot_odds_raises (gs : PokerBot.GameState) (e : error) :
  PokerBot._calculate_pot_odds gs = Throw e <->
  e = ZeroDivisionError /\
  PrimFloat.eqb (PokerBot.current_bet gs) 0 = false /\
  PrimFloat.eqb (PokerBot.pot_size gs + PokerBot.current_bet gs) 0 = true.
Proof.
  unfold PokerBot._calculate_pot_odds, float_truediv.
  destruct (PrimFloat.eqb (PokerBot.current_bet gs) 0);
    destruct (PrimFloat.eqb (PokerBot.pot_size gs + PokerBot.current_bet gs) 0);
    split; try (intros H; discriminate H);
    try (intros (_ & H1 & H2); discriminate);
    try (intros H; injection H as <-; now repeat split).
  - intros (-> & _). reflexivity.
Qed.

(** When [PokerBot.decide_action] raises.  [ValueError] exactly when the
    opening all-in does not apply and the hand has fewer than five cards;
    [ZeroDivisionError] exactly when the opening does not apply, the hand is
    below four of a kind, a bet is to be called and pot and bet sum to 0.
    It raises nothing else. *)
Theorem decide_action_errors (gs : PokerBot.GameState) :
  (PokerBot.decide_action gs =
     Throw (Evaluator
              (ValueError "Need at least 5 cards to evaluate a poker hand")) <->
   opens_all_in gs = false /\ (length (PokerBot.hand gs) < 5)%nat) /\
  (PokerBot.decide_action gs = Throw ZeroDivisionError <->
   opens_all_in gs = false /\
   (exists r b, evaluate (PokerBot.hand gs) = Ok (r, b) /\
                HandRank_value r < 8) /\
   PrimFloat.eqb (PokerBot.current_bet gs) 0 = false /\
   PrimFloat.eqb (PokerBot.pot_size gs + PokerBot.current_bet gs) 0 = true) /\
  (forall e, PokerBot.decide_action gs = Throw e ->
     e = Evaluator
           (ValueError "Need at least 5 cards to evaluate a poker hand") \/
     e = ZeroDivisionError).
Proof.
  rewrite opens_all_in_eq.
  destruct (opens_all_in gs).
  { split; [|split].
    - split; [discriminate | intros [H _]; discriminate H].
    - split; [discriminate | intros [H _]; discriminate H].
    - discriminate. }
  unfold PokerBot.play_hand, PokerBot.evaluate_hand.
  destruct (evaluate (PokerBot.hand gs)) as [[r b]|e0] eqn:E.
  - assert (Hlen : (5 <= length (PokerBot.hand gs))%nat)
      by (apply evaluate_path in E; tauto).
    assert (Hodds : forall e,
      (if PokerBot.very_strong r
       then if PrimFloat.leb (PokerBot.pot_size gs * 3) (PokerBot.stack_size gs)
            then Return (RAISE, (PokerBot.pot_size gs * 3)%float)
            else Return (ALL_IN, PokerBot.stack_size gs)
       else
         pot_odds <~ PokerBot._calculate_pot_odds gs ;;
         (let hand_strength := PokerBot._calculate_hand_strength r in
          if PrimFloat.ltb 0.8 hand_strength
          then Return (RAISE, Py.min (PokerBot.pot_size gs * 2)
                                     (PokerBot.stack_size gs))
          else if PrimFloat.ltb 0.6 hand_strength
          then if PrimFloat.ltb hand_strength pot_odds
               then Return (CALL, PokerBot.current_bet gs)
               else Return (RAISE, Py.min (PokerBot.pot_size gs)
                                          (PokerBot.stack_size gs))
          else if PrimFloat.ltb 0.4 hand_strength
          then if PrimFloat.ltb hand_strength pot_odds
               then Return (CALL, PokerBot.current_bet gs)
               else Return (FOLD, 0%float)
          else Return (FOLD, 0%float))) = Throw e <->
      HandRank_value r < 8 /\ PokerBot._calculate_pot_odds gs = Throw e).
    { intros e. destruct (PokerBot.very_strong r) eqn:Hs.
      - split.
        + destruct (PrimFloat.leb _ _); discriminate.
        + intros [Hr _]. destruct r; cbn in Hr, Hs; try lia; discriminate.
      - assert (Hr : HandRank_value r < 8)
          by (destruct r; cbn in *; try lia; discriminate).
        destruct (PokerBot._calculate_pot_odds gs) as [o|e1]; cbn [obind].
        + split; [|intros [_ H]; discriminate H].
          cbv zeta.
          repeat match goal with
                 | |- context [if ?c then _ else _] => destruct c
                 end; discriminate.
        + split; [intros H; split; [exact Hr | congruence]
                 | intros [_ H]; congruence]. }
    split; [|split].
    + split; [intros H; apply Hodds in H; destruct H as [_ H];
              apply pot_odds_raises in H; destruct H as [H _]; discriminate H
             | intros [_ H]; lia].
    + split.
      * intros H. apply Hodds in H. destruct H as [Hr H].
        apply pot_odds_raises in H. destruct H as (_ & H1 & H2).
        split; [reflexivity|]. split; [now exists r, b|]. now split.
      * intros (_ & (r' & b' & E' & Hr) & H1 & H2).
        assert (r' = r) by congruence. subst r'.
        apply Hodds. split; [exact Hr|]. apply pot_odds_raises. now repeat split.
    + intros e H. apply Hodds in H. destruct H as [_ H].
      apply pot_odds_raises in H. right. tauto.
  - destruct (evaluate_raises _ _ E) as [Hl ->].
    split; [|split].
    + split; [intros _; now split | reflexivity].
    + split; [discriminate|].
      intros (_ & (r & b & E' & _) & _). congruence.
    + intros e H. left. congruence.
Qed.

(** What [PokerBot.decide_action] returns: never [CHECK]; a fold is of
    amount 0, a call of the current bet, an all-in of the credits left or of
    the stack, and a raise of three times the pot or of the pot, once or
    twice, capped by the stack. *)
Theorem decide_action_amounts
    (gs : PokerBot.GameState) (a : Action) (amount : float) :
  PokerBot.decide_action gs = Return (a, amount) ->
  match a with
  | CHECK => False
  | FOLD => amount = 0%float
  | CALL => amount = PokerBot.current_bet gs
  | ALL_IN => amount = PokerBot.credits_remaining gs \/
              amount = PokerBot.stack_size gs
  | RAISE => amount = (PokerBot.pot_size gs * 3)%float \/
             amount = Py.min (PokerBot.pot_size gs * 2) (PokerBot.stack_size gs) \/
             amount = Py.min (PokerBot.pot_size gs) (PokerBot.stack_size gs)
  end.
Proof.
  rewrite opens_all_in_eq.
  destruct (opens_all_in gs).
  { intros H. injection H as <- <-. now left. }
  unfold PokerBot.play_hand.
  destruct (PokerBot.evaluate_hand _) as [[r b]|e]; [|discriminate].
  destruct (PokerBot.very_strong r).
  { destruct (PrimFloat.leb _ _); intros H; injection H as <- <-;
      [now left | now right]. }
  destruct (PokerBot._calculate_pot_odds gs) as [o|e]; [|discriminate].
  cbn [obind]. cbv zeta.
  repeat match goal with
         | |- context [if ?c then _ else _] => destruct c
         end; intros H; injection H as <- <-; tauto.
Qed.

Lemma decide_action_amounts_witness : 10%float = 10%float.
Proof.
  apply (decide_action_amounts (table_of two_pair_hand 10000) CALL 10).
  reflexivity.
Defined.

(** How [PokerBot.decide_action] plays each category once the opening
    all-in does not apply.  Four of a kind and better raise three times the
    pot, or go all-in when the stack does not cover it, and never look at
    the pot odds.  Below that, with pot odds [odds]: flush and full house
    raise twice the pot capped by the stack; a straight and three of a kind
    call when the odds exceed their strength and raise the pot otherwise;
    two pair calls when the odds exceed 0.6 and folds otherwise; a pair and
    a high card fold. *)
Theorem decide_action_by_category
    (gs : PokerBot.GameState) (r : HandRank) (b : list Card) :
  opens_all_in gs = false ->
  evaluate (PokerBot.hand gs) = Ok (r, b) ->
  (8 <= HandRank_value r ->
   PokerBot.decide_action gs =
   if PrimFloat.leb (PokerBot.pot_size gs * 3) (PokerBot.stack_size gs)
   then Return (RAISE, (PokerBot.pot_size gs * 3)%float)
   else Return (ALL_IN, PokerBot.stack_size gs)) /\
  (forall odds, PokerBot._calculate_pot_odds gs = Return odds ->
   PokerBot.decide_action gs =
   Return
     match r with
     | HIGH_CARD | PAIR => (FOLD, 0%float)
     | TWO_PAIR =>
         if PrimFloat.ltb 0.6 odds then (CALL, PokerBot.current_bet gs)
         else (FOLD, 0%float)
     | THREE_OF_A_KIND =>
         if PrimFloat.ltb 0.7 odds then (CALL, PokerBot.current_bet gs)
         else (RAISE, Py.min (PokerBot.pot_size gs) (PokerBot.stack_size gs))
     | STRAIGHT =>
         if PrimFloat.ltb 0.8 odds then (CALL, PokerBot.current_bet gs)
         else (RAISE, Py.min (PokerBot.pot_size gs) (PokerBot.stack_size gs))
     | FLUSH | FULL_HOUSE =>
         (RAISE, Py.min (PokerBot.pot_size gs * 2) (PokerBot.stack_size gs))
     | _ =>
         if PrimFloat.leb (PokerBot.pot_size gs * 3) (PokerBot.stack_size gs)
         then (RAISE, (PokerBot.pot_size gs * 3)%float)
         else (ALL_IN, PokerBot.stack_size gs)
     end).
Proof.
  intros Ho E. rewrite opens_all_in_eq, Ho.
  unfold PokerBot.play_hand, PokerBot.evaluate_hand. rewrite E.
  split.
  - intros Hr. destruct r; cbn in Hr; try lia; reflexivity.
  - intros odds ->. cbn [obind].
    destruct r; cbn [PokerBot.very_strong]; cbv zeta;
      repeat match goal with
             | |- context [PrimFloat.ltb ?a (PokerBot._calculate_hand_strength ?r)] =>
                 let v := eval vm_compute in
                   (PrimFloat.ltb a (PokerBot._calculate_hand_strength r)) in
                 change (PrimFloat.ltb a (PokerBot._calculate_hand_strength r))
                   with v
             end;
      cbn [PokerBot._calculate_hand_strength];
      repeat match goal with
             | |- context [if ?c then _ else _] => destruct c
             end; reflexivity.
Qed.

Lemma decide_action_by_category_witness :
  PokerBot.decide_action (table_of two_pair_hand 3000) =
  Return (CALL, 10%float).
Proof.
  destruct (decide_action_by_category (table_of two_pair_hand 3000)
              TWO_PAIR two_pair_hand eq_refl eq_refl) as [_ H].
  exact (H _ eq_refl).
Defined.

(** ** Dicts *)

Section DictFacts.
Context {K V : Type} (eqb : K -> K -> bool).
Hypothesis eqb_spec : forall a b, eqb a b = true <-> a = b.

Lemma dict_eqb_refl (k : K) : eqb k k = true.
Proof. now apply eqb_spec. Qed.

Lemma dict_eqb_swap (a b : K) : eqb a b = eqb b a.
Proof.
  destruct (eqb a b) eqn:E1, (eqb b a) eqn:E2; try reflexivity.
  - apply eqb_spec in E1. subst. now rewrite dict_eqb_refl in E2.
  - apply eqb_spec in E2. subst. now rewrite dict_eqb_refl in E1.
Qed.

Lemma dict_get_setitem (k k' : K) (v dflt : V) (d : list (K * V)) :
  Py.get eqb (Py.setitem eqb k v d) k' dflt =
  if eqb k' k then v else Py.get eqb d k' dflt.
Proof.
  induction d as [|[k0 v0] d IH].
  - reflexivity.
  - cbn [Py.setitem]. destruct (eqb k k0) eqn:E.
    + apply eqb_spec in E. subst k0. cbn [Py.get].
      now destruct (eqb k' k).
    + cbn [Py.get]. rewrite IH.
      destruct (eqb k' k0) eqn:E0; [|reflexivity].
      apply eqb_spec in E0. subst k0.
      rewrite dict_eqb_swap in E. now rewrite E.
Qed.

Lemma dict_contains_setitem (k k' : K) (v : V) (d : list (K * V)) :
  contains eqb (Py.setitem eqb k v d) k' = eqb k' k || contains eqb d k'.
Proof.
  unfold contains. induction d as [|[k0 v0] d IH].
  - cbn. now rewrite orb_false_r.
  - cbn [Py.setitem]. destruct (eqb k k0) eqn:E.
    + apply eqb_spec in E. subst k0. cbn [existsb fst].
      now destruct (eqb k' k).
    + cbn [existsb fst]. rewrite IH.
      destruct (eqb k' k0), (eqb k' k); reflexivity.
Qed.

Lemma dict_lookup_get (d : list (K * V)) (k : K) (dflt : V) :
  Py.get eqb d k dflt =
  match lookup eqb d k with Some v => v | None => dflt end.
Proof.
  unfold lookup. induction d as [|[k0 v0] d IH]; [reflexivity|].
  cbn [Py.get find fst]. destruct (eqb k k0); [reflexivity | exact IH].
Qed.

Lemma dict_keys_setitem (k : K) (v : V) (d : list (K * V)) :
  contains eqb d k = true ->
  map fst (Py.setitem eqb k v d) = map fst d.
Proof.
  unfold contains. induction d as [|[k0 v0] d IH]; [discriminate|].
  cbn [existsb fst Py.setitem]. destruct (eqb k k0) eqn:E.
  - reflexivity.
  - cbn [orb map fst]. intros H. now rewrite IH.
Qed.

End DictFacts.

(** ** OpponentTracker.track_action *)

Lemma tracker_step (stats : list (Z * OpponentTracker.Stats)) (q : Z)
    (a : Action) (amt : float) (gs : PokerBot.GameState) :
  0 <= OpponentTracker.total_hands
         (Py.get Z.eqb stats q OpponentTracker.new_stats) ->
  snd (OpponentTracker.track_action stats q a amt gs) = Return tt /\
  forall p,
    let old := Py.get Z.eqb stats p OpponentTracker.new_stats in
    let new := Py.get Z.eqb (fst (OpponentTracker.track_action stats q a amt gs))
                 p OpponentTracker.new_stats in
    OpponentTracker.total_hands new =
      (if p =? q then OpponentTracker.total_hands old + 1
       else OpponentTracker.total_hands old) /\
    OpponentTracker.actions new =
      (if p =? q then OpponentTracker.actions old ++ [(a, amt, gs)]
       else OpponentTracker.actions old) /\
    (OpponentTracker.is_raise a && (p =? q) = false ->
     OpponentTracker.aggression_factor new =
     OpponentTracker.aggression_factor old).
Proof.
  intros H0. unfold OpponentTracker.track_action.
  cbn [OpponentTracker.total_hands OpponentTracker.actions
       OpponentTracker.aggression_factor OpponentTracker.vpip
       OpponentTracker.pfr].
  unfold float_div_int.
  destruct (Z.eqb_spec
              (OpponentTracker.total_hands
                 (Py.get Z.eqb stats q OpponentTracker.new_stats) + 1) 0)
    as [Hz|Hz]; [lia|].
  destruct (OpponentTracker.is_raise a); cbn [fst snd];
    (split; [reflexivity|]); intros p; cbv zeta;
    rewrite (dict_get_setitem Z.eqb Z.eqb_eq);
    destruct (Z.eqb_spec p q) as [->|Hpq]; cbn [andb];
    (split; [reflexivity|]); (split; [reflexivity|]); intros Hf;
    (discriminate Hf || reflexivity).
Qed.

Lemma track_all_snoc calls c stats :
  track_all (calls ++ [c]) stats =
  fst (OpponentTracker.track_action (track_all calls stats)
         (fst (fst (fst c))) (snd (fst (fst c))) (snd (fst c)) (snd c)).
Proof. unfold track_all. now rewrite fold_left_app. Qed.

Lemma calls_of_snoc {G : Type} (p : Z)
    (calls : list (Z * Action * float * G)) c :
  calls_of p (calls ++ [c]) =
  calls_of p calls ++ (if fst (fst (fst c)) =? p then [c] else []).
Proof.
  unfold calls_of. rewrite filter_app. cbn [filter].
  now destruct (fst (fst (fst c)) =? p).
Qed.

Lemma track_all_counts calls p :
  let stats := Py.get Z.eqb (track_all calls []) p OpponentTracker.new_stats in
  OpponentTracker.total_hands stats = Z.of_nat (length (calls_of p calls)) /\
  OpponentTracker.actions stats =
    map (fun c => (snd (fst (fst c)), snd (fst c), snd c)) (calls_of p calls) /\
  (forallb (fun c => negb (OpponentTracker.is_raise (snd (fst (fst c)))))
           (calls_of p calls) = true ->
   OpponentTracker.aggression_factor stats = 0%float).
Proof.
  revert p. induction calls as [|c calls IH] using rev_ind; intros p.
  - cbn. auto.
  - cbv zeta. rewrite track_all_snoc, calls_of_snoc.
    destruct c as [[[q a] amt] gs]. cbn [fst snd].
    assert (H0 : 0 <= OpponentTracker.total_hands
                        (Py.get Z.eqb (track_all calls []) q
                                OpponentTracker.new_stats))
      by (rewrite (proj1 (IH q)); lia).
    destruct (tracker_step _ q a amt gs H0) as [_ Hstep].
    destruct (Hstep p) as (Ht & Ha & Hf).
    destruct (IH p) as (IHt & IHa & IHf).
    rewrite Ht, Ha, IHt, IHa. rewrite (Z.eqb_sym p q).
    destruct (Z.eqb_spec q p) as [->|Hqp].
    + rewrite length_app, map_app. cbn [length map fst snd].
      split; [lia|]. split; [reflexivity|].
      rewrite forallb_app. cbn [forallb fst snd]. intros H.
      apply andb_true_iff in H. destruct H as [H1 H2].
      rewrite andb_true_r in H2. apply negb_true_iff in H2.
      rewrite Hf by now rewrite H2. now apply IHf.
    + rewrite app_nil_r. split; [reflexivity|]. split; [reflexivity|].
      intros H. rewrite Hf.
      * now apply IHf.
      * replace (p =? q) with false by (symmetry; apply Z.eqb_neq; congruence).
        apply andb_false_r.
Qed.

(** A tracker that starts empty counts right and never fails: after any
    calls of [track_action], a player's [total_hands] is the number of calls
    that named the player, [actions] lists those calls in order, the
    aggression factor of a player who never raised is 0, and the next call,
    whatever it is, raises nothing. *)
Theorem opponent_tracker_counts
    (calls : list (Z * Action * float * PokerBot.GameState)) (player : Z) :
  let stats :=
    Py.get Z.eqb (track_all calls []) player OpponentTracker.new_stats in
  OpponentTracker.total_hands stats = Z.of_nat (length (calls_of player calls)) /\
  OpponentTracker.actions stats =
    map (fun c => (snd (fst (fst c)), snd (fst c), snd c))
        (calls_of player calls) /\
  (forallb (fun c => negb (OpponentTracker.is_raise (snd (fst (fst c)))))
           (calls_of player calls) = true ->
   OpponentTracker.aggression_factor stats = 0%float) /\
  (forall q a amt gs,
     snd (OpponentTracker.track_action (track_all calls []) q a amt gs) =
     Return tt).
Proof.
  cbv zeta. destruct (track_all_counts calls player) as (H1 & H2 & H3).
  split; [exact H1|]. split; [exact H2|]. split; [exact H3|].
  intros q a amt gs. apply tracker_step.
  rewrite (proj1 (track_all_counts calls q)). lia.
Qed.

(** ** AdvancedPokerBot *)

(** [_handle_preflop].  Below the threshold of the position it folds, also
    on an empty pot; from the threshold on it divides the stack by the pot
    and raises [ZeroDivisionError] exactly when the pot is 0.  It never
    checks; a fold is of amount 0, a call of the current bet, an all-in of
    the stack and only at a strength above 0.8, a raise of 2.5, 3 or 3.5
    times the pot. *)
Theorem handle_preflop_cases (gs : GameState) (strength : float) :
  let min_strength :=
    Py.get Z.eqb AdvancedPokerBot.position_ranges (position gs) 0.3%float in
  (PrimFloat.ltb strength min_strength = true ->
   AdvancedPokerBot._handle_preflop gs strength = Return (FOLD, 0%float)) /\
  (forall e, AdvancedPokerBot._handle_preflop gs strength = Throw e <->
     e = ZeroDivisionError /\
     PrimFloat.ltb strength min_strength = false /\
     PrimFloat.eqb (pot_size gs) 0 = true) /\
  (forall a amount,
     AdvancedPokerBot._handle_preflop gs strength = Return (a, amount) ->
     match a with
     | CHECK => False
     | FOLD => amount = 0%float
     | CALL => amount = current_bet gs
     | ALL_IN => amount = stack_size gs /\ PrimFloat.ltb 0.8 strength = true
     | RAISE => amount = (pot_size gs * 2.5)%float \/
                amount = (pot_size gs * 3)%float \/
                amount = (pot_size gs * 3.5)%float
     end).
Proof.
  cbv zeta. unfold AdvancedPokerBot._handle_preflop, float_truediv.
  destruct (PrimFloat.ltb strength _).
  { split; [reflexivity|]. split.
    - intros e. split; [discriminate | intros (_ & H & _); discriminate H].
    - intros a amount H. injection H as <- <-. reflexivity. }
  split; [discriminate|].
  destruct (PrimFloat.eqb (pot_size gs) 0); cbn [obind].
  { split.
    - intros e. split; [intros H; injection H as <-; now repeat split
                       | intros (-> & _); reflexivity].
    - discriminate. }
  split.
  - intros e. split; [|intros (_ & _ & H); discriminate H].
    repeat match goal with
           | |- context [if ?c then _ else _] => destruct c
           end; discriminate.
  - intros a amount.
    destruct (PrimFloat.ltb 0.8 strength) eqn:E8;
    repeat match goal with
           | |- context [if ?c then _ else _] => destruct c
           end; intros H; injection H as <- <-; tauto.
Qed.

Lemma handle_preflop_cases_witness :
  AdvancedPokerBot._handle_preflop (seat 3 0 "preflop") 0.35 =
  Return (FOLD, 0%float).
Proof.
  apply (proj1 (handle_preflop_cases (seat 3 0 "preflop") 0.35)).
  reflexivity.
Defined.

(** [_lead_betting] with [_calculate_value_bet].  It never folds, calls or
    goes all-in.  Above 0.8 it bets 0.75, 0.66 or 0.5 of the pot, and that
    is where it raises [ZeroDivisionError]: exactly when the pot is 0.
    Above 0.6 it bets 0.6 of the pot; otherwise it checks, for 0. *)
Theorem lead_betting_cases (gs : GameState) (strength : float) :
  (forall e, AdvancedPokerBot._lead_betting gs strength = Throw e <->
     e = ZeroDivisionError /\
     PrimFloat.ltb 0.8 strength = true /\
     PrimFloat.eqb (pot_size gs) 0 = true) /\
  (forall a amount,
     AdvancedPokerBot._lead_betting gs strength = Return (a, amount) ->
     match a with
     | CHECK => amount = 0%float /\
                PrimFloat.ltb 0.8 strength = false /\
                PrimFloat.ltb 0.6 strength = false
     | RAISE =>
         (PrimFloat.ltb 0.8 strength = true /\
          (amount = (pot_size gs * 0.75)%float \/
           amount = (pot_size gs * 0.66)%float \/
           amount = (pot_size gs * 0.5)%float)) \/
         (PrimFloat.ltb 0.8 strength = false /\
          PrimFloat.ltb 0.6 strength = true /\
          amount = (pot_size gs * 0.6)%float)
     | _ => False
     end).
Proof.
  unfold AdvancedPokerBot._lead_betting, AdvancedPokerBot._calculate_value_bet,
    float_truediv.
  destruct (PrimFloat.ltb 0.8 strength).
  - destruct (PrimFloat.eqb (pot_size gs) 0); cbn [obind].
    + split; [|discriminate].
      intros e. split; [intros H; injection H as <-; now repeat split
                       | intros (-> & _); reflexivity].
    + split.
      * intros e. split; [|intros (_ & _ & H); discriminate H].
        repeat match goal with
               | |- context [if ?c then _ else _] => destruct c
               end; discriminate.
      * intros a amount.
        repeat match goal with
               | |- context [if ?c then _ else _] => destruct c
               end; cbn [obind]; intros H; injection H as <- <-; tauto.
  - split.
    + intros e. split; [|intros (_ & H & _); discriminate H].
      repeat match goal with
             | |- context [if ?c then _ else _] => destruct c
             end; discriminate.
    + intros a amount.
      destruct (PrimFloat.ltb 0.6 strength);
        [|destruct (PrimFloat.ltb 0.4 strength)];
        intros H; injection H as <- <-; tauto.
Qed.

(** [_handle_aggression] works out the pot odds first, so it raises
    [ZeroDivisionError] exactly when pot and amount to call sum to 0,
    whatever the strength.  Otherwise it raises three times the pot above
    0.9, calls the amount still to pay, or folds for 0; it never checks and
    never goes all-in. *)
Theorem handle_aggression_cases
    (gs : GameState) (strength : float) (last : Z * Action * float) :
  let required_call := (snd last - current_bet gs)%float in
  (forall e, AdvancedPokerBot._handle_aggression gs strength last = Throw e <->
     e = ZeroDivisionError /\
     PrimFloat.eqb (pot_size gs + required_call) 0 = true) /\
  (forall a amount,
     AdvancedPokerBot._handle_aggression gs strength last = Return (a, amount) ->
     match a with
     | RAISE => amount = (pot_size gs * 3)%float /\
                PrimFloat.ltb 0.9 strength = true
     | CALL => amount = required_call /\ PrimFloat.ltb 0.9 strength = false
     | FOLD => amount = 0%float /\ PrimFloat.ltb 0.9 strength = false
     | _ => False
     end).
Proof.
  cbv zeta. unfold AdvancedPokerBot._handle_aggression, float_truediv.
  destruct (PrimFloat.eqb _ 0); cbn [obind].
  - split; [|discriminate].
    intros e. split; [intros H; injection H as <-; now split
                     | intros (-> & _); reflexivity].
  - split.
    + intros e. split; [|intros (_ & H); discriminate H].
      repeat match goal with
             | |- context [if ?c then _ else _] => destruct c
             end; discriminate.
    + intros a amount.
      destruct (PrimFloat.ltb 0.9 strength);
        [|destruct (PrimFloat.ltb _ strength)];
        intros H; injection H as <- <-; tauto.
Qed.

(** ** EnhancedOpponentTracker *)

Module Import TrackerFacts.
Import EnhancedOpponentTracker.

Lemma new_profile_sound : sound new_profile.
Proof.
  split; [cbn; lia|]. split; [reflexivity|].
  intros kv H. cbn in H.
  repeat (destruct H as [<-|H]; [cbn; lia|]). contradiction.
Qed.

Lemma average_ok x n k :
  n <> 0 ->
  average x n k = Return (((x * Py.float_of_int (n - 1) + k) / Py.float_of_int n)%float).
Proof.
  intros H. unfold average, float_div_int.
  now replace (n =? 0) with false by (symmetry; now apply Z.eqb_neq).
Qed.

Lemma and_then_keeps {X : Type} (f : PlayerProfile -> X) r step :
  (forall p, f (fst (step p)) = f p) ->
  f (fst (and_then r step)) = f (fst r).
Proof. intros H. unfold and_then. destruct (snd r); [apply H | reflexivity]. Qed.

Lemma and_then_ok r step :
  snd r = Return tt -> and_then r step = step (fst r).
Proof. intros H. unfold and_then. now rewrite H. Qed.

Lemma and_then_throw r step e :
  snd r = Throw e -> and_then r step = r.
Proof. intros H. unfold and_then. now rewrite H. Qed.

Ltac step_cases :=
  repeat match goal with
         | |- context [if ?c then _ else _] => destruct c
         | |- context [match average ?x ?n ?k with _ => _ end] =>
             destruct (average x n k)
         | |- context [match ?a with FOLD => _ | _ => _ end] => destruct a
         end.

Lemma update_vpip_total p a gs :
  total_hands (fst (update_vpip p a gs)) = total_hands p.
Proof. unfold update_vpip. step_cases; reflexivity. Qed.

Lemma update_vpip_positions p a gs :
  position_stats (fst (update_vpip p a gs)) = position_stats p.
Proof. unfold update_vpip. step_cases; reflexivity. Qed.

Lemma update_vpip_skip p a gs :
  puts_money a && String.eqb (street gs) "preflop" = false ->
  vpip (fst (update_vpip p a gs)) = vpip p.
Proof. intros H. unfold update_vpip. now rewrite H. Qed.

Lemma update_vpip_ok p a gs :
  total_hands p <> 0 -> snd (update_vpip p a gs) = Return tt.
Proof.
  intros H. unfold update_vpip. rewrite average_ok by exact H.
  now destruct (_ && _).
Qed.

Lemma update_pfr_total p a gs :
  total_hands (fst (update_pfr p a gs)) = total_hands p.
Proof. unfold update_pfr. step_cases; reflexivity. Qed.

Lemma update_pfr_positions p a gs :
  position_stats (fst (update_pfr p a gs)) = position_stats p.
Proof. unfold update_pfr. step_cases; reflexivity. Qed.

Lemma update_pfr_vpip p a gs : vpip (fst (update_pfr p a gs)) = vpip p.
Proof. unfold update_pfr. step_cases; reflexivity. Qed.

Lemma update_pfr_ok p a gs :
  total_hands p <> 0 -> snd (update_pfr p a gs) = Return tt.
Proof.
  intros H. unfold update_pfr. rewrite average_ok by exact H.
  now destruct (_ && _).
Qed.

Lemma update_af_total p a : total_hands (fst (update_af p a)) = total_hands p.
Proof. unfold update_af. step_cases; reflexivity. Qed.

Lemma update_af_positions p a :
  position_stats (fst (update_af p a)) = position_stats p.
Proof. unfold update_af. step_cases; reflexivity. Qed.

Lemma update_af_vpip p a : vpip (fst (update_af p a)) = vpip p.
Proof. unfold update_af. step_cases; reflexivity. Qed.

Lemma update_af_ok p a :
  total_hands p <> 0 -> snd (update_af p a) = Return tt.
Proof.
  intros H. unfold update_af. rewrite !average_ok by exact H.
  destruct a; reflexivity.
Qed.

Lemma update_position_total p a gs :
  total_hands (fst (update_position p a gs)) = total_hands p.
Proof. unfold update_position. now destruct (lookup _ _ _). Qed.

Lemma update_position_vpip p a gs :
  vpip (fst (update_position p a gs)) = vpip p.
Proof. unfold update_position. now destruct (lookup _ _ _). Qed.

Lemma update_bet_size_total p a amt gs :
  total_hands (fst (update_bet_size p a amt gs)) = total_hands p.
Proof.
  unfold update_bet_size.
  destruct (is_raise a); [|reflexivity]. now destruct (obind _ _).
Qed.

Lemma update_bet_size_positions p a amt gs :
  position_stats (fst (update_bet_size p a amt gs)) = position_stats p.
Proof.
  unfold update_bet_size.
  destruct (is_raise a); [|reflexivity]. now destruct (obind _ _).
Qed.

Lemma update_bet_size_vpip p a amt gs :
  vpip (fst (update_bet_size p a amt gs)) = vpip p.
Proof.
  unfold update_bet_size.
  destruct (is_raise a); [|reflexivity]. now destruct (obind _ _).
Qed.

Lemma update_bet_size_result p a amt gs :
  total_hands p <> 0 ->
  snd (update_bet_size p a amt gs) =
  if is_raise a && PrimFloat.eqb (pot_size gs) 0 then Throw ZeroDivisionError
  else Return tt.
Proof.
  intros H. unfold update_bet_size, float_truediv.
  destruct (is_raise a); [|reflexivity].
  destruct (PrimFloat.eqb (pot_size gs) 0); cbn [obind andb]; [reflexivity|].
  now rewrite average_ok by exact H.
Qed.

Lemma update_pos_stats_ok ps a :
  0 <= pos_hands ps ->
  snd (update_pos_stats ps a) = Return tt /\
  pos_hands (fst (update_pos_stats ps a)) = pos_hands ps + 1.
Proof.
  intros H. unfold update_pos_stats. cbn [pos_hands pos_vpip pos_pfr].
  rewrite !average_ok by lia.
  destruct (puts_money a), (is_raise a); cbn [fst snd pos_hands pos_pfr pos_vpip];
    rewrite ?average_ok by lia; cbn [fst snd pos_hands]; now split.
Qed.

Lemma lookup_In {V : Type} (d : list (Z * V)) (k : Z) (v : V) :
  lookup Z.eqb d k = Some v -> In (k, v) d.
Proof.
  unfold lookup. destruct (find _ d) as [[k0 v0]|] eqn:E; [|discriminate].
  intros H. injection H as <-. apply find_some in E. destruct E as [Hin Hk].
  cbn in Hk. apply Z.eqb_eq in Hk. now subst.
Qed.

Lemma lookup_keys {V : Type} (d : list (Z * V)) (k : Z) :
  lookup Z.eqb d k = None <-> ~ In k (map fst d).
Proof.
  unfold lookup. induction d as [|[k0 v0] d IH]; [cbn; tauto|].
  cbn [find fst map In]. destruct (Z.eqb_spec k k0) as [->|Hk].
  - split; [discriminate | tauto].
  - rewrite IH. split; [intros H [H1|H1]; [congruence | tauto] | tauto].
Qed.

Lemma setitem_In {V : Type} (d : list (Z * V)) (k : Z) (v : V) kv :
  In kv (Py.setitem Z.eqb k v d) -> kv = (k, v) \/ In kv d.
Proof.
  induction d as [|[k0 v0] d IH]; cbn [Py.setitem].
  - intros [H|[]]. now left.
  - destruct (Z.eqb_spec k k0) as [->|Hk]; cbn [In].
    + intros [H|H]; [now left | right; now right].
    + intros [H|H]; [right; now left|].
      destruct (IH H); [now left | right; now right].
Qed.

Lemma positions_In (pos : Z) : In pos positions <-> 0 <= pos <= 8.
Proof. unfold positions. cbn. lia. Qed.

Lemma update_position_sound p a gs :
  sound p ->
  sound (fst (update_position p a gs)) /\
  snd (update_position p a gs) =
  if (0 <=? position gs) && (position gs <=? 8) then Return tt
  else Throw (KeyError (IntKey (position gs))).
Proof.
  intros (Ht & Hk & Hh). unfold update_position.
  destruct (lookup Z.eqb (position_stats p) (position gs)) as [ps|] eqn:E.
  - pose proof (lookup_In _ _ _ E) as Hin.
    destruct (update_pos_stats_ok ps a (Hh _ Hin)) as [Hok Hhands].
    cbn [fst snd]. split.
    + split; [exact Ht|]. cbn [position_stats]. split.
      * rewrite (dict_keys_setitem Z.eqb); [exact Hk|].
        unfold contains. apply existsb_exists. exists (position gs, ps).
        split; [exact Hin | apply Z.eqb_refl].
      * intros kv Hkv. apply setitem_In in Hkv. destruct Hkv as [->|Hkv].
        -- cbn [snd]. rewrite Hhands. pose proof (Hh _ Hin). cbn in *. lia.
        -- now apply Hh.
    + rewrite Hok.
      assert (In (position gs) positions).
      { rewrite <- Hk. change (position gs) with (fst (position gs, ps)).
        now apply in_map. }
      apply positions_In in H.
      replace (0 <=? position gs) with true by (symmetry; apply Z.leb_le; lia).
      now replace (position gs <=? 8) with true
        by (symmetry; apply Z.leb_le; lia).
  - cbn [fst snd]. split; [now split|].
    apply lookup_keys in E. rewrite Hk, positions_In in E.
    destruct (Z.leb_spec 0 (position gs)), (Z.leb_spec (position gs) 8);
      try reflexivity. lia.
Qed.

(** The outcome of [track_profile] on a sound profile. *)
Lemma track_profile_sound p a amt gs :
  sound p ->
  sound (fst (track_profile p a amt gs)) /\
  total_hands (fst (track_profile p a amt gs)) = total_hands p + 1 /\
  snd (track_profile p a amt gs) =
  if negb ((0 <=? position gs) && (position gs <=? 8))
  then Throw (KeyError (IntKey (position gs)))
  else if is_raise a && PrimFloat.eqb (pot_size gs) 0
  then Throw ZeroDivisionError
  else Return tt.
Proof.
  intros (Ht & Hk & Hh). unfold track_profile.
  set (p0 := mkPlayerProfile _ _ _ _ _ _ _ _).
  assert (S0 : sound p0) by (split; [cbn; lia | now split]).
  assert (T0 : total_hands p0 = total_hands p + 1) by reflexivity.
  set (r1 := update_vpip p0 a gs).
  assert (T1 : total_hands (fst r1) = total_hands p + 1)
    by (unfold r1; now rewrite update_vpip_total).
  assert (P1 : position_stats (fst r1) = position_stats p)
    by (unfold r1; now rewrite update_vpip_positions).
  assert (O1 : snd r1 = Return tt) by (apply update_vpip_ok; lia).
  rewrite (and_then_ok r1) by exact O1.
  set (r2 := update_pfr (fst r1) a gs).
  assert (T2 : total_hands (fst r2) = total_hands p + 1)
    by (unfold r2; now rewrite update_pfr_total).
  assert (P2 : position_stats (fst r2) = position_stats p)
    by (unfold r2; now rewrite update_pfr_positions).
  assert (O2 : snd r2 = Return tt) by (apply update_pfr_ok; lia).
  rewrite (and_then_ok r2) by exact O2.
  set (r3 := update_af (fst r2) a).
  assert (T3 : total_hands (fst r3) = total_hands p + 1)
    by (unfold r3; now rewrite update_af_total).
  assert (P3 : position_stats (fst r3) = position_stats p)
    by (unfold r3; now rewrite update_af_positions).
  assert (O3 : snd r3 = Return tt) by (apply update_af_ok; lia).
  rewrite (and_then_ok r3) by exact O3.
  assert (S3 : sound (fst r3)).
  { split; [lia|]. rewrite P3. now split. }
  destruct (update_position_sound (fst r3) a gs S3) as [S4 O4].
  set (r4 := update_position (fst r3) a gs) in *.
  assert (T4 : total_hands (fst r4) = total_hands p + 1)
    by (unfold r4; now rewrite update_position_total).
  destruct ((0 <=? position gs) && (position gs <=? 8)); cbn [negb].
  - rewrite (and_then_ok r4) by exact O4.
    split; [|split].
    + destruct S4 as (S4a & S4b & S4c).
      split; [rewrite update_bet_size_total; lia|].
      rewrite update_bet_size_positions. now split.
    + now rewrite update_bet_size_total.
    + apply update_bet_size_result. lia.
  - rewrite (and_then_throw r4 _ _ O4).
    split; [exact S4 | split; [exact T4 | exact O4]].
Qed.

Lemma deque_append_length {A : Type} (x : A) (d : list A) :
  (length d <= 1000)%nat ->
  length (deque_append 1000 x d) = Nat.min 1000 (S (length d)) /\
  exists rest, deque_append 1000 x d = rest ++ [x].
Proof.
  intros H. unfold deque_append.
  destruct (Nat.leb_spec 1000 (length d)) as [Hl|Hl].
  - destruct d as [|y d]; [cbn in Hl; lia|].
    cbn [app tl]. rewrite length_app. cbn [length] in *. split; [lia|].
    now exists d.
  - rewrite length_app. cbn [length]. split; [lia|]. now exists d.
Qed.

Lemma track_action_profiles t q a amt gs :
  player_profiles (fst (track_action t q a amt gs)) =
  Py.setitem Z.eqb q (fst (track_profile (get_stats t q) a amt gs))
             (player_profiles t) /\
  snd (track_action t q a amt gs) = snd (track_profile (get_stats t q) a amt gs) /\
  hand_history (fst (track_action t q a amt gs)) =
  match snd (track_profile (get_stats t q) a amt gs) with
  | Return _ => deque_append 1000 (q, a, amt, gs) (hand_history t)
  | Throw _ => hand_history t
  end.
Proof.
  unfold track_action, get_stats.
  destruct (snd (track_profile _ a amt gs)) as [[]|e]; now repeat split.
Qed.

Lemma get_stats_track_action t q a amt gs p :
  get_stats (fst (track_action t q a amt gs)) p =
  if p =? q then fst (track_profile (get_stats t q) a amt gs)
  else get_stats t p.
Proof.
  unfold get_stats at 1.
  rewrite (proj1 (track_action_profiles t q a amt gs)).
  now rewrite (dict_get_setitem Z.eqb Z.eqb_eq).
Qed.

Lemma track_action_well_formed t q a amt gs :
  well_formed t -> well_formed (fst (track_action t q a amt gs)).
Proof.
  intros [Hh Hs]. split.
  - rewrite (proj2 (proj2 (track_action_profiles t q a amt gs))).
    destruct (snd (track_profile _ _ _ _)); [|exact Hh].
    rewrite (proj1 (deque_append_length _ _ Hh)). lia.
  - intros p. rewrite get_stats_track_action.
    destruct (p =? q); [|apply Hs].
    now apply track_profile_sound.
Qed.

Lemma observe_all_snoc calls c t :
  observe_all (calls ++ [c]) t =
  fst (track_action (observe_all calls t)
         (fst (fst (fst c))) (snd (fst (fst c))) (snd (fst c)) (snd c)).
Proof. unfold observe_all. now rewrite fold_left_app. Qed.

Lemma observe_all_well_formed calls :
  well_formed (observe_all calls new_tracker).
Proof.
  induction calls as [|c calls IH] using rev_ind.
  - split; [cbn; lia|]. intros p. apply new_profile_sound.
  - rewrite observe_all_snoc. now apply track_action_well_formed.
Qed.

End TrackerFacts.

(** On a tracker that started empty, [track_action] raises [KeyError] when
    the position is not one of 0 to 8, [ZeroDivisionError] when a raise or
    all-in comes with a pot of 0, and nothing otherwise.  In each case the
    call is counted in [total_hands]; it is appended to [hand_history] only
    when nothing was raised. *)
Theorem track_action_outcome
    (calls : list (Z * Action * float * GameState))
    (player : Z) (a : Action) (amount : float) (gs : GameState) :
  let t := observe_all calls EnhancedOpponentTracker.new_tracker in
  let after := EnhancedOpponentTracker.track_action t player a amount gs in
  snd after =
    (if negb ((0 <=? position gs) && (position gs <=? 8))
     then Throw (KeyError (IntKey (position gs)))
     else if EnhancedOpponentTracker.is_raise a
             && PrimFloat.eqb (pot_size gs) 0
     then Throw ZeroDivisionError
     else Return tt) /\
  EnhancedOpponentTracker.total_hands
    (EnhancedOpponentTracker.get_stats (fst after) player) =
  EnhancedOpponentTracker.total_hands
    (EnhancedOpponentTracker.get_stats t player) + 1 /\
  EnhancedOpponentTracker.hand_history (fst after) =
    match snd after with
    | Return _ =>
        EnhancedOpponentTracker.deque_append 1000 (player, a, amount, gs)
          (EnhancedOpponentTracker.hand_history t)
    | Throw _ => EnhancedOpponentTracker.hand_history t
    end.
Proof.
  cbv zeta.
  destruct (observe_all_well_formed calls) as [Hh Hs].
  destruct (track_profile_sound _ a amount gs (Hs player)) as (_ & Ht & Ho).
  destruct (track_action_profiles
              (observe_all calls EnhancedOpponentTracker.new_tracker)
              player a amount gs) as (_ & E2 & E3).
  split; [now rewrite E2|]. split.
  - rewrite get_stats_track_action, Z.eqb_refl. exact Ht.
  - rewrite E3, E2. reflexivity.
Qed.

(** The history of a tracker that started empty never holds more than 1000
    calls; a call that raised nothing is its newest entry, and the history
    has grown by one unless it was full. *)
Theorem hand_history_bounded
    (calls : list (Z * Action * float * GameState))
    (player : Z) (a : Action) (amount : float) (gs : GameState) :
  let t := observe_all calls EnhancedOpponentTracker.new_tracker in
  let after := EnhancedOpponentTracker.track_action t player a amount gs in
  (length (EnhancedOpponentTracker.hand_history t) <= 1000)%nat /\
  (snd after = Return tt ->
   length (EnhancedOpponentTracker.hand_history (fst after)) =
     Nat.min 1000 (S (length (EnhancedOpponentTracker.hand_history t))) /\
   exists rest,
     EnhancedOpponentTracker.hand_history (fst after) =
     rest ++ [(player, a, amount, gs)]).
Proof.
  cbv zeta.
  destruct (observe_all_well_formed calls) as [Hh Hs].
  split; [exact Hh|]. intros Hok.
  destruct (track_action_profiles
              (observe_all calls EnhancedOpponentTracker.new_tracker)
              player a amount gs) as (_ & E2 & E3).
  rewrite E3. rewrite <- E2, Hok.
  now apply deque_append_length.
Qed.

Module Import TendencyFacts.
Import EnhancedOpponentTracker.

Lemma track_profile_vpip p a amt gs :
  puts_money a && String.eqb (street gs) "preflop" = false ->
  vpip (fst (track_profile p a amt gs)) = vpip p.
Proof.
  intros H. unfold track_profile.
  rewrite (and_then_keeps vpip)
    by (intros; apply update_bet_size_vpip).
  rewrite (and_then_keeps vpip)
    by (intros; apply update_position_vpip).
  rewrite (and_then_keeps vpip) by (intros; apply update_af_vpip).
  rewrite (and_then_keeps vpip) by (intros; apply update_pfr_vpip).
  now rewrite update_vpip_skip by exact H.
Qed.

Lemma observe_all_vpip calls p :
  forallb (fun c => negb (preflop_money c)) (calls_of p calls) = true ->
  vpip (get_stats (observe_all calls new_tracker) p) = 0%float.
Proof.
  induction calls as [|c calls IH] using rev_ind; [reflexivity|].
  rewrite calls_of_snoc, forallb_app, observe_all_snoc.
  intros H. apply andb_true_iff in H. destruct H as [H1 H2].
  rewrite get_stats_track_action. rewrite (Z.eqb_sym p).
  destruct (Z.eqb_spec (fst (fst (fst c))) p) as [Hp|Hp]; [|now apply IH].
  cbn [forallb] in H2. rewrite andb_true_r in H2.
  apply negb_true_iff in H2. unfold preflop_money in H2.
  rewrite track_profile_vpip by exact H2. rewrite Hp. now apply IH.
Qed.

End TendencyFacts.

(** [get_tendencies] divides [pfr] by [vpip]: on a tracker that started
    empty it raises [ZeroDivisionError] for every player none of whose
    tracked calls put money in the pot before the flop, a player never seen
    among them. *)
Theorem tendencies_need_preflop_money
    (calls : list (Z * Action * float * GameState)) (player : Z) :
  forallb (fun c => negb (preflop_money c)) (calls_of player calls) = true ->
  EnhancedOpponentTracker.get_tendencies
    (observe_all calls EnhancedOpponentTracker.new_tracker) player =
  Throw ZeroDivisionError.
Proof.
  intros H. unfold EnhancedOpponentTracker.get_tendencies, float_truediv.
  rewrite (observe_all_vpip calls player H). reflexivity.
Qed.

Lemma tendencies_need_preflop_money_witness :
  EnhancedOpponentTracker.get_tendencies
    (observe_all [(1, RAISE, 50%float, seat 0 100 "preflop");
                  (2, RAISE, 50%float, seat 0 100 "flop");
                  (2, FOLD, 0%float, seat 0 100 "preflop")]
                 EnhancedOpponentTracker.new_tracker) 2 =
  Throw ZeroDivisionError.
Proof.
  apply (tendencies_need_preflop_money
           [(1, RAISE, 50%float, seat 0 100 "preflop");
            (2, RAISE, 50%float, seat 0 100 "flop");
            (2, FOLD, 0%float, seat 0 100 "preflop")] 2).
  reflexivity.
Defined.

(** ** StrategyAdjustor *)

(** With player counts below [2^53], [get_tournament_stage_adjustments]
    raises [ZeroDivisionError] exactly when [total_players] is 0 or
    [avg_stack] is 0, and nothing else.  What it returns has the three keys
    of the stage's weights, in their order, and the call threshold of the
    stage unchanged; the stage is one of the four of [strategy_weights]. *)
Theorem stage_adjustments_shape
    (stack_size avg_stack : float) (players_remaining total_players : Z) :
  Z.abs players_remaining < 2 ^ 53 -> Z.abs total_players < 2 ^ 53 ->
  let result :=
    StrategyAdjustor.get_tournament_stage_adjustments
      stack_size avg_stack players_remaining total_players in
  (forall e, result = Throw e <->
     e = ZeroDivisionError /\
     (total_players = 0 \/ PrimFloat.eqb avg_stack 0 = true)) /\
  (forall adjustments, result = Return adjustments ->
     map fst adjustments =
       ["aggression"; "bluff_frequency"; "call_threshold"]%string /\
     exists stage weights,
       StrategyAdjustor._determine_tournament_stage
         players_remaining total_players = Return stage /\
       In (stage, weights) StrategyAdjustor.strategy_weights /\
       StrategyAdjustor.getitem adjustments "call_threshold" =
       StrategyAdjustor.getitem weights "call_threshold").
Proof.
  intros _ _. cbv zeta.
  unfold StrategyAdjustor.get_tournament_stage_adjustments,
    StrategyAdjustor._determine_tournament_stage, int_truediv, float_truediv.
  destruct (Z.eqb_spec total_players 0) as [Hz|Hz]; cbn [obind].
  { split; [|discriminate].
    intros e. split; [intros H; injection H as <-; split; [reflexivity | now left]
                     | intros (-> & _); reflexivity]. }
  destruct (PrimFloat.eqb avg_stack 0) eqn:Ha.
  { split.
    - intros e. split.
      + repeat (cbn [obind];
                match goal with
                | |- context [if ?c then _ else _] => destruct c
                end); cbn [obind]; intros H; injection H as <-;
          (split; [reflexivity | now right]).
      + intros (-> & _).
        repeat (cbn [obind];
                match goal with
                | |- context [if ?c then _ else _] => destruct c
                end); reflexivity.
    - intros adjustments.
      repeat (cbn [obind];
              match goal with
              | |- context [if ?c then _ else _] => destruct c
              end); discriminate. }
  split.
  - intros e. split.
    + repeat (cbn [obind];
              match goal with
              | |- context [if ?c then _ else _] => destruct c
              end); vm_compute; discriminate.
    + intros (_ & [H|H]); [contradiction | discriminate H].
  - intros adjustments.
    repeat (cbn [obind];
            match goal with
            | |- context [if ?c then _ else _] => destruct c
            end);
      intros H; vm_compute in H; injection H as <-;
      (split; [reflexivity|]);
      eexists; eexists; (split; [reflexivity|]);
      (split; [cbn; tauto | reflexivity]).
Qed.

Lemma stage_adjustments_shape_witness :
  map fst [("aggression"%string, (0.9 * 1.3)%float);
           ("bluff_frequency"%string, (0.3 * 0.7)%float);
           ("call_threshold"%string, 0.5%float)] =
    ["aggression"; "bluff_frequency"; "call_threshold"]%string /\
  exists stage weights,
    StrategyAdjustor._determine_tournament_stage 7 10 = Return stage /\
    In (stage, weights) StrategyAdjustor.strategy_weights /\
    StrategyAdjustor.getitem
      [("aggression"%string, (0.9 * 1.3)%float);
       ("bluff_frequency"%string, (0.3 * 0.7)%float);
       ("call_threshold"%string, 0.5%float)] "call_threshold" =
    StrategyAdjustor.getitem weights "call_threshold".
Proof.
  apply (proj2 (stage_adjustments_shape 100 1000 7 10 eq_refl eq_refl)).
  reflexivity.
Defined.

(** [adjust_for_icm] returns 1.0 outside a tournament without looking at
    the stacks.  In a tournament it divides the stack by the average stack,
    or by the stack itself when none is given, and raises
    [ZeroDivisionError] exactly when that divisor is 0; the pressure it
    returns is 0.7, 1.0 or 1.3 before the money and 0.8, 1.0 or 1.2 in
    it. *)
Theorem adjust_for_icm_cases
    (gs : GameState) (info : StrategyAdjustor.TournamentInfo) :
  let divisor :=
    match StrategyAdjustor.avg_stack info with
    | Some a => a
    | None => stack_size gs
    end in
  let in_money :=
    match StrategyAdjustor.position_in_money info with
    | Some p => negb (PrimFloat.ltb p 1)
    | None => true
    end in
  (StrategyAdjustor.is_tournament info <> Some true ->
   StrategyAdjustor.adjust_for_icm gs info = Return 1%float) /\
  (StrategyAdjustor.is_tournament info = Some true ->
   (forall e, StrategyAdjustor.adjust_for_icm gs info = Throw e <->
      e = ZeroDivisionError /\ PrimFloat.eqb divisor 0 = true) /\
   (forall v, StrategyAdjustor.adjust_for_icm gs info = Return v ->
      if in_money then v = 0.8%float \/ v = 1%float \/ v = 1.2%float
      else v = 0.7%float \/ v = 1%float \/ v = 1.3%float)).
Proof.
  cbv zeta. unfold StrategyAdjustor.adjust_for_icm, float_truediv.
  split.
  - intros H. destruct (StrategyAdjustor.is_tournament info) as [[|]|];
      [congruence | reflexivity | reflexivity].
  - intros ->. cbn [negb].
    destruct (PrimFloat.eqb _ 0); cbn [obind].
    + split; [|discriminate].
      intros e. split; [intros H; injection H as <-; now split
                       | intros (-> & _); reflexivity].
    + split.
      * intros e. split; [|intros (_ & H); discriminate H].
        repeat match goal with
               | |- context [if ?c then _ else _] => destruct c
               end; discriminate.
      * intros v.
        destruct (StrategyAdjustor.position_in_money info) as [p|].
        -- destruct (PrimFloat.ltb p 1); cbn [negb];
             repeat match goal with
                    | |- context [if ?c then _ else _] => destruct c
                    end; intros H; injection H as <-; tauto.
        -- change (PrimFloat.ltb 1 1) with false. cbv iota.
           repeat match goal with
                  | |- context [if ?c then _ else _] => destruct c
                  end; intros H; injection H as <-; tauto.
Qed.

Lemma adjust_for_icm_cases_witness :
  StrategyAdjustor.adjust_for_icm (seat 0 100 "flop")
    (StrategyAdjustor.mkTournamentInfo None (Some 0%float) None) =
  Return 1%float.
Proof.
  apply (proj1 (adjust_for_icm_cases (seat 0 100 "flop")
                  (StrategyAdjustor.mkTournamentInfo None (Some 0%float) None))).
  discriminate.
Defined.

(** ** Made hands across categories *)

Lemma high_card_top_rank (hand : list Card) (b : list Card) :
  Forall valid_card hand -> evaluate hand = Ok (HIGH_CARD, b) ->
  3 <= value_at b 0 <= 14.
Proof.
  intros Hv E. apply evaluate_path in E. destruct E as [Hlen P].
  inversion P as [| | | | | | | | | Hf H4 Hs H3 Htp Hp]; subst.
  pose proof (no_group_distinct hand Hp) as Hd.
  pose proof (by_rank_length hand) as Hl.
  pose proof (by_rank_sorted hand) as Hsort.
  assert (Hperm : Permutation (by_rank hand) hand)
    by (unfold by_rank; apply sorted_perm).
  assert (Hd' : NoDup (map value (by_rank hand))).
  { apply (Permutation_NoDup (l := map value hand)); [|exact Hd].
    apply Permutation_map. now apply Permutation_sym. }
  assert (Hin : forall c, In c (by_rank hand) -> valid_card c).
  { intros c Hc. apply (proj1 (by_rank_In _ _)) in Hc.
    rewrite Forall_forall in Hv. now apply Hv. }
  destruct (by_rank hand) as [|c0 [|c1 l]]; try (cbn in Hl; lia).
  unfold value_at. cbn [firstn map nth].
  pose proof (Hin c0 (or_introl eq_refl)) as V0.
  pose proof (Hin c1 (or_intror (or_introl eq_refl))) as V1.
  unfold valid_card in V0, V1.
  inversion Hsort as [|? ? _ Hall]; subst.
  inversion Hall as [|? ? H01 _]; subst.
  unfold Py.in_order, Py.before in H01. apply Z.ltb_ge in H01.
  cbn [map] in Hd'. inversion Hd' as [|? ? Hn _]; subst.
  assert (value c0 <> value c1) by (intros Heq; apply Hn; left; congruence).
  lia.
Qed.

(** The made-hand strength does not follow the categories: a hand whose
    best is a pair of deuces scores exactly 0, and every high-card hand of
    valid cards scores above 0. *)
Theorem pair_of_deuces_below_high_card
    (gs gs' : GameState) (b b' : list Card) :
  Forall valid_card (hand gs ++ community_cards gs) ->
  Forall valid_card (hand gs' ++ community_cards gs') ->
  evaluate (hand gs ++ community_cards gs) = Ok (PAIR, b) ->
  value_at b 0 = 2 ->
  evaluate (hand gs' ++ community_cards gs') = Ok (HIGH_CARD, b') ->
  _calculate_made_hand_strength gs = Ok 0%float /\
  exists c', _calculate_made_hand_strength gs' = Ok c' /\
             PrimFloat.ltb 0 c' = true.
Proof.
  intros Hv Hv' E H2 E'.
  destruct (made_hand_strength_of gs PAIR b Hv E)
    as (v0 & v2 & _ & _ & Hread & ->).
  destruct (Hread eq_refl) as [-> _]. rewrite H2.
  split; [reflexivity|].
  destruct (made_hand_strength_of gs' HIGH_CARD b' Hv' E')
    as (w0 & w2 & _ & _ & Hread' & ->).
  destruct (Hread' eq_refl) as [-> _].
  pose proof (high_card_top_rank _ _ Hv' E') as Htop.
  eexists. split; [reflexivity|].
  unfold made_of, quality_of.
  assert (Hc : In (value_at b' 0) [3; 4; 5; 6; 7; 8; 9; 10; 11; 12; 13; 14])
    by (cbn; lia).
  cbn [In] in Hc.
  repeat (destruct Hc as [<-|Hc]; [reflexivity|]). contradiction.
Qed.

Lemma pair_of_deuces_below_high_card_witness :
  _calculate_made_hand_strength (state_of [c2h; c2d] [c9s; c5h; Qc]) = Ok 0%float /\
  exists c', _calculate_made_hand_strength (state_of [Ah; c9s] [c5h; Qc; c3s])
             = Ok c' /\
             PrimFloat.ltb 0 c' = true.
Proof.
  apply (pair_of_deuces_below_high_card
           (state_of [c2h; c2d] [c9s; c5h; Qc])
           (state_of [Ah; c9s] [c5h; Qc; c3s])
           [c2h; c2d; Qc; c9s; c5h] [Ah; Qc; c9s; c5h; c3s]).
  - repeat constructor; unfold valid_card; simpl; lia.
  - repeat constructor; unfold valid_card; simpl; lia.
  - reflexivity.
  - reflexivity.
  - reflexivity.
Defined.
